(** * The webhook notification pipeline of the Pocketlaw dashboard

    A shallow embedding of [src/services/n8nService.ts],
    [src/services/documentService.ts], [src/services/taskService.ts], of the
    auth context of [src/contexts/AuthContext.tsx] and of the zoom and
    rotation state of [src/components/DocumentViewer.tsx].

    Asynchronous functions are run to completion one after the other (every
    call in the sources is awaited), so an [async] function is a computation
    in a state-and-exception monad over the mutable world: the in-memory task
    array, local storage, the React auth state, and a trace of the observable
    effects (console output, HTTP requests).  What the program reads from
    outside (the system clock, [uuidv4], the answers of the webhook receiver,
    the build-time configuration) comes from an environment of oracles. *)

From Stdlib Require Import ZArith String Ascii List DecimalString Lia.
From Stdlib Require Import Permutation Sorted.
From stdpp Require Import base option list gmap strings.

Open Scope string_scope.
Set Warnings "-register-all".

(** ** JavaScript strings (ASCII fragment) *)

Module Js.

(** [String.prototype.toLowerCase], on the ASCII letters; other bytes are
    left as they are. *)
Definition lower_ascii (c : ascii) : ascii :=
  let n := nat_of_ascii c in
  if (65 <=? n)%nat && (n <=? 90)%nat then ascii_of_nat (n + 32) else c.

Fixpoint toLowerCase (s : string) : string :=
  match s with
  | EmptyString => EmptyString
  | String c s' => String (lower_ascii c) (toLowerCase s')
  end.

(** [String.prototype.includes]: [sub] occurs in [s] as a substring. *)
Fixpoint includes (s sub : string) : bool :=
  String.prefix sub s ||
  match s with
  | EmptyString => false
  | String _ s' => includes s' sub
  end.

(** [Array.prototype.includes] on an array of strings. *)
Definition arr_includes (l : list string) (x : string) : bool :=
  existsb (String.eqb x) l.

(** [Number.prototype.toString] on an integer. *)
Definition toString (n : Z) : string := NilZero.string_of_int (Z.to_int n).

(** [[...new Set(l)]]: duplicates removed, first occurrences kept in order. *)
Fixpoint uniq_from (seen l : list string) : list string :=
  match l with
  | [] => []
  | x :: l' =>
      if arr_includes seen x then uniq_from seen l'
      else x :: uniq_from (x :: seen) l'
  end.

Definition uniq (l : list string) : list string := uniq_from [] l.

(** A JavaScript truthiness test on a string. *)
Definition truthy (s : string) : bool := negb (String.eqb s "").

(** [a || b] on an optional string: [undefined] and [""] are falsy. *)
Definition or_else (a : option string) (b : string) : string :=
  match a with
  | Some s => if truthy s then s else b
  | None => b
  end.

End Js.

(** ** Dates

    A reading of the clock is its time value, the milliseconds since the
    epoch.  A [Date] object handed in by a caller is a time value or, when
    it was built from something that is no date, the invalid date. *)

Module Date.

(** A [Date] object.  (The language keeps a time value within 8.64e15
    milliseconds of the epoch; nothing below depends on the bound.) *)
Inductive t :=
| At (ms : Z)
| Invalid.

(** The time value of a [Date] object; [None] is NaN. *)
Definition time (d : t) : option Z :=
  match d with
  | At ms => Some ms
  | Invalid => None
  end.

Definition msPerDay : Z := 86400000.

(** Days since 1970-01-01 of a proleptic Gregorian date. *)
Definition days_from_civil (y m d : Z) : Z :=
  let y' := if (m <=? 2)%Z then (y - 1)%Z else y in
  let era := (y' / 400)%Z in
  let yoe := (y' - era * 400)%Z in
  let mp := if (2 <? m)%Z then (m - 3)%Z else (m + 9)%Z in
  let doy := ((153 * mp + 2) / 5 + d - 1)%Z in
  let doe := (yoe * 365 + yoe / 4 - yoe / 100 + doy)%Z in
  (era * 146097 + doe - 719468)%Z.

(** [new Date('YYYY-MM-DD')]: a date-only string is midnight UTC. *)
Definition of_ymd (y m d : Z) : Z := (days_from_civil y m d * msPerDay)%Z.

(** Year, month and day of a day number. *)
Definition civil_from_days (z0 : Z) : Z * Z * Z :=
  let z := (z0 + 719468)%Z in
  let era := (z / 146097)%Z in
  let doe := (z - era * 146097)%Z in
  let yoe := ((doe - doe / 1460 + doe / 36524 - doe / 146096) / 365)%Z in
  let doy := (doe - (365 * yoe + yoe / 4 - yoe / 100))%Z in
  let mp := ((5 * doy + 2) / 153)%Z in
  let d := (doy - (153 * mp + 2) / 5 + 1)%Z in
  let m := if (mp <? 10)%Z then (mp + 3)%Z else (mp - 9)%Z in
  let y := (yoe + era * 400 + (if (m <=? 2)%Z then 1 else 0))%Z in
  (y, m, d).

(** Decimal digits of a natural number, padded on the left to [w] digits. *)
Fixpoint pad_loop (fuel w : nat) (s : string) : string :=
  match fuel with
  | O => s
  | S fuel' =>
      if (String.length s <? w)%nat then pad_loop fuel' w ("0" ++ s) else s
  end.

Definition pad (w : nat) (s : string) : string := pad_loop w w s.

Definition digits (w : nat) (n : Z) : string := pad w (Js.toString n).

(** The year of an ISO string: four digits, or a sign and six digits outside
    0..9999. *)
Definition iso_year (y : Z) : string :=
  if (0 <=? y)%Z && (y <=? 9999)%Z then digits 4 y
  else if (y <? 0)%Z then "-" ++ digits 6 (- y)
  else "+" ++ digits 6 y.

(** [Date.prototype.toISOString]. *)
Definition toISOString (ms : Z) : string :=
  let day := (ms / msPerDay)%Z in
  let r := (ms mod msPerDay)%Z in
  let '(y, m, d) := civil_from_days day in
  iso_year y ++ "-" ++ digits 2 m ++ "-" ++ digits 2 d ++ "T" ++
  digits 2 (r / 3600000) ++ ":" ++ digits 2 (r / 60000 mod 60) ++ ":" ++
  digits 2 (r / 1000 mod 60) ++ "." ++ digits 3 (r mod 1000) ++ "Z".

(** [Date.prototype.getFullYear]: the year in local time, [offset] being the
    minutes local time is ahead of UTC. *)
Definition getFullYear (offset ms : Z) : Z :=
  let '(y, _, _) := civil_from_days ((ms + offset * 60000) / msPerDay) in y.

End Date.

(** ** Exceptions and JSON values *)

Inductive exn :=
| Error (msg : string)
| TypeError (msg : string)
| RangeError (msg : string).

Module Json.

(** The values an envelope is built from.  Numbers are integers (sizes,
    hours, counts).  [BigInt] stands for the values [JSON.stringify]
    refuses. *)
Inductive value :=
| Undefined
| Null
| Bool (b : bool)
| Num (n : Z)
| Str (s : string)
| BigInt (n : Z)
| Arr (l : list value)
| Obj (kvs : list (string * value)).

Definition of_option {A} (f : A -> value) (o : option A) : value :=
  match o with
  | Some a => f a
  | None => Undefined
  end.

Definition strings (l : list string) : value := Arr (map Str l).

Definition hex_digit (n : nat) : string :=
  String.substring n 1 "0123456789abcdef".

Definition escape (c : ascii) : string :=
  let n := nat_of_ascii c in
  if (n =? 34)%nat then String "\" (String c "")
  else if (n =? 92)%nat then "\\"
  else if (n =? 8)%nat then "\b"
  else if (n =? 9)%nat then "\t"
  else if (n =? 10)%nat then "\n"
  else if (n =? 12)%nat then "\f"
  else if (n =? 13)%nat then "\r"
  else if (n <? 32)%nat then "\u00" ++ hex_digit (n / 16) ++ hex_digit (n mod 16)
  else String c "".

Fixpoint escape_all (s : string) : string :=
  match s with
  | EmptyString => ""
  | String c s' => escape c ++ escape_all s'
  end.

Definition quote (s : string) : string :=
  let q := String (ascii_of_nat 34) "" in q ++ escape_all s ++ q.

Fixpoint join (l : list string) : string :=
  match l with
  | [] => ""
  | [x] => x
  | x :: l' => x ++ "," ++ join l'
  end.

(** [JSON.stringify]: [inl] is a thrown exception, [inr None] the result
    [undefined].  A member whose value is [undefined] is left out of an
    object and written [null] in an array. *)
Fixpoint stringify (v : value) : exn + option string :=
  match v with
  | Undefined => inr None
  | Null => inr (Some "null")
  | Bool b => inr (Some (if b then "true" else "false"))
  | Num n => inr (Some (Js.toString n))
  | Str s => inr (Some (quote s))
  | BigInt _ => inl (TypeError "Do not know how to serialize a BigInt")
  | Arr l =>
      let elems :=
        (fix elems (l : list value) : exn + list string :=
           match l with
           | [] => inr []
           | x :: l' =>
               match stringify x with
               | inl e => inl e
               | inr o =>
                   match elems l' with
                   | inl e => inl e
                   | inr r => inr (default "null" o :: r)
                   end
               end
           end) l in
      match elems with
      | inl e => inl e
      | inr r => inr (Some ("[" ++ join r ++ "]"))
      end
  | Obj kvs =>
      let members :=
        (fix members (kvs : list (string * value)) : exn + list string :=
           match kvs with
           | [] => inr []
           | (k, x) :: kvs' =>
               match stringify x with
               | inl e => inl e
               | inr o =>
                   match members kvs' with
                   | inl e => inl e
                   | inr r =>
                       inr (match o with
                            | Some t => (quote k ++ ":" ++ t) :: r
                            | None => r
                            end)
                   end
               end
           end) kvs in
      match members with
      | inl e => inl e
      | inr r => inr (Some ("{" ++ join r ++ "}"))
      end
  end.

(** Property access [v.k] on an object; a key that is absent reads as
    [undefined]. *)
Definition get (k : string) (v : value) : value :=
  match v with
  | Obj kvs =>
      match find (fun kv => String.eqb (fst kv) k) kvs with
      | Some kv => snd kv
      | None => Undefined
      end
  | _ => Undefined
  end.

(** [Object.keys]. *)
Definition keys (v : value) : list string :=
  match v with
  | Obj kvs => map fst kvs
  | _ => []
  end.

End Json.

(** ** The data model *)

(** The acting user as the catalog reads it: [{id, name, email, role}]. *)
Module Actor.
Record t := mk { id : string; name : string; email : string; role : string }.

Definition to_value (u : t) : Json.value :=
  Json.Obj [("id", Json.Str (id u)); ("name", Json.Str (name u));
            ("email", Json.Str (email u)); ("role", Json.Str (role u))].

(** [{ id: user.id, name: user.name, email: user.email, role: user.role }]. *)
Definition snapshot (u : t) : t := mk (id u) (name u) (email u) (role u).
End Actor.

(** [interface N8NWebhookPayload]. *)
Module Payload.
Record t := mk {
  action : string;
  timestamp : string;
  user : Actor.t;
  data : Json.value
}.

Definition to_value (p : t) : Json.value :=
  Json.Obj [("action", Json.Str (action p));
            ("timestamp", Json.Str (timestamp p));
            ("user", Actor.to_value (user p));
            ("data", data p)].
End Payload.

(** [interface DocumentMetadata]; an optional field that is [undefined] (or
    [null] in the mock rows) is [None]. *)
Module DocumentMetadata.
Record t := mk {
  id : string;
  name : string;
  type : string;
  status : string;
  fileUrl : string;
  fileSize : Z;
  mimeType : string;
  tags : list string;
  folderId : option string;
  priority : string;
  dueDate : option string;
  version : Z;
  createdBy : string;
  assignedTo : option string;
  createdAt : string;
  updatedAt : string
}.
End DocumentMetadata.

(** [Partial<DocumentMetadata>]: [None] is a key that is absent; for an
    optional field, [Some None] is a key that is present with the value
    [undefined]. *)
Module PartialDocument.
Record t := mk {
  id : option string;
  name : option string;
  type : option string;
  status : option string;
  fileUrl : option string;
  fileSize : option Z;
  mimeType : option string;
  tags : option (list string);
  folderId : option (option string);
  priority : option string;
  dueDate : option (option string);
  version : option Z;
  createdBy : option string;
  assignedTo : option (option string);
  createdAt : option string;
  updatedAt : option string
}.

Definition empty : t :=
  mk None None None None None None None None None None None None None None
     None None.

Definition field {A} (k : string) (f : A -> Json.value) (o : option A)
  : list (string * Json.value) :=
  match o with
  | Some a => [(k, f a)]
  | None => []
  end.

(** The object itself, its keys in the order of the interface. *)
Definition to_value (u : t) : Json.value :=
  Json.Obj
    (field "id" Json.Str (id u) ++ field "name" Json.Str (name u) ++
     field "type" Json.Str (type u) ++ field "status" Json.Str (status u) ++
     field "fileUrl" Json.Str (fileUrl u) ++
     field "fileSize" Json.Num (fileSize u) ++
     field "mimeType" Json.Str (mimeType u) ++
     field "tags" Json.strings (tags u) ++
     field "folderId" (Json.of_option Json.Str) (folderId u) ++
     field "priority" Json.Str (priority u) ++
     field "dueDate" (Json.of_option Json.Str) (dueDate u) ++
     field "version" Json.Num (version u) ++
     field "createdBy" Json.Str (createdBy u) ++
     field "assignedTo" (Json.of_option Json.Str) (assignedTo u) ++
     field "createdAt" Json.Str (createdAt u) ++
     field "updatedAt" Json.Str (updatedAt u)).

(** [{ ...doc, ...u, updatedAt: now }]. *)
Definition spread (doc : DocumentMetadata.t) (u : t) (now : string)
  : DocumentMetadata.t :=
  {| DocumentMetadata.id := default (DocumentMetadata.id doc) (id u);
     DocumentMetadata.name := default (DocumentMetadata.name doc) (name u);
     DocumentMetadata.type := default (DocumentMetadata.type doc) (type u);
     DocumentMetadata.status :=
       default (DocumentMetadata.status doc) (status u);
     DocumentMetadata.fileUrl :=
       default (DocumentMetadata.fileUrl doc) (fileUrl u);
     DocumentMetadata.fileSize :=
       default (DocumentMetadata.fileSize doc) (fileSize u);
     DocumentMetadata.mimeType :=
       default (DocumentMetadata.mimeType doc) (mimeType u);
     DocumentMetadata.tags := default (DocumentMetadata.tags doc) (tags u);
     DocumentMetadata.folderId :=
       default (DocumentMetadata.folderId doc) (folderId u);
     DocumentMetadata.priority :=
       default (DocumentMetadata.priority doc) (priority u);
     DocumentMetadata.dueDate :=
       default (DocumentMetadata.dueDate doc) (dueDate u);
     DocumentMetadata.version :=
       default (DocumentMetadata.version doc) (version u);
     DocumentMetadata.createdBy :=
       default (DocumentMetadata.createdBy doc) (createdBy u);
     DocumentMetadata.assignedTo :=
       default (DocumentMetadata.assignedTo doc) (assignedTo u);
     DocumentMetadata.createdAt :=
       default (DocumentMetadata.createdAt doc) (createdAt u);
     DocumentMetadata.updatedAt := now |}.
End PartialDocument.

(** The browser's [File], as far as the upload reads it. *)
Module File.
Record t := mk { name : string; type : string; size : Z }.
End File.

Inductive UploadPriority := UpLow | UpMedium | UpHigh.

Definition UploadPriority_str (p : UploadPriority) : string :=
  match p with
  | UpLow => "low"
  | UpMedium => "medium"
  | UpHigh => "high"
  end.

(** [interface DocumentUpload]; [dueDate] is a [Date] object. *)
Module DocumentUpload.
Record t := mk {
  file : File.t;
  folderId : option string;
  tags : option (list string);
  priority : option UploadPriority;
  dueDate : option Date.t
}.
End DocumentUpload.

(** The [Blob] a download returns. *)
Module Blob.
Record t := mk { content : string; type : string }.
End Blob.

Inductive TaskStatus := Todo | InProgress | Review | Completed | Cancelled.

Definition TaskStatus_str (s : TaskStatus) : string :=
  match s with
  | Todo => "todo"
  | InProgress => "in_progress"
  | Review => "review"
  | Completed => "completed"
  | Cancelled => "cancelled"
  end.

Inductive TaskPriority := Low | Medium | High | Urgent.

Definition TaskPriority_str (p : TaskPriority) : string :=
  match p with
  | Low => "low"
  | Medium => "medium"
  | High => "high"
  | Urgent => "urgent"
  end.

(** [interface TaskData]. *)
Module TaskData.
Record t := mk {
  id : string;
  title : string;
  description : string;
  status : TaskStatus;
  priority : TaskPriority;
  dueDate : option string;
  assignedTo : string;
  assignedBy : string;
  documentId : option string;
  estimatedHours : option Z;
  actualHours : option Z;
  tags : list string;
  createdAt : string;
  updatedAt : string
}.
End TaskData.

(** [Partial<TaskData>], read as [PartialDocument]. *)
Module PartialTask.
Record t := mk {
  id : option string;
  title : option string;
  description : option string;
  status : option TaskStatus;
  priority : option TaskPriority;
  dueDate : option (option string);
  assignedTo : option string;
  assignedBy : option string;
  documentId : option (option string);
  estimatedHours : option (option Z);
  actualHours : option (option Z);
  tags : option (list string);
  createdAt : option string;
  updatedAt : option string
}.

Definition empty : t :=
  mk None None None None None None None None None None None None None None.

Definition to_value (u : t) : Json.value :=
  Json.Obj
    (PartialDocument.field "id" Json.Str (id u) ++
     PartialDocument.field "title" Json.Str (title u) ++
     PartialDocument.field "description" Json.Str (description u) ++
     PartialDocument.field "status"
       (fun s => Json.Str (TaskStatus_str s)) (status u) ++
     PartialDocument.field "priority"
       (fun p => Json.Str (TaskPriority_str p)) (priority u) ++
     PartialDocument.field "dueDate" (Json.of_option Json.Str) (dueDate u) ++
     PartialDocument.field "assignedTo" Json.Str (assignedTo u) ++
     PartialDocument.field "assignedBy" Json.Str (assignedBy u) ++
     PartialDocument.field "documentId" (Json.of_option Json.Str)
       (documentId u) ++
     PartialDocument.field "estimatedHours" (Json.of_option Json.Num)
       (estimatedHours u) ++
     PartialDocument.field "actualHours" (Json.of_option Json.Num)
       (actualHours u) ++
     PartialDocument.field "tags" Json.strings (tags u) ++
     PartialDocument.field "createdAt" Json.Str (createdAt u) ++
     PartialDocument.field "updatedAt" Json.Str (updatedAt u)).

(** [{ ...task, ...u, updatedAt: now }]. *)
Definition spread (task : TaskData.t) (u : t) (now : string) : TaskData.t :=
  {| TaskData.id := default (TaskData.id task) (id u);
     TaskData.title := default (TaskData.title task) (title u);
     TaskData.description :=
       default (TaskData.description task) (description u);
     TaskData.status := default (TaskData.status task) (status u);
     TaskData.priority := default (TaskData.priority task) (priority u);
     TaskData.dueDate := default (TaskData.dueDate task) (dueDate u);
     TaskData.assignedTo := default (TaskData.assignedTo task) (assignedTo u);
     TaskData.assignedBy := default (TaskData.assignedBy task) (assignedBy u);
     TaskData.documentId := default (TaskData.documentId task) (documentId u);
     TaskData.estimatedHours :=
       default (TaskData.estimatedHours task) (estimatedHours u);
     TaskData.actualHours :=
       default (TaskData.actualHours task) (actualHours u);
     TaskData.tags := default (TaskData.tags task) (tags u);
     TaskData.createdAt := default (TaskData.createdAt task) (createdAt u);
     TaskData.updatedAt := now |}.
End PartialTask.

(** [interface CreateTaskData]; [dueDate] is a [Date] object. *)
Module CreateTaskData.
Record t := mk {
  title : string;
  description : string;
  priority : TaskPriority;
  dueDate : option Date.t;
  assignedTo : string;
  documentId : option string;
  estimatedHours : option Z;
  tags : option (list string)
}.
End CreateTaskData.

(** The template and the folder, as far as the catalog reads them. *)
Module Template.
Record t := mk {
  id : string;
  name : string;
  category : string;
  isPublic : bool;
  variables : option (list Json.value);
  usageCount : Z
}.
End Template.

Module Folder.
Record t := mk { id : string; name : string; parentId : option string }.
End Folder.

(** The [UserProfile] the auth context stores (the fields of the literals in
    [AuthContext.tsx]). *)
Module UserProfile.
Record t := mk {
  id : string;
  email : string;
  name : string;
  role : string;
  department : string;
  phone : string;
  bio : string;
  createdAt : string;
  updatedAt : string;
  lastLogin : string;
  isActive : bool
}.

Definition actor (u : t) : Actor.t := Actor.mk (id u) (name u) (email u) (role u).
End UserProfile.

(** The row [mapToDocumentMetadata] reads ([data: any]); a key that is
    absent, [undefined] or [null] is [None]. *)
Module DocumentRow.
Record t := mk {
  id : string;
  name : string;
  type : string;
  status : string;
  file_url : string;
  file_size : Z;
  mime_type : string;
  tags : option (list string);
  folder_id : option string;
  priority : string;
  due_date : option string;
  version : Z;
  created_by : string;
  assigned_to : option string;
  created_at : string;
  updated_at : string
}.
End DocumentRow.

(** The mock user every service method passes as the actor. *)
Definition mockUser : Actor.t :=
  {| Actor.id := "current-user-id"; Actor.name := "Current User";
     Actor.email := "user@example.com"; Actor.role := "team" |}.

(** [if (c) tags.push(...items)]. *)
Definition push_if (c : bool) (items tags : list string) : list string :=
  if c then tags ++ items else tags.

(** ** The world *)

(** The [Response] of a [fetch]: [text] is what [response.text()] settles
    to. *)
Module Response.
Record t := mk { status : Z; statusText : string; text : exn + string }.

(** [response.ok]: the status is in the range 200-299. *)
Definition ok (r : t) : bool := (200 <=? status r)%Z && (status r <=? 299)%Z.
End Response.

(** What the program reads from outside.  [clock n] is the time value the
    [n]-th reading of the system clock returns, [uuid n] the [n]-th result of
    [uuidv4()], [network n] the outcome of the [n]-th [fetch]: a rejection or
    a response. *)
Record Env := mkEnv {
  VITE_N8N_TEST_URL : option string;
  VITE_N8N_PRODUCTION_URL : option string;
  DEV : bool;
  userAgent : string;
  utcOffset : Z;
  clock : nat -> Z;
  uuid : nat -> string;
  network : nat -> exn + Response.t
}.

Inductive logarg :=
| LStr (s : string)
| LStrs (l : list string)
| LExn (e : exn).

(** The observable effects.  [SendWebhook p] is a ghost event: it records
    that [sendWebhook] was called with the envelope [p], whatever becomes of
    the delivery, so that one can speak of the envelopes a computation
    emits. *)
Inductive effect :=
| SendWebhook (p : Payload.t)
| ConsoleLog (args : list logarg)
| ConsoleError (args : list logarg)
| Fetch (url method : string) (headers : list (string * string))
        (body : string).

(** The React auth state and its reducer ([AuthContext.tsx]). *)
Module Auth.
Record state := mk {
  user : option UserProfile.t;
  isAuthenticated : bool;
  isLoading : bool
}.

Inductive AuthAction :=
| AUTH_START
| AUTH_SUCCESS (payload : UserProfile.t)
| AUTH_FAILURE
| LOGOUT
| UPDATE_USER (payload : UserProfile.t).

Definition authReducer (st : state) (action : AuthAction) : state :=
  match action with
  | AUTH_START =>
      {| user := user st; isAuthenticated := isAuthenticated st;
         isLoading := true |}
  | AUTH_SUCCESS payload =>
      {| user := Some payload; isAuthenticated := true; isLoading := false |}
  | AUTH_FAILURE =>
      {| user := None; isAuthenticated := false; isLoading := false |}
  | LOGOUT =>
      {| user := None; isAuthenticated := false; isLoading := false |}
  | UPDATE_USER payload =>
      {| user := Some payload; isAuthenticated := isAuthenticated st;
         isLoading := isLoading st |}
  end.

(** The initial state of [useReducer]. *)
Definition init : state :=
  {| user := None; isAuthenticated := false; isLoading := true |}.
End Auth.

(** The mutable state: how many times each oracle was read, the task array
    of [TaskService], local storage, the auth state, and the effects so
    far, oldest first. *)
Record State := mkState {
  ticks : nat;
  uuids : nat;
  fetches : nat;
  mockTasks : list TaskData.t;
  localStorage : gmap string string;
  auth : Auth.state;
  trace : list effect
}.

Inductive Result (A : Type) :=
| Ok (a : A)
| Throw (e : exn).
Arguments Ok {A} a.
Arguments Throw {A} e.

(** An awaited asynchronous computation. *)
Definition M (A : Type) : Type := State -> Result A * State.

#[global] Instance M_ret : MRet M := fun A a s => (Ok a, s).

#[global] Instance M_bind : MBind M := fun A B f m s =>
  match m s with
  | (Ok a, s') => f a s'
  | (Throw e, s') => (Throw e, s')
  end.

Definition throw {A} (e : exn) : M A := fun s => (Throw e, s).

(** [try { m } catch (error) { h error }]. *)
Definition try_catch {A} (m : M A) (h : exn -> M A) : M A := fun s =>
  match m s with
  | (Ok a, s') => (Ok a, s')
  | (Throw e, s') => h e s'
  end.

Definition emit (e : effect) : M unit := fun s =>
  (Ok tt,
   {| ticks := ticks s; uuids := uuids s; fetches := fetches s;
      mockTasks := mockTasks s; localStorage := localStorage s;
      auth := auth s; trace := trace s ++ [e] |}).

Definition console_log (args : list logarg) : M unit := emit (ConsoleLog args).
Definition console_error (args : list logarg) : M unit :=
  emit (ConsoleError args).

Definition get_mockTasks : M (list TaskData.t) := fun s => (Ok (mockTasks s), s).

Definition set_mockTasks (l : list TaskData.t) : M unit := fun s =>
  (Ok tt,
   {| ticks := ticks s; uuids := uuids s; fetches := fetches s;
      mockTasks := l; localStorage := localStorage s;
      auth := auth s; trace := trace s |}).

Definition get_auth : M Auth.state := fun s => (Ok (auth s), s).

Definition dispatch (a : Auth.AuthAction) : M unit := fun s =>
  (Ok tt,
   {| ticks := ticks s; uuids := uuids s; fetches := fetches s;
      mockTasks := mockTasks s; localStorage := localStorage s;
      auth := Auth.authReducer (auth s) a; trace := trace s |}).

Definition localStorage_removeItem (k : string) : M unit := fun s =>
  (Ok tt,
   {| ticks := ticks s; uuids := uuids s; fetches := fetches s;
      mockTasks := mockTasks s; localStorage := delete k (localStorage s);
      auth := auth s; trace := trace s |}).

(** The envelopes handed to the transport, oldest first. *)
Definition emitted (t : list effect) : list Payload.t :=
  omap (fun e => match e with SendWebhook p => Some p | _ => None end) t.

Section WithEnv.

Variable env : Env.

(** [new Date()] and [Date.now()]: one reading of the clock. *)
Definition new_Date : M Z := fun s =>
  (Ok (clock env (ticks s)),
   {| ticks := S (ticks s); uuids := uuids s; fetches := fetches s;
      mockTasks := mockTasks s; localStorage := localStorage s;
      auth := auth s; trace := trace s |}).

(** [new Date().toISOString()]. *)
Definition now_iso : M string := d ← new_Date; mret (Date.toISOString d).

Definition uuidv4 : M string := fun s =>
  (Ok (uuid env (uuids s)),
   {| ticks := ticks s; uuids := S (uuids s); fetches := fetches s;
      mockTasks := mockTasks s; localStorage := localStorage s;
      auth := auth s; trace := trace s |}).

(** [await fetch(url, { method, headers, body })]. *)
Definition fetch (url method : string) (headers : list (string * string))
    (body : string) : M Response.t := fun s =>
  let s' :=
    {| ticks := ticks s; uuids := uuids s; fetches := S (fetches s);
       mockTasks := mockTasks s; localStorage := localStorage s;
       auth := auth s; trace := trace s ++ [Fetch url method headers body] |} in
  match network env (fetches s) with
  | inl e => (Throw e, s')
  | inr r => (Ok r, s')
  end.

(** [await response.text()]. *)
Definition response_text (r : Response.t) : M string :=
  match Response.text r with
  | inl e => throw e
  | inr t => mret t
  end.

(** [JSON.stringify] of an object: a string, or an exception. *)
Definition JSON_stringify (v : Json.value) : M string :=
  match Json.stringify v with
  | inl e => throw e
  | inr o => mret (default "undefined" o)
  end.

(** [date.toISOString()] of a [Date] object: a RangeError on the invalid
    date (the text of the message is the V8 engine's). *)
Definition Date_toISOString (date : Date.t) : M string :=
  match date with
  | Date.At ms => mret (Date.toISOString ms)
  | Date.Invalid => throw (RangeError "Invalid time value")
  end.

(** [date?.toISOString()]. *)
Definition Date_toISOString_opt (date : option Date.t) : M (option string) :=
  match date with
  | Some date => iso ← Date_toISOString date; mret (Some iso)
  | None => mret None
  end.

(** *** [class N8NService] *)

Definition testUrl : string :=
  Js.or_else (VITE_N8N_TEST_URL env)
    "https://mzm836987q3287.app.n8n.cloud/webhook-test/proposal-upload".

Definition productionUrl : string :=
  Js.or_else (VITE_N8N_PRODUCTION_URL env)
    "https://mzm836987q3287.app.n8n.cloud/webhook/proposal-upload".

Definition isDevelopment : bool := DEV env.

Definition webhookUrl : string :=
  if isDevelopment then testUrl else productionUrl.

Definition sendWebhook (payload : Payload.t) : M unit :=
  emit (SendWebhook payload);;
  try_catch
    (console_log [LStr "Sending N8N webhook:"; LStr (Payload.action payload);
                  LStr "to"; LStr webhookUrl];;
     body ← JSON_stringify (Payload.to_value payload);
     response ← fetch webhookUrl "POST"
       [("Content-Type", "application/json");
        ("User-Agent", "Pocketlaw-Dashboard/1.0.0")] body;
     (if negb (Response.ok response)
      then throw (Error ("N8N webhook failed: " ++
                         Js.toString (Response.status response) ++ " " ++
                         Response.statusText response))
      else mret tt);;
     responseData ← response_text response;
     console_log [LStr "N8N webhook sent successfully:";
                  LStr (Payload.action payload); LStr responseData])
    (fun error => console_error [LStr "Error sending N8N webhook:"; LExn error]).

(** **** Document events *)

Definition documentUploaded (user : Actor.t) (document : DocumentMetadata.t)
  : M unit :=
  timestamp ← now_iso;
  sendWebhook
    {| Payload.action := "document_uploaded";
       Payload.timestamp := timestamp;
       Payload.user := Actor.snapshot user;
       Payload.data := Json.Obj
         [("document", Json.Obj
            [("id", Json.Str (DocumentMetadata.id document));
             ("name", Json.Str (DocumentMetadata.name document));
             ("type", Json.Str (DocumentMetadata.type document));
             ("size", Json.Num (DocumentMetadata.fileSize document));
             ("folderId",
              Json.of_option Json.Str (DocumentMetadata.folderId document));
             ("tags", Json.strings (DocumentMetadata.tags document));
             ("url", Json.Str (DocumentMetadata.fileUrl document));
             ("status", Json.Str (DocumentMetadata.status document));
             ("priority", Json.Str (DocumentMetadata.priority document))])] |}.

Definition documentViewed (user : Actor.t) (document : DocumentMetadata.t)
  : M unit :=
  timestamp ← now_iso;
  sendWebhook
    {| Payload.action := "document_viewed";
       Payload.timestamp := timestamp;
       Payload.user := Actor.snapshot user;
       Payload.data := Json.Obj
         [("document", Json.Obj
            [("id", Json.Str (DocumentMetadata.id document));
             ("name", Json.Str (DocumentMetadata.name document));
             ("type", Json.Str (DocumentMetadata.type document))])] |}.

Definition documentDownloaded (user : Actor.t) (document : DocumentMetadata.t)
  : M unit :=
  timestamp ← now_iso;
  sendWebhook
    {| Payload.action := "document_downloaded";
       Payload.timestamp := timestamp;
       Payload.user := Actor.snapshot user;
       Payload.data := Json.Obj
         [("document", Json.Obj
            [("id", Json.Str (DocumentMetadata.id document));
             ("name", Json.Str (DocumentMetadata.name document));
             ("type", Json.Str (DocumentMetadata.type document));
             ("size", Json.Num (DocumentMetadata.fileSize document))])] |}.

Definition documentDeleted (user : Actor.t) (document : DocumentMetadata.t)
  : M unit :=
  timestamp ← now_iso;
  sendWebhook
    {| Payload.action := "document_deleted";
       Payload.timestamp := timestamp;
       Payload.user := Actor.snapshot user;
       Payload.data := Json.Obj
         [("document", Json.Obj
            [("id", Json.Str (DocumentMetadata.id document));
             ("name", Json.Str (DocumentMetadata.name document));
             ("type", Json.Str (DocumentMetadata.type document))])] |}.

Definition documentStatusChanged (user : Actor.t)
    (document : DocumentMetadata.t) (oldStatus newStatus : string) : M unit :=
  timestamp ← now_iso;
  sendWebhook
    {| Payload.action := "document_status_changed";
       Payload.timestamp := timestamp;
       Payload.user := Actor.snapshot user;
       Payload.data := Json.Obj
         [("document", Json.Obj
            [("id", Json.Str (DocumentMetadata.id document));
             ("name", Json.Str (DocumentMetadata.name document));
             ("oldStatus", Json.Str oldStatus);
             ("newStatus", Json.Str newStatus)])] |}.

Definition documentShared (user : Actor.t) (document : DocumentMetadata.t)
    (sharedWith : list string) : M unit :=
  timestamp ← now_iso;
  sendWebhook
    {| Payload.action := "document_shared";
       Payload.timestamp := timestamp;
       Payload.user := Actor.snapshot user;
       Payload.data := Json.Obj
         [("document", Json.Obj
            [("id", Json.Str (DocumentMetadata.id document));
             ("name", Json.Str (DocumentMetadata.name document))]);
          ("sharedWith", Json.strings sharedWith)] |}.

Definition documentEdited (user : Actor.t) (document : DocumentMetadata.t)
    (changes : Json.value) : M unit :=
  timestamp ← now_iso;
  sendWebhook
    {| Payload.action := "document_edited";
       Payload.timestamp := timestamp;
       Payload.user := Actor.snapshot user;
       Payload.data := Json.Obj
         [("document", Json.Obj
            [("id", Json.Str (DocumentMetadata.id document));
             ("name", Json.Str (DocumentMetadata.name document));
             ("type", Json.Str (DocumentMetadata.type document))]);
          ("changes", changes)] |}.

(** **** Task events *)

Definition taskCreated (user : Actor.t) (task : TaskData.t) : M unit :=
  timestamp ← now_iso;
  sendWebhook
    {| Payload.action := "task_created";
       Payload.timestamp := timestamp;
       Payload.user := Actor.snapshot user;
       Payload.data := Json.Obj
         [("task", Json.Obj
            [("id", Json.Str (TaskData.id task));
             ("title", Json.Str (TaskData.title task));
             ("description", Json.Str (TaskData.description task));
             ("priority",
              Json.Str (TaskPriority_str (TaskData.priority task)));
             ("assignedTo", Json.Str (TaskData.assignedTo task));
             ("dueDate", Json.of_option Json.Str (TaskData.dueDate task));
             ("status", Json.Str (TaskStatus_str (TaskData.status task)))])] |}.

Definition taskUpdated (user : Actor.t) (task : TaskData.t)
    (changes : Json.value) : M unit :=
  timestamp ← now_iso;
  sendWebhook
    {| Payload.action := "task_updated";
       Payload.timestamp := timestamp;
       Payload.user := Actor.snapshot user;
       Payload.data := Json.Obj
         [("task", Json.Obj
            [("id", Json.Str (TaskData.id task));
             ("title", Json.Str (TaskData.title task));
             ("status", Json.Str (TaskStatus_str (TaskData.status task)))]);
          ("changes", changes)] |}.

Definition taskCompleted (user : Actor.t) (task : TaskData.t) : M unit :=
  timestamp ← now_iso;
  completedAt ← now_iso;
  sendWebhook
    {| Payload.action := "task_completed";
       Payload.timestamp := timestamp;
       Payload.user := Actor.snapshot user;
       Payload.data := Json.Obj
         [("task", Json.Obj
            [("id", Json.Str (TaskData.id task));
             ("title", Json.Str (TaskData.title task));
             ("completedAt", Json.Str completedAt);
             ("actualHours",
              Json.of_option Json.Num (TaskData.actualHours task))])] |}.

Definition taskDeleted (user : Actor.t) (task : TaskData.t) : M unit :=
  timestamp ← now_iso;
  sendWebhook
    {| Payload.action := "task_deleted";
       Payload.timestamp := timestamp;
       Payload.user := Actor.snapshot user;
       Payload.data := Json.Obj
         [("task", Json.Obj
            [("id", Json.Str (TaskData.id task));
             ("title", Json.Str (TaskData.title task))])] |}.

(** **** User events *)

Definition userInvited (inviter : Actor.t) (invitedEmail role : string)
  : M unit :=
  timestamp ← now_iso;
  sendWebhook
    {| Payload.action := "user_invited";
       Payload.timestamp := timestamp;
       Payload.user := Actor.snapshot inviter;
       Payload.data := Json.Obj
         [("invitedEmail", Json.Str invitedEmail); ("role", Json.Str role)] |}.

Definition userRoleChanged (admin targetUser : Actor.t)
    (oldRole newRole : string) : M unit :=
  timestamp ← now_iso;
  sendWebhook
    {| Payload.action := "user_role_changed";
       Payload.timestamp := timestamp;
       Payload.user := Actor.snapshot admin;
       Payload.data := Json.Obj
         [("targetUser", Json.Obj
            [("id", Json.Str (Actor.id targetUser));
             ("name", Json.Str (Actor.name targetUser));
             ("email", Json.Str (Actor.email targetUser))]);
          ("oldRole", Json.Str oldRole);
          ("newRole", Json.Str newRole)] |}.

Definition userProfileUpdated (user : Actor.t) (changes : Json.value)
  : M unit :=
  timestamp ← now_iso;
  sendWebhook
    {| Payload.action := "user_profile_updated";
       Payload.timestamp := timestamp;
       Payload.user := Actor.snapshot user;
       Payload.data := Json.Obj [("changes", changes)] |}.

(** **** Template events *)

Definition templateCreated (user : Actor.t) (template : Template.t)
  : M unit :=
  timestamp ← now_iso;
  sendWebhook
    {| Payload.action := "template_created";
       Payload.timestamp := timestamp;
       Payload.user := Actor.snapshot user;
       Payload.data := Json.Obj
         [("template", Json.Obj
            [("id", Json.Str (Template.id template));
             ("name", Json.Str (Template.name template));
             ("category", Json.Str (Template.category template));
             ("isPublic", Json.Bool (Template.isPublic template));
             ("variables",
              Json.Num
                (match Template.variables template with
                 | Some l => Z.of_nat (length l)
                 | None => 0
                 end))])] |}.

Definition templateUsed (user : Actor.t) (template : Template.t) : M unit :=
  timestamp ← now_iso;
  sendWebhook
    {| Payload.action := "template_used";
       Payload.timestamp := timestamp;
       Payload.user := Actor.snapshot user;
       Payload.data := Json.Obj
         [("template", Json.Obj
            [("id", Json.Str (Template.id template));
             ("name", Json.Str (Template.name template));
             ("usageCount", Json.Num (Template.usageCount template))])] |}.

Definition templateDeleted (user : Actor.t) (template : Template.t)
  : M unit :=
  timestamp ← now_iso;
  sendWebhook
    {| Payload.action := "template_deleted";
       Payload.timestamp := timestamp;
       Payload.user := Actor.snapshot user;
       Payload.data := Json.Obj
         [("template", Json.Obj
            [("id", Json.Str (Template.id template));
             ("name", Json.Str (Template.name template));
             ("category", Json.Str (Template.category template))])] |}.

(** **** Folder events *)

Definition folderCreated (user : Actor.t) (folder : Folder.t) : M unit :=
  timestamp ← now_iso;
  sendWebhook
    {| Payload.action := "folder_created";
       Payload.timestamp := timestamp;
       Payload.user := Actor.snapshot user;
       Payload.data := Json.Obj
         [("folder", Json.Obj
            [("id", Json.Str (Folder.id folder));
             ("name", Json.Str (Folder.name folder));
             ("parentId",
              Json.of_option Json.Str (Folder.parentId folder))])] |}.

Definition folderDeleted (user : Actor.t) (folder : Folder.t) : M unit :=
  timestamp ← now_iso;
  sendWebhook
    {| Payload.action := "folder_deleted";
       Payload.timestamp := timestamp;
       Payload.user := Actor.snapshot user;
       Payload.data := Json.Obj
         [("folder", Json.Obj
            [("id", Json.Str (Folder.id folder));
             ("name", Json.Str (Folder.name folder))])] |}.

(** **** Proposal events *)

Definition proposalUploaded (user : Actor.t) (proposal : DocumentMetadata.t)
  : M unit :=
  timestamp ← now_iso;
  sendWebhook
    {| Payload.action := "proposal_uploaded";
       Payload.timestamp := timestamp;
       Payload.user := Actor.snapshot user;
       Payload.data := Json.Obj
         [("proposal", Json.Obj
            [("id", Json.Str (DocumentMetadata.id proposal));
             ("name", Json.Str (DocumentMetadata.name proposal));
             ("type", Json.Str (DocumentMetadata.type proposal));
             ("size", Json.Num (DocumentMetadata.fileSize proposal));
             ("url", Json.Str (DocumentMetadata.fileUrl proposal));
             ("status", Json.Str (DocumentMetadata.status proposal));
             ("tags", Json.strings (DocumentMetadata.tags proposal));
             ("priority", Json.Str (DocumentMetadata.priority proposal))])] |}.

(** **** System events *)

Definition systemLogin (user : Actor.t) : M unit :=
  timestamp ← now_iso;
  loginTime ← now_iso;
  sendWebhook
    {| Payload.action := "user_login";
       Payload.timestamp := timestamp;
       Payload.user := Actor.snapshot user;
       Payload.data := Json.Obj
         [("loginTime", Json.Str loginTime);
          ("userAgent", Json.Str (userAgent env))] |}.

Definition systemLogout (user : Actor.t) : M unit :=
  timestamp ← now_iso;
  logoutTime ← now_iso;
  sendWebhook
    {| Payload.action := "user_logout";
       Payload.timestamp := timestamp;
       Payload.user := Actor.snapshot user;
       Payload.data := Json.Obj [("logoutTime", Json.Str logoutTime)] |}.

(** *** [class DocumentService] *)

Definition generateAutoTags (file : File.t) : M (list string) :=
  let tags : list string := [] in
  let fileName := Js.toLowerCase (File.name file) in
  let fileType := File.type file in
  let tags := push_if (Js.includes fileType "pdf") ["pdf"] tags in
  let tags := push_if (Js.includes fileType "word") ["word"; "document"] tags in
  let tags :=
    push_if (Js.includes fileType "excel") ["excel"; "spreadsheet"] tags in
  let tags := push_if (Js.includes fileType "image") ["image"] tags in
  let tags :=
    push_if (Js.includes fileName "contract") ["contract"; "legal"] tags in
  let tags := push_if (Js.includes fileName "nda") ["nda"; "confidential"] tags in
  let tags :=
    push_if (Js.includes fileName "agreement") ["agreement"; "legal"] tags in
  let tags :=
    push_if (Js.includes fileName "invoice") ["invoice"; "financial"] tags in
  let tags := push_if (Js.includes fileName "template") ["template"] tags in
  let tags := push_if (Js.includes fileName "draft") ["draft"] tags in
  let tags := push_if (Js.includes fileName "final") ["final"] tags in
  let tags := push_if (Js.includes fileName "signed") ["signed"] tags in
  let tags :=
    push_if (Js.includes fileName "proposal") ["proposal"; "business"] tags in
  now ← new_Date;
  let currentYear := Date.getFullYear (utcOffset env) now in
  let tags :=
    push_if (Js.includes fileName (Js.toString currentYear))
      [Js.toString currentYear] tags in
  mret tags.

Definition getDocumentType (mimeType : string) : string :=
  if Js.includes mimeType "pdf" then "pdf"
  else if Js.includes mimeType "word" then "document"
  else if Js.includes mimeType "excel" then "spreadsheet"
  else if Js.includes mimeType "image" then "image"
  else if Js.includes mimeType "text" then "text"
  else "other".

Definition mapToDocumentMetadata (data : DocumentRow.t) : DocumentMetadata.t :=
  {| DocumentMetadata.id := DocumentRow.id data;
     DocumentMetadata.name := DocumentRow.name data;
     DocumentMetadata.type := DocumentRow.type data;
     DocumentMetadata.status := DocumentRow.status data;
     DocumentMetadata.fileUrl := DocumentRow.file_url data;
     DocumentMetadata.fileSize := DocumentRow.file_size data;
     DocumentMetadata.mimeType := DocumentRow.mime_type data;
     DocumentMetadata.tags := default [] (DocumentRow.tags data);
     DocumentMetadata.folderId := DocumentRow.folder_id data;
     DocumentMetadata.priority := DocumentRow.priority data;
     DocumentMetadata.dueDate := DocumentRow.due_date data;
     DocumentMetadata.version := DocumentRow.version data;
     DocumentMetadata.createdBy := DocumentRow.created_by data;
     DocumentMetadata.assignedTo := DocumentRow.assigned_to data;
     DocumentMetadata.createdAt := DocumentRow.created_at data;
     DocumentMetadata.updatedAt := DocumentRow.updated_at data |}.

Definition uploadDocument (uploadData : DocumentUpload.t)
  : M DocumentMetadata.t :=
  try_catch
    (let file := DocumentUpload.file uploadData in
     let folderId := DocumentUpload.folderId uploadData in
     let tags := default [] (DocumentUpload.tags uploadData) in
     let priority :=
       UploadPriority_str (default UpMedium (DocumentUpload.priority uploadData)) in
     let dueDate := DocumentUpload.dueDate uploadData in
     fileId ← uuidv4;
     let fileName := fileId ++ "-" ++ File.name file in
     let mockFileUrl := "https://example.com/documents/" ++ fileName in
     autoTags ← generateAutoTags file;
     let allTags := Js.uniq (tags ++ autoTags) in
     due_date ← Date_toISOString_opt dueDate;
     created_at ← now_iso;
     updated_at ← now_iso;
     let documentData :=
       {| DocumentRow.id := fileId;
          DocumentRow.name := File.name file;
          DocumentRow.type := getDocumentType (File.type file);
          DocumentRow.status := "draft";
          DocumentRow.file_url := mockFileUrl;
          DocumentRow.file_size := File.size file;
          DocumentRow.mime_type := File.type file;
          DocumentRow.tags := Some allTags;
          DocumentRow.folder_id := folderId;
          DocumentRow.priority := priority;
          DocumentRow.due_date := due_date;
          DocumentRow.version := 1;
          DocumentRow.created_by := "current-user-id";
          DocumentRow.assigned_to := None;
          DocumentRow.created_at := created_at;
          DocumentRow.updated_at := updated_at |} in
     let document := mapToDocumentMetadata documentData in
     documentUploaded mockUser document;;
     (if Js.includes (Js.toLowerCase (File.name file)) "proposal"
         || Js.arr_includes allTags "proposal"
      then proposalUploaded mockUser document
      else mret tt);;
     mret document)
    (fun error =>
       console_error [LStr "Error uploading document:"; LExn error];;
       throw error).

(** The two mock rows; [new Date('2024-02-01')] is midnight UTC. *)
Definition mockDocuments (folderId : option string) : list DocumentRow.t :=
  [ {| DocumentRow.id := "1";
       DocumentRow.name := "Service Agreement - TechCorp.pdf";
       DocumentRow.type := "pdf";
       DocumentRow.status := "review";
       DocumentRow.file_url :=
         "https://example.com/documents/service-agreement.pdf";
       DocumentRow.file_size := 245000;
       DocumentRow.mime_type := "application/pdf";
       DocumentRow.tags := Some ["service"; "tech"; "annual"];
       DocumentRow.folder_id := folderId;
       DocumentRow.priority := "high";
       DocumentRow.due_date := Some (Date.toISOString (Date.of_ymd 2024 2 1));
       DocumentRow.version := 1;
       DocumentRow.created_by := "user-1";
       DocumentRow.assigned_to := None;
       DocumentRow.created_at := Date.toISOString (Date.of_ymd 2024 1 15);
       DocumentRow.updated_at := Date.toISOString (Date.of_ymd 2024 1 20) |};
    {| DocumentRow.id := "2";
       DocumentRow.name := "NDA Template v2.1.docx";
       DocumentRow.type := "document";
       DocumentRow.status := "signed";
       DocumentRow.file_url :=
         "https://example.com/documents/nda-template.docx";
       DocumentRow.file_size := 89000;
       DocumentRow.mime_type :=
         "application/vnd.openxmlformats-officedocument.wordprocessingml.document";
       DocumentRow.tags := Some ["nda"; "template"; "standard"];
       DocumentRow.folder_id := folderId;
       DocumentRow.priority := "medium";
       DocumentRow.due_date := None;
       DocumentRow.version := 2;
       DocumentRow.created_by := "user-2";
       DocumentRow.assigned_to := None;
       DocumentRow.created_at := Date.toISOString (Date.of_ymd 2024 1 10);
       DocumentRow.updated_at := Date.toISOString (Date.of_ymd 2024 1 18) |} ].

Definition getDocuments (folderId : option string)
  : M (list DocumentMetadata.t) :=
  try_catch
    (mret (map mapToDocumentMetadata (mockDocuments folderId)))
    (fun error =>
       console_error [LStr "Error fetching documents:"; LExn error];;
       throw error).

Definition getDocument (id : string) : M (option DocumentMetadata.t) :=
  try_catch
    (documents ← getDocuments None;
     let document :=
       find (fun d => String.eqb (DocumentMetadata.id d) id) documents in
     match document with
     | Some d => documentViewed mockUser d
     | None => mret tt
     end;;
     mret document)
    (fun error =>
       console_error [LStr "Error fetching document:"; LExn error];;
       throw error).

Definition downloadDocument (id : string) : M Blob.t :=
  try_catch
    (document ← getDocument id;
     match document with
     | None => throw (Error "Document not found")
     | Some document =>
         documentDownloaded mockUser document;;
         let mockContent :=
           "Mock content for " ++ DocumentMetadata.name document in
         mret {| Blob.content := mockContent;
                 Blob.type := DocumentMetadata.mimeType document |}
     end)
    (fun error =>
       console_error [LStr "Error downloading document:"; LExn error];;
       throw error).

Definition deleteDocument (id : string) : M unit :=
  try_catch
    (document ← getDocument id;
     match document with
     | None => throw (Error "Document not found")
     | Some document =>
         documentDeleted mockUser document;;
         console_log [LStr ("Document " ++ id ++ " deleted successfully")]
     end)
    (fun error =>
       console_error [LStr "Error deleting document:"; LExn error];;
       throw error).

Definition updateDocument (id : string) (updates : PartialDocument.t)
  : M DocumentMetadata.t :=
  try_catch
    (currentDoc ← getDocument id;
     match currentDoc with
     | None => throw (Error "Document not found")
     | Some currentDoc =>
         let oldStatus := DocumentMetadata.status currentDoc in
         updatedAt ← now_iso;
         let updatedDocument :=
           PartialDocument.spread currentDoc updates updatedAt in
         match PartialDocument.status updates with
         | Some newStatus =>
             if Js.truthy oldStatus && Js.truthy newStatus
                && negb (String.eqb oldStatus newStatus)
             then documentStatusChanged mockUser updatedDocument oldStatus
                    newStatus
             else mret tt
         | None => mret tt
         end;;
         (if (0 <? length (Json.keys (PartialDocument.to_value updates)))%nat
          then documentEdited mockUser updatedDocument
                 (PartialDocument.to_value updates)
          else mret tt);;
         mret updatedDocument
     end)
    (fun error =>
       console_error [LStr "Error updating document:"; LExn error];;
       throw error).

Definition shareDocument (id : string) (userEmails : list string) : M unit :=
  try_catch
    (document ← getDocument id;
     match document with
     | None => throw (Error "Document not found")
     | Some document =>
         documentShared mockUser document userEmails;;
         console_log [LStr ("Document " ++ id ++ " shared with:");
                      LStrs userEmails]
     end)
    (fun error =>
       console_error [LStr "Error sharing document:"; LExn error];;
       throw error).

(** *** [class TaskService] *)

Definition createTask (taskData : CreateTaskData.t) : M TaskData.t :=
  try_catch
    (id ← new_Date;
     dueDate ← Date_toISOString_opt (CreateTaskData.dueDate taskData);
     createdAt ← now_iso;
     updatedAt ← now_iso;
     let newTask :=
       {| TaskData.id := Js.toString id;
          TaskData.title := CreateTaskData.title taskData;
          TaskData.description := CreateTaskData.description taskData;
          TaskData.status := Todo;
          TaskData.priority := CreateTaskData.priority taskData;
          TaskData.dueDate := dueDate;
          TaskData.assignedTo := CreateTaskData.assignedTo taskData;
          TaskData.assignedBy := "current-user-id";
          TaskData.documentId := CreateTaskData.documentId taskData;
          TaskData.estimatedHours := CreateTaskData.estimatedHours taskData;
          TaskData.actualHours := None;
          TaskData.tags := default [] (CreateTaskData.tags taskData);
          TaskData.createdAt := createdAt;
          TaskData.updatedAt := updatedAt |} in
     tasks ← get_mockTasks;
     set_mockTasks (tasks ++ [newTask]);;
     taskCreated mockUser newTask;;
     mret newTask)
    (fun error =>
       console_error [LStr "Error creating task:"; LExn error];;
       throw error).

Definition getTask (id : string) : M (option TaskData.t) :=
  try_catch
    (tasks ← get_mockTasks;
     mret (find (fun task => String.eqb (TaskData.id task) id) tasks))
    (fun error =>
       console_error [LStr "Error fetching task:"; LExn error];;
       throw error).

(** [this.mockTasks.findIndex(task => task.id === id)] with the element
    found; [None] is the index -1. *)
Definition findIndex (id : string) (tasks : list TaskData.t)
  : option (nat * TaskData.t) :=
  list_find (fun task => TaskData.id task = id) tasks.

Definition updateTask (id : string) (updates : PartialTask.t) : M TaskData.t :=
  try_catch
    (tasks ← get_mockTasks;
     match findIndex id tasks with
     | None => throw (Error "Task not found")
     | Some (taskIndex, oldTask) =>
         updatedAt ← now_iso;
         let updatedTask := PartialTask.spread oldTask updates updatedAt in
         set_mockTasks (<[taskIndex := updatedTask]> tasks);;
         taskUpdated mockUser updatedTask (PartialTask.to_value updates);;
         mret updatedTask
     end)
    (fun error =>
       console_error [LStr "Error updating task:"; LExn error];;
       throw error).

Definition deleteTask (id : string) : M unit :=
  try_catch
    (tasks ← get_mockTasks;
     match findIndex id tasks with
     | None => throw (Error "Task not found")
     | Some (taskIndex, task) =>
         set_mockTasks (delete taskIndex tasks);;
         taskDeleted mockUser task
     end)
    (fun error =>
       console_error [LStr "Error deleting task:"; LExn error];;
       throw error).

Definition completeTask (id : string) (actualHours : option Z) : M TaskData.t :=
  try_catch
    (let updates :=
       {| PartialTask.id := None; PartialTask.title := None;
          PartialTask.description := None;
          PartialTask.status := Some Completed;
          PartialTask.priority := None; PartialTask.dueDate := None;
          PartialTask.assignedTo := None; PartialTask.assignedBy := None;
          PartialTask.documentId := None; PartialTask.estimatedHours := None;
          PartialTask.actualHours := Some actualHours;
          PartialTask.tags := None; PartialTask.createdAt := None;
          PartialTask.updatedAt := None |} in
     updatedTask ← updateTask id updates;
     taskCompleted mockUser updatedTask;;
     mret updatedTask)
    (fun error =>
       console_error [LStr "Error completing task:"; LExn error];;
       throw error).

(** *** [AuthContext]: [logout] *)

Definition logout : M unit :=
  try_catch
    (state ← get_auth;
     match Auth.user state with
     | Some user => systemLogout (UserProfile.actor user)
     | None => mret tt
     end)
    (fun error =>
       console_error [LStr "Error sending logout webhook:"; LExn error]);;
  localStorage_removeItem "pocketlaw_user";;
  dispatch Auth.LOGOUT.

End WithEnv.

(** The task array a fresh [TaskService] starts with. *)
Definition mockTask1 : TaskData.t :=
  {| TaskData.id := "1";
     TaskData.title := "Review TechCorp Service Agreement";
     TaskData.description :=
       "Legal review required for annual service agreement with TechCorp";
     TaskData.status := InProgress;
     TaskData.priority := High;
     TaskData.dueDate := Some (Date.toISOString (Date.of_ymd 2024 1 25));
     TaskData.assignedTo := "Umar";
     TaskData.assignedBy := "Legal Team";
     TaskData.documentId := Some "1";
     TaskData.estimatedHours := Some 4%Z;
     TaskData.actualHours := Some 2%Z;
     TaskData.tags := ["review"; "urgent"];
     TaskData.createdAt := Date.toISOString (Date.of_ymd 2024 1 20);
     TaskData.updatedAt := Date.toISOString (Date.of_ymd 2024 1 22) |}.

Definition mockTask2 : TaskData.t :=
  {| TaskData.id := "2";
     TaskData.title := "Update NDA Template";
     TaskData.description :=
       "Incorporate new privacy clauses into standard NDA template";
     TaskData.status := Todo;
     TaskData.priority := Medium;
     TaskData.dueDate := None;
     TaskData.assignedTo := "Legal Team";
     TaskData.assignedBy := "Umar";
     TaskData.documentId := None;
     TaskData.estimatedHours := Some 2%Z;
     TaskData.actualHours := None;
     TaskData.tags := ["template"; "update"];
     TaskData.createdAt := Date.toISOString (Date.of_ymd 2024 1 18);
     TaskData.updatedAt := Date.toISOString (Date.of_ymd 2024 1 18) |}.

Definition initialTasks : list TaskData.t := [mockTask1; mockTask2].

(** The state of a freshly loaded page. *)
Definition initialState : State :=
  {| ticks := 0; uuids := 0; fetches := 0; mockTasks := initialTasks;
     localStorage := ∅; auth := Auth.init; trace := [] |}.

(** ** Specification vocabulary *)

(** *** One delivery attempt

    The outcome of handing the envelope [p] to the transport when [n]
    requests were made before: the exception that is caught and logged (a
    serialization error, a network error, a status outside 200-299, a body
    that cannot be read), or the response text. *)
Definition delivery (env : Env) (p : Payload.t) (n : nat) : exn + string :=
  match Json.stringify (Payload.to_value p) with
  | inl e => inl e
  | inr _ =>
      match network env n with
      | inl e => inl e
      | inr r =>
          if Response.ok r then Response.text r
          else inl (Error ("N8N webhook failed: " ++
                           Js.toString (Response.status r) ++ " " ++
                           Response.statusText r))
      end
  end.

(** The console output and the request of that attempt. *)
Definition transport_log (env : Env) (p : Payload.t) (n : nat) : list effect :=
  ConsoleLog [LStr "Sending N8N webhook:"; LStr (Payload.action p);
              LStr "to"; LStr (webhookUrl env)] ::
  match Json.stringify (Payload.to_value p) with
  | inl _ => []
  | inr body =>
      [Fetch (webhookUrl env) "POST"
         [("Content-Type", "application/json");
          ("User-Agent", "Pocketlaw-Dashboard/1.0.0")]
         (default "undefined" body)]
  end ++
  [match delivery env p n with
   | inl e => ConsoleError [LStr "Error sending N8N webhook:"; LExn e]
   | inr text =>
       ConsoleLog [LStr "N8N webhook sent successfully:";
                   LStr (Payload.action p); LStr text]
   end].

(** The state after [sendWebhook p]. *)
Definition sent (env : Env) (p : Payload.t) (s : State) : State :=
  {| ticks := ticks s; uuids := uuids s;
     fetches :=
       match Json.stringify (Payload.to_value p) with
       | inl _ => fetches s
       | inr _ => S (fetches s)
       end;
     mockTasks := mockTasks s; localStorage := localStorage s;
     auth := auth s;
     trace := trace s ++ SendWebhook p :: transport_log env p (fetches s) |}.

(** The same environment with other answers from the network. *)
Definition with_network (env : Env) (net : nat -> exn + Response.t) : Env :=
  {| VITE_N8N_TEST_URL := VITE_N8N_TEST_URL env;
     VITE_N8N_PRODUCTION_URL := VITE_N8N_PRODUCTION_URL env;
     DEV := DEV env; userAgent := userAgent env; utcOffset := utcOffset env;
     clock := clock env; uuid := uuid env; network := net |}.

(** *** The table of section 6

    The shape of a [data] object: the keys of an object in order, each with
    the shape of its value; [Any] is a value the table says nothing more
    about. *)
Inductive shape :=
| Any
| Fields (fs : list (string * shape)).

Fixpoint conforms (sh : shape) (v : Json.value) : bool :=
  match sh with
  | Any => true
  | Fields fs =>
      match v with
      | Json.Obj kvs =>
          (fix all (fs : list (string * shape))
               (kvs : list (string * Json.value)) : bool :=
             match fs, kvs with
             | [], [] => true
             | (k, sh') :: fs', (k', x) :: kvs' =>
                 String.eqb k k' && conforms sh' x && all fs' kvs'
             | _, _ => false
             end) fs kvs
      | _ => false
      end
  end.

Definition leaves (ks : list string) : shape :=
  Fields (map (fun k => (k, Any)) ks).

(** The rows of the table, as the specification lists them. *)
Definition table6 : list (string * shape) :=
  [ ("document_uploaded",
     Fields [("document",
              leaves ["id"; "name"; "type"; "size"; "folderId"; "tags"; "url";
                      "status"; "priority"])]);
    ("document_viewed", Fields [("document", leaves ["id"; "name"; "type"])]);
    ("document_downloaded",
     Fields [("document", leaves ["id"; "name"; "type"; "size"])]);
    ("document_deleted", Fields [("document", leaves ["id"; "name"; "type"])]);
    ("document_status_changed",
     Fields [("document", leaves ["id"; "name"; "oldStatus"; "newStatus"])]);
    ("document_shared",
     Fields [("document", leaves ["id"; "name"]); ("sharedWith", Any)]);
    ("document_edited",
     Fields [("document", leaves ["id"; "name"; "type"]); ("changes", Any)]);
    ("task_created",
     Fields [("task",
              leaves ["id"; "title"; "description"; "priority"; "assignedTo";
                      "dueDate"; "status"])]);
    ("task_updated",
     Fields [("task", leaves ["id"; "title"; "status"]); ("changes", Any)]);
    ("task_completed",
     Fields [("task", leaves ["id"; "title"; "completedAt"; "actualHours"])]);
    ("task_deleted", Fields [("task", leaves ["id"; "title"])]);
    ("user_login", leaves ["loginTime"; "userAgent"]);
    ("user_logout", leaves ["logoutTime"]);
    ("user_profile_updated", leaves ["changes"]);
    ("proposal_uploaded",
     Fields [("proposal",
              leaves ["id"; "name"; "type"; "size"; "url"; "status"; "tags";
                      "priority"])]) ].

(** The seven actions of the catalog the table leaves out, with the fields
    the source selects. *)
Definition unlisted : list (string * shape) :=
  [ ("user_invited", leaves ["invitedEmail"; "role"]);
    ("user_role_changed",
     Fields [("targetUser", leaves ["id"; "name"; "email"]); ("oldRole", Any);
             ("newRole", Any)]);
    ("template_created",
     Fields [("template",
              leaves ["id"; "name"; "category"; "isPublic"; "variables"])]);
    ("template_used",
     Fields [("template", leaves ["id"; "name"; "usageCount"])]);
    ("template_deleted",
     Fields [("template", leaves ["id"; "name"; "category"])]);
    ("folder_created", Fields [("folder", leaves ["id"; "name"; "parentId"])]);
    ("folder_deleted", Fields [("folder", leaves ["id"; "name"])]) ].

Definition row (table : list (string * shape)) (action : string)
  : option shape :=
  snd <$> find (fun r => String.eqb (fst r) action) table.

(** The envelope's [data] has exactly the fields of its action's row. *)
Definition matches (table : list (string * shape)) (p : Payload.t) : bool :=
  match row table (Payload.action p) with
  | Some sh => conforms sh (Payload.data p)
  | None => false
  end.

(** *** The catalog, one call at a time *)

Inductive CatalogCall :=
| DocumentUploaded (user : Actor.t) (document : DocumentMetadata.t)
| DocumentViewed (user : Actor.t) (document : DocumentMetadata.t)
| DocumentDownloaded (user : Actor.t) (document : DocumentMetadata.t)
| DocumentDeleted (user : Actor.t) (document : DocumentMetadata.t)
| DocumentStatusChanged (user : Actor.t) (document : DocumentMetadata.t)
    (oldStatus newStatus : string)
| DocumentShared (user : Actor.t) (document : DocumentMetadata.t)
    (sharedWith : list string)
| DocumentEdited (user : Actor.t) (document : DocumentMetadata.t)
    (changes : Json.value)
| TaskCreated (user : Actor.t) (task : TaskData.t)
| TaskUpdated (user : Actor.t) (task : TaskData.t) (changes : Json.value)
| TaskCompleted (user : Actor.t) (task : TaskData.t)
| TaskDeleted (user : Actor.t) (task : TaskData.t)
| UserInvited (inviter : Actor.t) (invitedEmail role : string)
| UserRoleChanged (admin targetUser : Actor.t) (oldRole newRole : string)
| UserProfileUpdated (user : Actor.t) (changes : Json.value)
| TemplateCreated (user : Actor.t) (template : Template.t)
| TemplateUsed (user : Actor.t) (template : Template.t)
| TemplateDeleted (user : Actor.t) (template : Template.t)
| FolderCreated (user : Actor.t) (folder : Folder.t)
| FolderDeleted (user : Actor.t) (folder : Folder.t)
| ProposalUploaded (user : Actor.t) (proposal : DocumentMetadata.t)
| SystemLogin (user : Actor.t)
| SystemLogout (user : Actor.t).

Definition perform (env : Env) (c : CatalogCall) : M unit :=
  match c with
  | DocumentUploaded u d => documentUploaded env u d
  | DocumentViewed u d => documentViewed env u d
  | DocumentDownloaded u d => documentDownloaded env u d
  | DocumentDeleted u d => documentDeleted env u d
  | DocumentStatusChanged u d o n => documentStatusChanged env u d o n
  | DocumentShared u d l => documentShared env u d l
  | DocumentEdited u d ch => documentEdited env u d ch
  | TaskCreated u t => taskCreated env u t
  | TaskUpdated u t ch => taskUpdated env u t ch
  | TaskCompleted u t => taskCompleted env u t
  | TaskDeleted u t => taskDeleted env u t
  | UserInvited u e r => userInvited env u e r
  | UserRoleChanged u t o n => userRoleChanged env u t o n
  | UserProfileUpdated u ch => userProfileUpdated env u ch
  | TemplateCreated u t => templateCreated env u t
  | TemplateUsed u t => templateUsed env u t
  | TemplateDeleted u t => templateDeleted env u t
  | FolderCreated u f => folderCreated env u f
  | FolderDeleted u f => folderDeleted env u f
  | ProposalUploaded u d => proposalUploaded env u d
  | SystemLogin u => systemLogin env u
  | SystemLogout u => systemLogout env u
  end.

(** The action a call stands for. *)
Definition action_of (c : CatalogCall) : string :=
  match c with
  | DocumentUploaded _ _ => "document_uploaded"
  | DocumentViewed _ _ => "document_viewed"
  | DocumentDownloaded _ _ => "document_downloaded"
  | DocumentDeleted _ _ => "document_deleted"
  | DocumentStatusChanged _ _ _ _ => "document_status_changed"
  | DocumentShared _ _ _ => "document_shared"
  | DocumentEdited _ _ _ => "document_edited"
  | TaskCreated _ _ => "task_created"
  | TaskUpdated _ _ _ => "task_updated"
  | TaskCompleted _ _ => "task_completed"
  | TaskDeleted _ _ => "task_deleted"
  | UserInvited _ _ _ => "user_invited"
  | UserRoleChanged _ _ _ _ => "user_role_changed"
  | UserProfileUpdated _ _ => "user_profile_updated"
  | TemplateCreated _ _ => "template_created"
  | TemplateUsed _ _ => "template_used"
  | TemplateDeleted _ _ => "template_deleted"
  | FolderCreated _ _ => "folder_created"
  | FolderDeleted _ _ => "folder_deleted"
  | ProposalUploaded _ _ => "proposal_uploaded"
  | SystemLogin _ => "user_login"
  | SystemLogout _ => "user_logout"
  end.

(** The actor a call is given. *)
Definition actor_of (c : CatalogCall) : Actor.t :=
  match c with
  | DocumentUploaded u _ | DocumentViewed u _ | DocumentDownloaded u _
  | DocumentDeleted u _ | DocumentStatusChanged u _ _ _
  | DocumentShared u _ _ | DocumentEdited u _ _ | TaskCreated u _
  | TaskUpdated u _ _ | TaskCompleted u _ | TaskDeleted u _
  | UserInvited u _ _ | UserRoleChanged u _ _ _ | UserProfileUpdated u _
  | TemplateCreated u _ | TemplateUsed u _ | TemplateDeleted u _
  | FolderCreated u _ | FolderDeleted u _ | ProposalUploaded u _
  | SystemLogin u | SystemLogout u => u
  end.

(** *** The domain operations, one call at a time *)

Inductive DomainOp :=
| UploadDocument (uploadData : DocumentUpload.t)
| DownloadDocument (id : string)
| DeleteDocument (id : string)
| UpdateDocument (id : string) (updates : PartialDocument.t)
| ShareDocument (id : string) (userEmails : list string)
| CreateTask (taskData : CreateTaskData.t)
| UpdateTask (id : string) (updates : PartialTask.t)
| CompleteTask (id : string) (actualHours : option Z)
| DeleteTask (id : string).

Inductive Returned :=
| RDocument (d : DocumentMetadata.t)
| RBlob (b : Blob.t)
| RTask (t : TaskData.t)
| RVoid.

Definition run_op (env : Env) (op : DomainOp) : M Returned :=
  match op with
  | UploadDocument u => d ← uploadDocument env u; mret (RDocument d)
  | DownloadDocument id => b ← downloadDocument env id; mret (RBlob b)
  | DeleteDocument id => deleteDocument env id;; mret RVoid
  | UpdateDocument id u => d ← updateDocument env id u; mret (RDocument d)
  | ShareDocument id l => shareDocument env id l;; mret RVoid
  | CreateTask t => t' ← createTask env t; mret (RTask t')
  | UpdateTask id u => t ← updateTask env id u; mret (RTask t)
  | CompleteTask id h => t ← completeTask env id h; mret (RTask t)
  | DeleteTask id => deleteTask env id;; mret RVoid
  end.

(** The document [getDocument id] finds. *)
Definition stored (id : string) : option DocumentMetadata.t :=
  find (fun d => String.eqb (DocumentMetadata.id d) id)
    (map mapToDocumentMetadata (mockDocuments None)).

(** The actions of the envelopes a successful call emits, in order; [r] is
    what the call returned. *)
Definition expected (op : DomainOp) (r : Returned) : list string :=
  match op with
  | UploadDocument u =>
      "document_uploaded" ::
      match r with
      | RDocument d =>
          if Js.includes
               (Js.toLowerCase (File.name (DocumentUpload.file u))) "proposal"
             || Js.arr_includes (DocumentMetadata.tags d) "proposal"
          then ["proposal_uploaded"] else []
      | _ => []
      end
  | DownloadDocument _ => ["document_viewed"; "document_downloaded"]
  | DeleteDocument _ => ["document_viewed"; "document_deleted"]
  | UpdateDocument id u =>
      "document_viewed" ::
      match stored id, PartialDocument.status u with
      | Some d, Some newStatus =>
          if Js.truthy (DocumentMetadata.status d) && Js.truthy newStatus
             && negb (String.eqb (DocumentMetadata.status d) newStatus)
          then ["document_status_changed"] else []
      | _, _ => []
      end ++
      (if (0 <? length (Json.keys (PartialDocument.to_value u)))%nat
       then ["document_edited"] else [])
  | ShareDocument _ _ => ["document_viewed"; "document_shared"]
  | CreateTask _ => ["task_created"]
  | UpdateTask _ _ => ["task_updated"]
  | CompleteTask _ _ => ["task_updated"; "task_completed"]
  | DeleteTask _ => ["task_deleted"]
  end.

(** *** Envelopes up to the clock *)

(** The value at [path] replaced by [undefined]. *)
Fixpoint blank (path : list string) (v : Json.value) : Json.value :=
  match path with
  | [] => Json.Undefined
  | k :: path' =>
      match v with
      | Json.Obj kvs =>
          Json.Obj
            (map (fun kv =>
                    if String.eqb (fst kv) k
                    then (fst kv, blank path' (snd kv)) else kv) kvs)
      | _ => v
      end
  end.

(** The field of [data] that is a reading of the clock, for the three
    actions that have one. *)
Definition clock_field (action : string) : option (list string) :=
  if String.eqb action "task_completed" then Some ["task"; "completedAt"]
  else if String.eqb action "user_login" then Some ["loginTime"]
  else if String.eqb action "user_logout" then Some ["logoutTime"]
  else None.

Definition without_timestamp (p : Payload.t) : Payload.t :=
  {| Payload.action := Payload.action p; Payload.timestamp := "";
     Payload.user := Payload.user p; Payload.data := Payload.data p |}.

Definition without_clock (p : Payload.t) : Payload.t :=
  {| Payload.action := Payload.action p; Payload.timestamp := "";
     Payload.user := Payload.user p;
     Payload.data :=
       match clock_field (Payload.action p) with
       | Some path => blank path (Payload.data p)
       | None => Payload.data p
       end |}.

(** *** Concrete worlds *)

(** A receiver that answers 200 to every request. *)
Definition receiver_up (n : nat) : exn + Response.t :=
  inr {| Response.status := 200; Response.statusText := "OK";
         Response.text := inr "Workflow was started" |}.

(** A receiver that cannot be reached. *)
Definition receiver_down (n : nat) : exn + Response.t :=
  inl (TypeError "Failed to fetch").

(** A development build in UTC whose clock starts at [start] and advances
    one second with each reading. *)
Definition browser (start : Z) (net : nat -> exn + Response.t) : Env :=
  {| VITE_N8N_TEST_URL := None; VITE_N8N_PRODUCTION_URL := None; DEV := true;
     userAgent := "Mozilla/5.0"; utcOffset := 0;
     clock := fun n => (start + 1000 * Z.of_nat n)%Z;
     uuid := fun n => "00000000-0000-4000-8000-" ++ Date.digits 12 (Z.of_nat n);
     network := net |}.

(** 2024-06-01 and 2026-11-01, 12:00 UTC. *)
Definition in_2024 : Z := (Date.of_ymd 2024 6 1 + 43200000)%Z.
Definition in_2026 : Z := (Date.of_ymd 2026 11 1 + 43200000)%Z.

(** The upload of the scenario. *)
Definition nda_file (size : Z) : File.t :=
  {| File.name := "NDA_Agreement_2024.pdf"; File.type := "application/pdf";
     File.size := size |}.

(** The date tag of the scenario's file: the current year, if the name
    contains it. *)
Definition year_tag (env : Env) (s : State) : list string :=
  let y :=
    Js.toString (Date.getFullYear (utcOffset env) (clock env (ticks s))) in
  if Js.includes "nda_agreement_2024.pdf" y then [y] else [].

(** What the two examples of the data contract say of a call's envelope. *)
Definition detail (c : CatalogCall) (p : Payload.t) : Prop :=
  match c with
  | DocumentUploaded _ d =>
      Json.get "size" (Json.get "document" (Payload.data p)) =
        Json.Num (DocumentMetadata.fileSize d) /\
      Json.get "url" (Json.get "document" (Payload.data p)) =
        Json.Str (DocumentMetadata.fileUrl d)
  | TaskCompleted _ t =>
      (exists completedAt,
         Json.get "completedAt" (Json.get "task" (Payload.data p)) =
           Json.Str completedAt) /\
      Json.get "actualHours" (Json.get "task" (Payload.data p)) =
        Json.of_option Json.Num (TaskData.actualHours t)
  | _ => True
  end.

(** An effect that is not a request to another URL than [url]. *)
Definition is_request_to (url : string) (e : effect) : bool :=
  match e with
  | Fetch u _ _ _ => String.eqb u url
  | _ => true
  end.

(** ** The rest of the services *)

(** *** More of the JavaScript runtime *)

Module JsString.

(** [s.split(sep)[0]]: the part of [s] before the first [sep], all of [s]
    when [sep] does not occur. *)
Fixpoint split_head (sep : ascii) (s : string) : string :=
  match s with
  | EmptyString => EmptyString
  | String c s' =>
      if Ascii.eqb c sep then EmptyString else String c (split_head sep s')
  end.

End JsString.

(** The date-time strings [toISOString] writes for the years 0 to 9999,
    read back to a time value; [None] is an invalid date. *)
Module DateParse.

Definition digit (c : ascii) : option Z :=
  let n := nat_of_ascii c in
  if (48 <=? n)%nat && (n <=? 57)%nat then Some (Z.of_nat (n - 48)) else None.

Fixpoint number (acc : Z) (s : string) : option Z :=
  match s with
  | EmptyString => Some acc
  | String c s' =>
      match digit c with
      | Some d => number (10 * acc + d) s'
      | None => None
      end
  end.

Definition field (s : string) (from len : nat) : option Z :=
  let f := String.substring from len s in
  if (String.length f =? len)%nat then number 0 f else None.

Definition is_leap (y : Z) : bool :=
  ((y mod 4 =? 0) && negb (y mod 100 =? 0) || (y mod 400 =? 0))%Z.

Definition days_in_month (y m : Z) : Z :=
  if (m =? 2)%Z then (if is_leap y then 29 else 28)%Z
  else if ((m =? 4) || (m =? 6) || (m =? 9) || (m =? 11))%Z then 30%Z
  else 31%Z.

Definition punctuated (s : string) : bool :=
  (String.length s =? 24)%nat &&
  String.eqb (String.substring 4 1 s) "-" &&
  String.eqb (String.substring 7 1 s) "-" &&
  String.eqb (String.substring 10 1 s) "T" &&
  String.eqb (String.substring 13 1 s) ":" &&
  String.eqb (String.substring 16 1 s) ":" &&
  String.eqb (String.substring 19 1 s) "." &&
  String.eqb (String.substring 23 1 s) "Z".

Definition parse_iso (s : string) : option Z :=
  if punctuated s then
    y ← field s 0 4; m ← field s 5 2; d ← field s 8 2;
    h ← field s 11 2; mi ← field s 14 2; sec ← field s 17 2;
    ms ← field s 20 3;
    if ((1 <=? m) && (m <=? 12) && (1 <=? d) && (d <=? days_in_month y m) &&
        (h <=? 23) && (mi <=? 59) && (sec <=? 59))%Z
    then Some (Date.days_from_civil y m d * Date.msPerDay + h * 3600000 +
               mi * 60000 + sec * 1000 + ms)%Z
    else None
  else None.

End DateParse.

(** [Array.prototype.sort] with a comparator whose result may be [NaN]
    ([None]), which counts as 0.  The sort is stable; when the comparator is
    not consistent the order is up to the engine, and this is one such
    order. *)
Module ArraySort.
Section Sort.

Context {A : Type} (compare : A -> A -> option Z).

Definition stays_before (a b : A) : bool :=
  match compare a b with
  | Some v => (v <=? 0)%Z
  | None => true
  end.

Fixpoint insert (x : A) (l : list A) : list A :=
  match l with
  | [] => [x]
  | y :: l' => if stays_before x y then x :: y :: l' else y :: insert x l'
  end.

Fixpoint sort (l : list A) : list A :=
  match l with
  | [] => []
  | x :: l' => insert x (sort l')
  end.

End Sort.
End ArraySort.

(** *** [DocumentService.searchDocuments] *)

Definition search_hit (query : string) (doc : DocumentMetadata.t) : bool :=
  Js.includes (Js.toLowerCase (DocumentMetadata.name doc))
    (Js.toLowerCase query)
  || existsb (fun tag => Js.includes (Js.toLowerCase tag) (Js.toLowerCase query))
       (DocumentMetadata.tags doc).

Definition searchDocuments (query : string) : M (list DocumentMetadata.t) :=
  try_catch
    (allDocuments ← getDocuments None;
     mret (List.filter (search_hit query) allDocuments))
    (fun error =>
       console_error [LStr "Error searching documents:"; LExn error];;
       throw error).

(** *** [TaskService.getTasks] and [getTasksByDocument]

    [parse] is the runtime's reading of a date string, [new Date(string)
    .getTime()], which the language leaves to the engine outside the ISO
    format. *)

Definition by_createdAt_desc (parse : string -> option Z) (a b : TaskData.t)
  : option Z :=
  match parse (TaskData.createdAt b), parse (TaskData.createdAt a) with
  | Some tb, Some ta => Some (tb - ta)%Z
  | _, _ => None
  end.

Definition getTasks (parse : string -> option Z)
    (status assignedTo : option string) : M (list TaskData.t) :=
  try_catch
    (tasks ← get_mockTasks;
     let filteredTasks := tasks in
     let filteredTasks :=
       match status with
       | Some st =>
           if Js.truthy st
           then List.filter
                  (fun task => String.eqb (TaskStatus_str (TaskData.status task)) st)
                  filteredTasks
           else filteredTasks
       | None => filteredTasks
       end in
     let filteredTasks :=
       match assignedTo with
       | Some who =>
           if Js.truthy who
           then List.filter
                  (fun task => String.eqb (TaskData.assignedTo task) who)
                  filteredTasks
           else filteredTasks
       | None => filteredTasks
       end in
     mret (ArraySort.sort (by_createdAt_desc parse) filteredTasks))
    (fun error =>
       console_error [LStr "Error fetching tasks:"; LExn error];;
       throw error).

Definition getTasksByDocument (documentId : string) : M (list TaskData.t) :=
  try_catch
    (tasks ← get_mockTasks;
     mret (List.filter
             (fun task =>
                match TaskData.documentId task with
                | Some d => String.eqb d documentId
                | None => false
                end) tasks))
    (fun error =>
       console_error [LStr "Error fetching tasks by document:"; LExn error];;
       throw error).

(** *** [AuthContext]: [signIn], [signUp], [updateProfile] *)

Module Profile.

(** The stored user as an object, its keys in the order of the literals. *)
Definition to_value (u : UserProfile.t) : Json.value :=
  Json.Obj
    [("id", Json.Str (UserProfile.id u));
     ("email", Json.Str (UserProfile.email u));
     ("name", Json.Str (UserProfile.name u));
     ("role", Json.Str (UserProfile.role u));
     ("department", Json.Str (UserProfile.department u));
     ("phone", Json.Str (UserProfile.phone u));
     ("bio", Json.Str (UserProfile.bio u));
     ("createdAt", Json.Str (UserProfile.createdAt u));
     ("updatedAt", Json.Str (UserProfile.updatedAt u));
     ("lastLogin", Json.Str (UserProfile.lastLogin u));
     ("isActive", Json.Bool (UserProfile.isActive u))].

(** [userData: any], read as a [Partial<UserProfile>]: [None] is a key that
    is absent. *)
Record data := mk {
  id : option string;
  email : option string;
  name : option string;
  role : option string;
  department : option string;
  phone : option string;
  bio : option string;
  createdAt : option string;
  updatedAt : option string;
  lastLogin : option string;
  isActive : option bool
}.

Definition no_data : data :=
  mk None None None None None None None None None None None.

(** [userData: any] as [signUp] is handed it: [undefined], [null], or a
    value whose properties can be read. *)
Inductive any :=
| Undefined
| Null
| Object (d : data).

Definition data_value (d : data) : Json.value :=
  Json.Obj
    (PartialDocument.field "id" Json.Str (id d) ++
     PartialDocument.field "email" Json.Str (email d) ++
     PartialDocument.field "name" Json.Str (name d) ++
     PartialDocument.field "role" Json.Str (role d) ++
     PartialDocument.field "department" Json.Str (department d) ++
     PartialDocument.field "phone" Json.Str (phone d) ++
     PartialDocument.field "bio" Json.Str (bio d) ++
     PartialDocument.field "createdAt" Json.Str (createdAt d) ++
     PartialDocument.field "updatedAt" Json.Str (updatedAt d) ++
     PartialDocument.field "lastLogin" Json.Str (lastLogin d) ++
     PartialDocument.field "isActive" Json.Bool (isActive d)).

(** [{ ...user, ...userData, updatedAt: now }]. *)
Definition spread (u : UserProfile.t) (d : data) (now : string)
  : UserProfile.t :=
  {| UserProfile.id := default (UserProfile.id u) (id d);
     UserProfile.email := default (UserProfile.email u) (email d);
     UserProfile.name := default (UserProfile.name u) (name d);
     UserProfile.role := default (UserProfile.role u) (role d);
     UserProfile.department :=
       default (UserProfile.department u) (department d);
     UserProfile.phone := default (UserProfile.phone u) (phone d);
     UserProfile.bio := default (UserProfile.bio u) (bio d);
     UserProfile.createdAt := default (UserProfile.createdAt u) (createdAt d);
     UserProfile.updatedAt := now;
     UserProfile.lastLogin := default (UserProfile.lastLogin u) (lastLogin d);
     UserProfile.isActive := default (UserProfile.isActive u) (isActive d) |}.

End Profile.

Definition localStorage_setItem (k v : string) : M unit := fun s =>
  (Ok tt,
   {| ticks := ticks s; uuids := uuids s; fetches := fetches s;
      mockTasks := mockTasks s; localStorage := <[k := v]> (localStorage s);
      auth := auth s; trace := trace s |}).

(** The three demo users of [signIn], as functions of the two readings of
    the clock in their literals. *)
Definition adminUser (updatedAt lastLogin : string) : UserProfile.t :=
  {| UserProfile.id := "1";
     UserProfile.email := "umar@pocketlaw.com";
     UserProfile.name := "Umar Khan";
     UserProfile.role := "admin";
     UserProfile.department := "Legal";
     UserProfile.phone := "+1 (555) 123-4567";
     UserProfile.bio :=
       "Legal professional with 10+ years of experience in contract management and corporate law.";
     UserProfile.createdAt := Date.toISOString (Date.of_ymd 2023 1 1);
     UserProfile.updatedAt := updatedAt;
     UserProfile.lastLogin := lastLogin;
     UserProfile.isActive := true |}.

Definition teamUser (updatedAt lastLogin : string) : UserProfile.t :=
  {| UserProfile.id := "2";
     UserProfile.email := "team@pocketlaw.com";
     UserProfile.name := "Team Member";
     UserProfile.role := "team";
     UserProfile.department := "Legal";
     UserProfile.phone := "+1 (555) 123-4568";
     UserProfile.bio :=
       "Team member focused on document management and client collaboration.";
     UserProfile.createdAt := Date.toISOString (Date.of_ymd 2023 6 1);
     UserProfile.updatedAt := updatedAt;
     UserProfile.lastLogin := lastLogin;
     UserProfile.isActive := true |}.

Definition clientUser (updatedAt lastLogin : string) : UserProfile.t :=
  {| UserProfile.id := "3";
     UserProfile.email := "client@pocketlaw.com";
     UserProfile.name := "Client User";
     UserProfile.role := "client";
     UserProfile.department := "External";
     UserProfile.phone := "+1 (555) 123-4569";
     UserProfile.bio :=
       "External client with limited access to assigned documents.";
     UserProfile.createdAt := Date.toISOString (Date.of_ymd 2023 9 1);
     UserProfile.updatedAt := updatedAt;
     UserProfile.lastLogin := lastLogin;
     UserProfile.isActive := true |}.

(** The body of each branch of [signIn]: build the user, store it, send the
    login event, dispatch. *)
Definition signInAs (env : Env) (user : string -> string -> UserProfile.t)
  : M unit :=
  updatedAt ← now_iso env;
  lastLogin ← now_iso env;
  let mockUser := user updatedAt lastLogin in
  text ← JSON_stringify (Profile.to_value mockUser);
  localStorage_setItem "pocketlaw_user" text;;
  systemLogin env (UserProfile.actor mockUser);;
  dispatch (Auth.AUTH_SUCCESS mockUser).

Definition signIn (env : Env) (email password : string) : M unit :=
  dispatch Auth.AUTH_START;;
  try_catch
    (if String.eqb email "umar@pocketlaw.com" && String.eqb password "password"
     then signInAs env adminUser
     else if String.eqb email "team@pocketlaw.com"
             && String.eqb password "password"
     then signInAs env teamUser
     else if String.eqb email "client@pocketlaw.com"
             && String.eqb password "password"
     then signInAs env clientUser
     else throw (Error "Invalid credentials"))
    (fun error => dispatch Auth.AUTH_FAILURE;; throw error).

(** Reading a property of [userData]: a TypeError on [undefined] and on
    [null] (the text of the message is the V8 engine's). *)
Definition properties (userData : Profile.any) : M Profile.data :=
  match userData with
  | Profile.Object d => mret d
  | Profile.Undefined =>
      throw (TypeError "Cannot read properties of undefined (reading 'name')")
  | Profile.Null =>
      throw (TypeError "Cannot read properties of null (reading 'name')")
  end.

Definition signUp (env : Env) (email password : string)
    (userData : Profile.any) : M unit :=
  dispatch Auth.AUTH_START;;
  try_catch
    (id ← new_Date env;
     userData ← properties userData;
     createdAt ← now_iso env;
     updatedAt ← now_iso env;
     lastLogin ← now_iso env;
     let newUser :=
       {| UserProfile.id := Js.toString id;
          UserProfile.email := email;
          UserProfile.name :=
            Js.or_else (Profile.name userData)
              (JsString.split_head "@" email);
          UserProfile.role := "team";
          UserProfile.department :=
            Js.or_else (Profile.department userData) "";
          UserProfile.phone := Js.or_else (Profile.phone userData) "";
          UserProfile.bio := Js.or_else (Profile.bio userData) "";
          UserProfile.createdAt := createdAt;
          UserProfile.updatedAt := updatedAt;
          UserProfile.lastLogin := lastLogin;
          UserProfile.isActive := true |} in
     text ← JSON_stringify (Profile.to_value newUser);
     localStorage_setItem "pocketlaw_user" text;;
     systemLogin env (UserProfile.actor newUser);;
     dispatch (Auth.AUTH_SUCCESS newUser))
    (fun error => dispatch Auth.AUTH_FAILURE;; throw error).

Definition updateProfile (env : Env) (userData : Profile.data) : M unit :=
  try_catch
    (state ← get_auth;
     match Auth.user state with
     | None => throw (Error "No user logged in")
     | Some user =>
         updatedAt ← now_iso env;
         let updatedUser := Profile.spread user userData updatedAt in
         text ← JSON_stringify (Profile.to_value updatedUser);
         localStorage_setItem "pocketlaw_user" text;;
         userProfileUpdated env (UserProfile.actor updatedUser)
           (Profile.data_value userData);;
         dispatch (Auth.UPDATE_USER updatedUser)
     end)
    (fun error => throw error).

(** *** [DocumentViewer]: zoom and rotation *)

Definition handleZoomIn (zoom : Z) : Z := Z.min (zoom + 25) 200.
Definition handleZoomOut (zoom : Z) : Z := Z.max (zoom - 25) 50.
Definition handleRotate (rotation : Z) : Z := ((rotation + 90) mod 360)%Z.

Inductive ViewerClick := ZoomIn | ZoomOut | Rotate.

(** The [zoom] and [rotation] of the viewer after a click; they start at
    100 and 0. *)
Definition click (view : Z * Z) (c : ViewerClick) : Z * Z :=
  match c with
  | ZoomIn => (handleZoomIn (fst view), snd view)
  | ZoomOut => (handleZoomOut (fst view), snd view)
  | Rotate => (fst view, handleRotate (snd view))
  end.

(** *** What the further properties speak of *)

(** The HTTP requests of a trace, oldest first. *)
Definition requests (t : list effect) : list effect :=
  List.filter (fun e => match e with Fetch _ _ _ _ => true | _ => false end) t.

(** The value at the end of a path of keys. *)
Definition at_path (path : list string) (v : Json.value) : Json.value :=
  fold_left (fun v k => Json.get k v) path v.

(** [sub] is a piece of [text]. *)
Definition occurs_in (sub text : string) : Prop :=
  exists pre post, text = pre +:+ sub +:+ post.

(** [query] is a piece of [text], letter case aside. *)
Definition mentions (query text : string) : Prop :=
  occurs_in (Js.toLowerCase query) (Js.toLowerCase text).

(** The error a due date makes [toISOString] throw. *)
Definition invalid_time_value : exn := RangeError "Invalid time value".

(** The auth state after [AUTH_FAILURE] or [LOGOUT]. *)
Definition logged_out : Auth.state :=
  {| Auth.user := None; Auth.isAuthenticated := false;
     Auth.isLoading := false |}.

(** The words [generateAutoTags] can add besides the current year. *)
Definition vocabulary : list string :=
  ["pdf"; "word"; "document"; "excel"; "spreadsheet"; "image"; "contract";
   "legal"; "nda"; "confidential"; "agreement"; "invoice"; "financial";
   "template"; "draft"; "final"; "signed"; "proposal"; "business"].

(** The values [getDocumentType] can return. *)
Definition documentTypes : list string :=
  ["pdf"; "document"; "spreadsheet"; "image"; "text"; "other"].

(** The tasks a call of [getTasks] asks for: a filter that is absent or the
    empty string lets every task through. *)
Definition task_wanted (status assignedTo : option string) (task : TaskData.t)
  : bool :=
  match status with
  | Some st =>
      String.eqb st "" || String.eqb (TaskStatus_str (TaskData.status task)) st
  | None => true
  end &&
  match assignedTo with
  | Some who => String.eqb who "" || String.eqb (TaskData.assignedTo task) who
  | None => true
  end.

(** A task is not older than the next one. *)
Definition not_older (parse : string -> option Z) (a b : TaskData.t) : Prop :=
  match parse (TaskData.createdAt a), parse (TaskData.createdAt b) with
  | Some ta, Some tb => (tb <= ta)%Z
  | _, _ => False
  end.

(** The task is linked to the document. *)
Definition of_document (documentId : string) (task : TaskData.t) : bool :=
  match TaskData.documentId task with
  | Some d => String.eqb d documentId
  | None => false
  end.

(** The demo accounts of [signIn]. *)
Definition demo_emails : list string :=
  ["umar@pocketlaw.com"; "team@pocketlaw.com"; "client@pocketlaw.com"].

(** The auth state of a signed-in user. *)
Definition logged_in (u : UserProfile.t) : Auth.state :=
  {| Auth.user := Some u; Auth.isAuthenticated := true;
     Auth.isLoading := false |}.

(** A clock that stands still. *)
Definition frozen (start : Z) (net : nat -> exn + Response.t) : Env :=
  {| VITE_N8N_TEST_URL := None; VITE_N8N_PRODUCTION_URL := None; DEV := false;
     userAgent := "Mozilla/5.0"; utcOffset := 0;
     clock := fun _ => start;
     uuid := fun n => "00000000-0000-4000-8000-" ++ Date.digits 12 (Z.of_nat n);
     network := net |}.

(** The state after the team member has signed in on a fresh page. *)
Definition team_session : State :=
  snd (signIn (browser in_2026 receiver_up) "team@pocketlaw.com" "password"
         initialState).

(** ** Proofs *)

Open Scope list_scope.

Arguments Json.stringify : simpl never.
Arguments Date.toISOString : simpl never.
Arguments Date.getFullYear : simpl never.
Arguments Js.toString : simpl never.
Arguments Js.includes : simpl never.
Arguments Js.toLowerCase : simpl never.
Arguments Js.uniq : simpl never.
Arguments transport_log : simpl never.

(** Unfolding the monad: one step of symbolic execution. *)
Ltac mred :=
  cbv beta iota delta
    [mbind M_bind mret M_ret try_catch throw emit console_log console_error
     get_mockTasks set_mockTasks get_auth dispatch localStorage_removeItem
     new_Date now_iso uuidv4 fetch response_text JSON_stringify
     Date_toISOString Date_toISOString_opt];
  cbn [ticks uuids fetches mockTasks localStorage auth trace fst snd negb].

Lemma sendWebhook_run env p s : sendWebhook env p s = (Ok tt, sent env p s).
Proof.
  unfold sendWebhook, sent, transport_log, delivery. mred.
  destruct (Json.stringify (Payload.to_value p)) as [e|body]; mred.
  - rewrite <- !app_assoc. reflexivity.
  - destruct (network env (fetches s)) as [e|r]; mred.
    + rewrite <- !app_assoc. reflexivity.
    + destruct (Response.ok r); mred.
      * destruct (Response.text r); mred; rewrite <- !app_assoc; reflexivity.
      * rewrite <- !app_assoc. reflexivity.
Qed.

Lemma emitted_app t1 t2 : emitted (t1 ++ t2) = emitted t1 ++ emitted t2.
Proof. apply omap_app. Qed.

Lemma emitted_transport_log env p n : emitted (transport_log env p n) = [].
Proof.
  unfold transport_log.
  destruct (Json.stringify (Payload.to_value p)); 
    destruct (delivery env p n); reflexivity.
Qed.

Lemma emitted_sent env p s :
  emitted (trace (sent env p s)) = emitted (trace s) ++ [p].
Proof.
  unfold sent. cbn [trace]. rewrite emitted_app. cbn.
  rewrite emitted_transport_log. reflexivity.
Qed.

(** Symbolic execution up to and through the calls of the transport. *)
Ltac mrun :=
  repeat (mred; rewrite ?sendWebhook_run;
          cbn [sent ticks uuids fetches mockTasks localStorage auth trace
               fst snd]).

Lemma emitted_send p t : emitted (SendWebhook p :: t) = p :: emitted t.
Proof. reflexivity. Qed.

Lemma emitted_log a t : emitted (ConsoleLog a :: t) = emitted t.
Proof. reflexivity. Qed.

Lemma emitted_error a t : emitted (ConsoleError a :: t) = emitted t.
Proof. reflexivity. Qed.

Lemma emitted_nil : emitted [] = [].
Proof. reflexivity. Qed.

Create Rewrite HintDb emitted.
#[export] Hint Rewrite emitted_app emitted_send emitted_log emitted_error
  emitted_nil emitted_transport_log : emitted.

(** Normalise the envelopes of a trace to [emitted (trace s) ++ [p; ...]]. *)
Ltac emits := autorewrite with emitted; rewrite <- ?app_assoc; cbn [app].

(** *** Due dates *)

Lemma toISOString_opt_valid date :
  date <> Some Date.Invalid ->
  Date_toISOString_opt date =
  mret (Date.toISOString <$> (date ≫= Date.time)).
Proof. destruct date as [[ms|]|]; [reflexivity | congruence | reflexivity]. Qed.

(** *** Looking documents and tasks up *)

Lemma stored_none id :
  (forall d, In d (map mapToDocumentMetadata (mockDocuments None)) ->
             DocumentMetadata.id d <> id) ->
  stored id = None.
Proof.
  intros H. unfold stored.
  destruct (find _ _) as [d|] eqn:E; [|reflexivity].
  apply find_some in E as [Hin Heq].
  apply String.eqb_eq in Heq. destruct (H d Hin Heq).
Qed.

Lemma stored_some id :
  In id (map DocumentMetadata.id
           (map mapToDocumentMetadata (mockDocuments None))) ->
  exists d, stored id = Some d /\ DocumentMetadata.id d = id.
Proof.
  intros H. unfold stored.
  destruct (find _ _) as [d|] eqn:E.
  - exists d. split; [reflexivity|].
    apply find_some in E as [_ E]. now apply String.eqb_eq.
  - apply in_map_iff in H as (d & Hid & Hin).
    apply (find_none _ _ E) in Hin.
    rewrite Hid, String.eqb_refl in Hin. discriminate.
Qed.

(** [getDocument] in closed form: a document that is found is reported as
    viewed. *)
Lemma getDocument_run env id s :
  getDocument env id s =
  match stored id with
  | Some d =>
      (Ok (Some d),
       sent env
         {| Payload.action := "document_viewed";
            Payload.timestamp := Date.toISOString (clock env (ticks s));
            Payload.user := Actor.snapshot mockUser;
            Payload.data := Json.Obj
              [("document", Json.Obj
                 [("id", Json.Str (DocumentMetadata.id d));
                  ("name", Json.Str (DocumentMetadata.name d));
                  ("type", Json.Str (DocumentMetadata.type d))])] |}
         {| ticks := S (ticks s); uuids := uuids s; fetches := fetches s;
            mockTasks := mockTasks s; localStorage := localStorage s;
            auth := auth s; trace := trace s |})
  | None => (Ok None, s)
  end.
Proof.
  unfold getDocument, getDocuments, documentViewed. mred.
  fold (stored id). destruct (stored id); mred.
  - rewrite sendWebhook_run. reflexivity.
  - reflexivity.
Qed.

Lemma findIndex_Some id tasks i t :
  findIndex id tasks = Some (i, t) ->
  tasks !! i = Some t /\ TaskData.id t = id.
Proof.
  unfold findIndex. intros H.
  apply list_find_Some in H as (H1 & H2 & _). auto.
Qed.

Lemma findIndex_insert id tasks i old new :
  findIndex id tasks = Some (i, old) ->
  TaskData.id new = id ->
  findIndex id (<[i := new]> tasks) = Some (i, new).
Proof.
  unfold findIndex. intros H Hid.
  apply list_find_Some in H as (H1 & H2 & H3).
  apply list_find_Some. split; [|split].
  - apply list_lookup_insert_eq. eapply lookup_lt_Some; eauto.
  - exact Hid.
  - intros j y Hj Hlt. rewrite list_lookup_insert_ne in Hj by lia. eauto.
Qed.

(** *** Sets of tags *)

Lemma arr_includes_In l x : Js.arr_includes l x = true <-> In x l.
Proof.
  unfold Js.arr_includes. rewrite existsb_exists. split.
  - intros (y & Hy & E). apply String.eqb_eq in E. now subst.
  - intros H. exists x. split; [exact H | apply String.eqb_refl].
Qed.

Lemma uniq_from_In seen l x :
  In x (Js.uniq_from seen l) <-> In x l /\ ~ In x seen.
Proof.
  revert seen. induction l as [|y l IH]; intros seen; cbn [Js.uniq_from].
  - cbn. tauto.
  - destruct (Js.arr_includes seen y) eqn:E.
    + apply arr_includes_In in E. rewrite IH. cbn. split.
      * tauto.
      * intros [[<-|H] Hn]; tauto.
    + assert (Hy : ~ In y seen)
        by (rewrite <- arr_includes_In, E; discriminate).
      cbn. rewrite IH. cbn. split.
      * intros [<-|[H Hn]]; [tauto|].
        split; [tauto|]. intros Hx; apply Hn; tauto.
      * intros [[<-|H] Hn]; [tauto|].
        destruct (string_dec y x) as [<-|Hne]; [tauto|].
        right. split; [exact H|]. intros [?|?]; tauto.
Qed.

Lemma uniq_from_NoDup seen l : List.NoDup (Js.uniq_from seen l).
Proof.
  revert seen. induction l as [|y l IH]; intros seen; cbn [Js.uniq_from].
  - constructor.
  - destruct (Js.arr_includes seen y); [apply IH|].
    constructor; [|apply IH]. rewrite uniq_from_In. cbn. tauto.
Qed.

Lemma uniq_In l x : In x (Js.uniq l) <-> In x l.
Proof. unfold Js.uniq. rewrite uniq_from_In. cbn. tauto. Qed.

Lemma uniq_NoDup l : List.NoDup (Js.uniq l).
Proof. apply uniq_from_NoDup. Qed.

(** Evaluate the substring tests whose two strings are literals. *)
Ltac includes_closed :=
  repeat match goal with
  | |- context [Js.includes ?a ?b] =>
      lazymatch b with
      | context [Js.toString] => fail
      | _ => idtac
      end;
      let v := eval vm_compute in (Js.includes a b) in
      change (Js.includes a b) with v
  end.

Lemma generateAutoTags_nda env size s :
  generateAutoTags env (nda_file size) s =
  (Ok (["pdf"; "nda"; "confidential"; "agreement"; "legal"] ++ year_tag env s),
   {| ticks := S (ticks s); uuids := uuids s; fetches := fetches s;
      mockTasks := mockTasks s; localStorage := localStorage s;
      auth := auth s; trace := trace s |}).
Proof.
  unfold generateAutoTags, year_tag. mred. cbn [nda_file File.name File.type].
  change (Js.toLowerCase "NDA_Agreement_2024.pdf")
    with "nda_agreement_2024.pdf".
  includes_closed. cbn [push_if app].
  destruct (Js.includes _ _); reflexivity.
Qed.

(** *** The model at work *)

Example toISOString_epoch : Date.toISOString 0 = "1970-01-01T00:00:00.000Z".
Proof. reflexivity. Qed.

Example toISOString_before_epoch :
  Date.toISOString (-1) = "1969-12-31T23:59:59.999Z".
Proof. reflexivity. Qed.

Example toISOString_leap_day :
  Date.toISOString (Date.of_ymd 2024 2 29 + 45296789) =
  "2024-02-29T12:34:56.789Z".
Proof. reflexivity. Qed.

Example getFullYear_west_of_Greenwich :
  Date.getFullYear (-300) (Date.of_ymd 2025 1 1) = 2024%Z.
Proof. reflexivity. Qed.

Example stringify_array :
  Json.stringify
    (Json.Arr [Json.Num 1; Json.Undefined; Json.Null; Json.Bool true]) =
  inr (Some "[1,null,null,true]").
Proof. reflexivity. Qed.

Example stringify_leaves_undefined_out :
  Json.stringify (Json.Obj [("folderId", Json.Undefined)]) = inr (Some "{}").
Proof. reflexivity. Qed.

Example uniq_keeps_first :
  Js.uniq ["legal"; "nda"; "legal"; "pdf"; "nda"] = ["legal"; "nda"; "pdf"].
Proof. reflexivity. Qed.

Example upload_nda_in_2024 :
  DocumentMetadata.tags <$>
    (match fst (uploadDocument (browser in_2024 receiver_up)
                  {| DocumentUpload.file := nda_file 1000;
                     DocumentUpload.folderId := None;
                     DocumentUpload.tags := Some ["legal"];
                     DocumentUpload.priority := None;
                     DocumentUpload.dueDate := None |} initialState) with
     | Ok d => Some d
     | Throw _ => None
     end) =
  Some ["legal"; "pdf"; "nda"; "confidential"; "agreement"; "2024"].
Proof. vm_compute. reflexivity. Qed.

Example completeTask_without_hours_forgets_them :
  TaskData.actualHours <$>
    (match fst (completeTask (browser in_2026 receiver_up) "1" None
                  initialState) with
     | Ok t => Some t
     | Throw _ => None
     end) = Some None.
Proof. vm_compute. reflexivity. Qed.

Example createTask_with_invalid_dueDate :
  let r := createTask (browser in_2026 receiver_up)
             {| CreateTaskData.title := "File the annual report";
                CreateTaskData.description := "";
                CreateTaskData.priority := Medium;
                CreateTaskData.dueDate := Some Date.Invalid;
                CreateTaskData.assignedTo := "Umar";
                CreateTaskData.documentId := None;
                CreateTaskData.estimatedHours := None;
                CreateTaskData.tags := None |} initialState in
  fst r = Throw (RangeError "Invalid time value") /\
  mockTasks (snd r) = initialTasks /\
  ticks (snd r) = 1 /\
  trace (snd r) =
    [ConsoleError [LStr "Error creating task:";
                   LExn (RangeError "Invalid time value")]].
Proof. vm_compute. repeat split; reflexivity. Qed.

Example uploadDocument_with_invalid_dueDate :
  let r := uploadDocument (browser in_2026 receiver_up)
             {| DocumentUpload.file := nda_file 1000;
                DocumentUpload.folderId := None;
                DocumentUpload.tags := None;
                DocumentUpload.priority := None;
                DocumentUpload.dueDate := Some Date.Invalid |} initialState in
  fst r = Throw (RangeError "Invalid time value") /\
  uuids (snd r) = 1 /\ ticks (snd r) = 1 /\ fetches (snd r) = 0 /\
  emitted (trace (snd r)) = [].
Proof. vm_compute. repeat split; reflexivity. Qed.

Example signUp_without_userData :
  let r := signUp (browser in_2026 receiver_up) "new@pocketlaw.com" "secret"
             Profile.Undefined team_session in
  fst r =
    Throw (TypeError "Cannot read properties of undefined (reading 'name')") /\
  auth (snd r) = logged_out /\
  ticks (snd r) = S (ticks team_session) /\
  trace (snd r) = trace team_session.
Proof. vm_compute. repeat split; reflexivity. Qed.

(** *** The transport *)

(** The result and the domain state of an operation do not depend on what
    the network answers. *)
Lemma run_op_network env net op s :
  fst (run_op (with_network env net) op s) = fst (run_op env op s) /\
  mockTasks (snd (run_op (with_network env net) op s)) =
    mockTasks (snd (run_op env op s)).
Proof.
  destruct op; unfold run_op.
  - unfold uploadDocument, generateAutoTags, documentUploaded,
      proposalUploaded.
    destruct (DocumentUpload.dueDate uploadData) as [[ms|]|]; mrun;
      cbn [with_network clock uuid utcOffset];
      try (match goal with |- context [if ?c then _ else _] => destruct c end;
           mrun);
      split; reflexivity.
  - unfold downloadDocument, documentDownloaded. mred.
    rewrite !getDocument_run.
    destruct (stored id); mrun; split; reflexivity.
  - unfold deleteDocument, documentDeleted. mred. rewrite !getDocument_run.
    destruct (stored id); mrun; split; reflexivity.
  - unfold updateDocument, documentStatusChanged, documentEdited. mred.
    rewrite !getDocument_run.
    destruct (stored id); mrun; [|split; reflexivity].
    destruct (PartialDocument.status updates); mrun;
      repeat match goal with
             | |- context [if ?c then _ else _] => destruct c; mrun
             end; split; reflexivity.
  - unfold shareDocument, documentShared. mred. rewrite !getDocument_run.
    destruct (stored id); mrun; split; reflexivity.
  - unfold createTask, taskCreated.
    destruct (CreateTaskData.dueDate taskData) as [[ms|]|]; mrun;
      split; reflexivity.
  - unfold updateTask, taskUpdated. mrun.
    destruct (findIndex id (mockTasks s)) as [[i t]|]; mrun; split; reflexivity.
  - unfold completeTask, updateTask, taskUpdated, taskCompleted. mrun.
    destruct (findIndex id (mockTasks s)) as [[i t]|]; mrun; split; reflexivity.
  - unfold deleteTask, taskDeleted. mrun.
    destruct (findIndex id (mockTasks s)) as [[i t]|]; mrun; split; reflexivity.
Qed.

(** C2. [sendWebhook] never throws: for every envelope, state and
    environment (so for every answer of the network) it returns normally,
    and the last thing it does is log the outcome of the delivery, the
    exception when the delivery failed (serialization error, network error,
    status outside 200-299, unreadable body).  Hence what a domain
    operation returns or throws, and the task store it leaves, are the same
    whatever the network answers. *)
Theorem sendWebhook_never_throws env p s :
  fst (sendWebhook env p s) = Ok tt /\
  last (trace (snd (sendWebhook env p s))) =
    Some (match delivery env p (fetches s) with
          | inl e => ConsoleError [LStr "Error sending N8N webhook:"; LExn e]
          | inr text =>
              ConsoleLog [LStr "N8N webhook sent successfully:";
                          LStr (Payload.action p); LStr text]
          end) /\
  forall net op s0,
    fst (run_op (with_network env net) op s0) = fst (run_op env op s0) /\
    mockTasks (snd (run_op (with_network env net) op s0)) =
      mockTasks (snd (run_op env op s0)).
Proof.
  rewrite sendWebhook_run. split; [reflexivity|]. split.
  - cbn [snd sent trace]. unfold transport_log.
    rewrite app_comm_cons, (app_comm_cons _ _ (SendWebhook p)), app_assoc.
    apply last_snoc.
  - intros net op s0. apply run_op_network.
Qed.

(** C8. The endpoint is the test URL in a development build and the
    production URL otherwise; each is its environment variable, or the
    hard-coded default when the variable is unset (or empty).  Every request
    [sendWebhook] makes goes to that URL, whatever the envelope, the state,
    the clock and the network. *)
Theorem endpoint_selection test prod dev ua off clk uu net :
  let env := mkEnv test prod dev ua off clk uu net in
  webhookUrl env =
    (if dev
     then match test with
          | None | Some "" =>
              "https://mzm836987q3287.app.n8n.cloud/webhook-test/proposal-upload"
          | Some url => url
          end
     else match prod with
          | None | Some "" =>
              "https://mzm836987q3287.app.n8n.cloud/webhook/proposal-upload"
          | Some url => url
          end) /\
  forall p s, exists log,
    trace (snd (sendWebhook env p s)) = trace s ++ log /\
    forallb (is_request_to (webhookUrl env)) log = true.
Proof.
  intros env. split.
  - unfold webhookUrl, isDevelopment, testUrl, productionUrl, env.
    cbn [DEV VITE_N8N_TEST_URL VITE_N8N_PRODUCTION_URL].
    destruct dev.
    + destruct test as [[|c u]|]; reflexivity.
    + destruct prod as [[|c u]|]; reflexivity.
  - intros p s. rewrite sendWebhook_run. eexists. split; [reflexivity|].
    unfold transport_log. cbn [forallb is_request_to].
    rewrite forallb_app.
    destruct (Json.stringify (Payload.to_value p));
      cbn [forallb is_request_to andb].
    + destruct (delivery env p (fetches s)); reflexivity.
    + rewrite String.eqb_refl.
      destruct (delivery env p (fetches s)); reflexivity.
Qed.

(** *** The catalog *)

(** C3. Every catalog call succeeds and hands the transport one envelope,
    tagged with the call's action, whose [data] has exactly the fields of
    the row of that action: the row of the table of section 6 for the
    fifteen actions it lists, the row of [unlisted] for the other seven.  The
    row is looked up by the action alone.  In [document_uploaded], [size] is
    the document's [fileSize] and [url] its [fileUrl]; in [task_completed],
    [completedAt] is a string and [actualHours] the task's. *)
Theorem catalog_data_shape env c s :
  exists p,
    fst (perform env c s) = Ok tt /\
    emitted (trace (snd (perform env c s))) = emitted (trace s) ++ [p] /\
    Payload.action p = action_of c /\
    matches (table6 ++ unlisted) p = true /\
    matches table6 p = existsb (String.eqb (action_of c)) (map fst table6) /\
    detail c p.
Proof.
  destruct c; cbn [perform];
    unfold documentUploaded, documentViewed, documentDownloaded,
      documentDeleted, documentStatusChanged, documentShared, documentEdited,
      taskCreated, taskUpdated, taskCompleted, taskDeleted, userInvited,
      userRoleChanged, userProfileUpdated, templateCreated, templateUsed,
      templateDeleted, folderCreated, folderDeleted, proposalUploaded,
      systemLogin, systemLogout;
    mrun; eexists; (split; [reflexivity|]);
    (split; [emits; reflexivity|]);
    (split; [reflexivity|]); (split; [reflexivity|]);
    (split; [reflexivity|]); cbn; eauto.
Qed.

(** C6, as stated, fails: two calls of [taskCompleted] with the same actor
    and task, a second apart, give envelopes that differ in
    [data.task.completedAt] too. *)
Lemma taskCompleted_twice_differs :
  let env := browser in_2026 receiver_up in
  let s1 := snd (taskCompleted env mockUser mockTask1 initialState) in
  let s2 := snd (taskCompleted env mockUser mockTask1 s1) in
  exists p1 p2,
    emitted (trace s2) = [p1; p2] /\
    without_timestamp p1 <> without_timestamp p2.
Proof.
  do 2 eexists. split; [vm_compute; reflexivity|].
  vm_compute. discriminate.
Qed.

(** C6, amended. Two calls of one catalog operation with the same
    arguments, in any two states, hand the transport envelopes that are equal
    up to the readings of the clock: the top-level [timestamp] and, for
    [task_completed], [user_login] and [user_logout], the field [completedAt],
    [loginTime] or [logoutTime] of [data].  For the other nineteen actions
    they are equal up to [timestamp]. *)
Theorem catalog_twice env c s1 s2 :
  exists p1 p2,
    emitted (trace (snd (perform env c s1))) = emitted (trace s1) ++ [p1] /\
    emitted (trace (snd (perform env c s2))) = emitted (trace s2) ++ [p2] /\
    without_clock p1 = without_clock p2 /\
    match clock_field (action_of c) with
    | Some _ => True
    | None => without_timestamp p1 = without_timestamp p2
    end.
Proof.
  destruct c; cbn [perform];
    unfold documentUploaded, documentViewed, documentDownloaded,
      documentDeleted, documentStatusChanged, documentShared, documentEdited,
      taskCreated, taskUpdated, taskCompleted, taskDeleted, userInvited,
      userRoleChanged, userProfileUpdated, templateCreated, templateUsed,
      templateDeleted, folderCreated, folderDeleted, proposalUploaded,
      systemLogin, systemLogout;
    mrun; eexists; eexists;
    (split; [emits; reflexivity|]); (split; [emits; reflexivity|]);
    split; reflexivity || exact I.
Qed.

(** *** The domain services *)

(** C1, as stated, fails: deleting the stored document "1" succeeds and
    hands the transport two envelopes, [document_viewed] from the lookup and
    then [document_deleted]. *)
Lemma deleteDocument_emits_two :
  let r := run_op (browser in_2026 receiver_up) (DeleteDocument "1")
             initialState in
  fst r = Ok RVoid /\
  map Payload.action (emitted (trace (snd r))) =
    ["document_viewed"; "document_deleted"] /\
  ~ exists p, emitted (trace (snd r)) = [p].
Proof.
  split; [vm_compute; reflexivity|]. split; [vm_compute; reflexivity|].
  intros [p H]. apply (f_equal (@length _)) in H. vm_compute in H.
  discriminate H.
Qed.

Ltac done_events :=
  intros [= <- <-]; unfold sent; cbn [trace]; eexists;
  (split; [emits; reflexivity|]); split; reflexivity.

(** C1, amended. A successful domain mutation hands the transport the
    envelopes [expected] lists, in that order, and the [data] of each has
    exactly the fields of the row of its action in the table of section 6:
    [createTask], [updateTask] and [deleteTask] emit one envelope
    ([task_created], [task_updated], [task_deleted]); [completeTask] emits
    [task_updated] and then [task_completed]; [downloadDocument],
    [deleteDocument] and [shareDocument] emit [document_viewed] and then
    [document_downloaded], [document_deleted] or [document_shared];
    [updateDocument] emits [document_viewed], then [document_status_changed]
    if [updates] has a status and the stored and the new status are both
    non-empty and different, then [document_edited] if [updates] is not
    empty;
    [uploadDocument] emits [document_uploaded], and then [proposal_uploaded]
    if the file name or the tags say "proposal". *)
Theorem domain_operation_events env op s r s' :
  run_op env op s = (Ok r, s') ->
  exists new,
    emitted (trace s') = emitted (trace s) ++ new /\
    map Payload.action new = expected op r /\
    forallb (matches table6) new = true.
Proof.
  destruct op; unfold run_op, expected.
  - unfold uploadDocument, generateAutoTags, documentUploaded,
      proposalUploaded.
    destruct (DocumentUpload.dueDate uploadData) as [[ms|]|]; mrun;
      try discriminate;
      match goal with |- context [if ?c then _ else _] => destruct c eqn:E end;
      mrun; intros [= <- <-];
      cbn [mapToDocumentMetadata DocumentMetadata.tags DocumentRow.tags
           default from_option Datatypes.id] in *;
      rewrite E; unfold sent; cbn [trace]; eexists;
      (split; [emits; reflexivity|]); split; reflexivity.
  - unfold downloadDocument, documentDownloaded. mred.
    rewrite getDocument_run.
    destruct (stored id); mrun; [done_events | discriminate].
  - unfold deleteDocument, documentDeleted. mred. rewrite getDocument_run.
    destruct (stored id); mrun; [done_events | discriminate].
  - unfold updateDocument, documentStatusChanged, documentEdited. mred.
    rewrite getDocument_run.
    destruct (stored id); mrun; [|discriminate].
    destruct (PartialDocument.status updates); mrun;
      repeat match goal with
             | |- context [if ?c then _ else _] => destruct c; mrun
             end; done_events.
  - unfold shareDocument, documentShared. mred. rewrite getDocument_run.
    destruct (stored id); mrun; [done_events | discriminate].
  - unfold createTask, taskCreated.
    destruct (CreateTaskData.dueDate taskData) as [[ms|]|]; mrun;
      [done_events | discriminate | done_events].
  - unfold updateTask, taskUpdated. mrun.
    destruct (findIndex id (mockTasks s)) as [[i t]|]; mrun;
      [done_events | discriminate].
  - unfold completeTask, updateTask, taskUpdated, taskCompleted. mrun.
    destruct (findIndex id (mockTasks s)) as [[i t]|]; mrun;
      [done_events | discriminate].
  - unfold deleteTask, taskDeleted. mrun.
    destruct (findIndex id (mockTasks s)) as [[i t]|]; mrun;
      [done_events | discriminate].
Qed.

(** [domain_operation_events] at the deletion of task "1" while the
    receiver is down. *)
Lemma domain_operation_events_witness :
  let env := browser in_2026 receiver_down in
  let s' := snd (run_op env (DeleteTask "1") initialState) in
  run_op env (DeleteTask "1") initialState = (Ok RVoid, s') /\
  exists new,
    emitted (trace s') = emitted (trace initialState) ++ new /\
    map Payload.action new = ["task_deleted"] /\
    forallb (matches table6) new = true.
Proof.
  intros env s'.
  assert (H : run_op env (DeleteTask "1") initialState = (Ok RVoid, s')).
  { apply injective_projections; [vm_compute; reflexivity | reflexivity]. }
  split; [exact H|].
  exact (domain_operation_events env (DeleteTask "1") initialState RVoid s' H).
Defined.

(** C4, as stated, fails: when the clock reads 2026 the tags of the upload
    are pdf, nda, confidential, agreement and legal, without 2024. *)
Lemma upload_nda_in_2026 :
  exists d,
    fst (uploadDocument (browser in_2026 receiver_up)
           {| DocumentUpload.file := nda_file 1000;
              DocumentUpload.folderId := None;
              DocumentUpload.tags := None;
              DocumentUpload.priority := None;
              DocumentUpload.dueDate := None |} initialState) = Ok d /\
    DocumentMetadata.tags d =
      ["pdf"; "nda"; "confidential"; "agreement"; "legal"] /\
    ~ In "2024" (DocumentMetadata.tags d).
Proof.
  eexists. split; [vm_compute; reflexivity|]. split; [reflexivity|].
  intros [H|[H|[H|[H|[H|[]]]]]]; discriminate H.
Qed.

(** C4, amended. Uploading a file named "NDA_Agreement_2024.pdf" of type
    application/pdf, with no due date or one that is a date, succeeds; the
    tags of the document have no duplicates and
    include nda, agreement, legal and pdf, and they include 2024 when the
    current year, in local time, is 2024.  The first envelope handed to the
    transport is [document_uploaded], and its [data.document.tags] are the
    tags of the document. *)
Theorem upload_nda env s size folderId utags priority dueDate :
  dueDate <> Some Date.Invalid ->
  let u := {| DocumentUpload.file := nda_file size;
              DocumentUpload.folderId := folderId;
              DocumentUpload.tags := utags;
              DocumentUpload.priority := priority;
              DocumentUpload.dueDate := dueDate |} in
  let year := Date.getFullYear (utcOffset env) (clock env (ticks s)) in
  let s' := snd (uploadDocument env u s) in
  exists d p rest,
    fst (uploadDocument env u s) = Ok d /\
    In "nda" (DocumentMetadata.tags d) /\
    In "agreement" (DocumentMetadata.tags d) /\
    In "legal" (DocumentMetadata.tags d) /\
    In "pdf" (DocumentMetadata.tags d) /\
    (if (year =? 2024)%Z then In "2024" (DocumentMetadata.tags d) else True) /\
    List.NoDup (DocumentMetadata.tags d) /\
    emitted (trace s') = emitted (trace s) ++ p :: rest /\
    Payload.action p = "document_uploaded" /\
    Json.get "tags" (Json.get "document" (Payload.data p)) =
      Json.strings (DocumentMetadata.tags d).
Proof.
  intros Hdue u year s'. subst s' u.
  unfold uploadDocument, documentUploaded, proposalUploaded.
  cbn [DocumentUpload.dueDate]. rewrite (toISOString_opt_valid _ Hdue). mred.
  cbn [DocumentUpload.file DocumentUpload.folderId DocumentUpload.tags
       DocumentUpload.priority DocumentUpload.dueDate].
  rewrite generateAutoTags_nda. mrun.
  cbn [nda_file File.name].
  change (Js.toLowerCase "NDA_Agreement_2024.pdf")
    with "nda_agreement_2024.pdf".
  includes_closed. cbn [orb].
  set (tags := Js.uniq _).
  assert (Hin : forall x,
             In x ["pdf"; "nda"; "confidential"; "agreement"; "legal"] ->
             In x tags).
  { intros x Hx. apply uniq_In. apply in_or_app. right.
    apply in_or_app. left. exact Hx. }
  assert (Hy : if (year =? 2024)%Z then In "2024" tags else True).
  { destruct (Z.eqb_spec year 2024) as [E|]; [|exact I].
    apply uniq_In. apply in_or_app. right. apply in_or_app. right.
    unfold year_tag. cbn [ticks]. fold year. rewrite E.
    vm_compute. left. reflexivity. }
  destruct (Js.arr_includes tags "proposal"); mrun;
    do 3 eexists;
    cbn [mapToDocumentMetadata DocumentMetadata.tags DocumentRow.tags
         default from_option];
    (split; [reflexivity|]);
    (split; [apply Hin; cbn; tauto|]); (split; [apply Hin; cbn; tauto|]);
    (split; [apply Hin; cbn; tauto|]); (split; [apply Hin; cbn; tauto|]);
    (split; [exact Hy|]); (split; [apply uniq_NoDup|]);
    (split; [emits; reflexivity|]); split; reflexivity.
Qed.

(** [upload_nda] in June 2024, with a due date in July. *)
Lemma upload_nda_witness :
  let env := browser in_2024 receiver_up in
  let due := Some (Date.At (Date.of_ymd 2024 7 1)) in
  due <> Some Date.Invalid /\
  exists d,
    fst (uploadDocument env
           {| DocumentUpload.file := nda_file 1000;
              DocumentUpload.folderId := None;
              DocumentUpload.tags := None;
              DocumentUpload.priority := None;
              DocumentUpload.dueDate := due |} initialState) = Ok d /\
    In "nda" (DocumentMetadata.tags d) /\
    List.NoDup (DocumentMetadata.tags d).
Proof.
  intros env due.
  assert (H : due <> Some Date.Invalid) by discriminate.
  split; [exact H|].
  destruct (upload_nda env initialState 1000 None None None due H)
    as (d & p & rest & E & Hn & _ & _ & _ & _ & Hd & _).
  exists d. split; [exact E|]. split; [exact Hn | exact Hd].
Defined.

(** C5. Completing a task that is in the store, passing [actualHours],
    succeeds; in the store the task has become [completed] with that
    [actualHours]; and the transport was handed [task_updated] and then
    [task_completed], whose [data.task] has [completedAt] set (a string) and
    [actualHours] equal to the hours passed.  (For task "2" and 3 hours, see
    the witness.) *)
Theorem completeTask_spec env id h s i old :
  findIndex id (mockTasks s) = Some (i, old) ->
  exists t' p1 p2,
    let s' := snd (completeTask env id (Some h) s) in
    fst (completeTask env id (Some h) s) = Ok t' /\
    TaskData.id t' = id /\
    TaskData.status t' = Completed /\
    TaskData.actualHours t' = Some h /\
    mockTasks s' = <[i := t']> (mockTasks s) /\
    findIndex id (mockTasks s') = Some (i, t') /\
    emitted (trace s') = emitted (trace s) ++ [p1; p2] /\
    Payload.action p2 = "task_completed" /\
    (exists completedAt,
       Json.get "completedAt" (Json.get "task" (Payload.data p2)) =
         Json.Str completedAt) /\
    Json.get "actualHours" (Json.get "task" (Payload.data p2)) = Json.Num h.
Proof.
  intros H. pose proof (findIndex_Some _ _ _ _ H) as [Hl Hid].
  unfold completeTask, updateTask, taskUpdated, taskCompleted. mrun.
  rewrite H. mrun.
  do 3 eexists.
  split; [reflexivity|]. split; [exact Hid|]. split; [reflexivity|].
  split; [reflexivity|]. split; [reflexivity|].
  split; [apply (findIndex_insert _ _ _ _ _ H); exact Hid|].
  split; [emits; reflexivity|]. split; [reflexivity|].
  split; [eexists; reflexivity | reflexivity].
Qed.

(** [completeTask_spec] at task "2" of the initial store and 3 hours, while
    the receiver is down. *)
Lemma completeTask_spec_witness :
  let env := browser in_2026 receiver_down in
  findIndex "2" (mockTasks initialState) = Some (1%nat, mockTask2) /\
  exists t',
    fst (completeTask env "2" (Some 3%Z) initialState) = Ok t' /\
    TaskData.status t' = Completed /\
    TaskData.actualHours t' = Some 3%Z /\
    findIndex "2" (mockTasks (snd (completeTask env "2" (Some 3%Z) initialState)))
      = Some (1%nat, t').
Proof.
  intros env.
  assert (H : findIndex "2" (mockTasks initialState) = Some (1%nat, mockTask2))
    by (vm_compute; reflexivity).
  split; [exact H|].
  destruct (completeTask_spec env "2" 3%Z initialState 1 mockTask2 H)
    as (t' & p1 & p2 & E & _ & Hs & Hh & _ & Hf & _).
  exists t'. auto.
Defined.

(** C7. Deleting a document whose id matches no stored document throws
    "Document not found" to the caller; nothing is handed to the transport:
    the only effect is the error on the console. *)
Theorem delete_missing_document env id s :
  (forall d, In d (map mapToDocumentMetadata (mockDocuments None)) ->
             DocumentMetadata.id d <> id) ->
  deleteDocument env id s =
    (Throw (Error "Document not found"),
     {| ticks := ticks s; uuids := uuids s; fetches := fetches s;
        mockTasks := mockTasks s; localStorage := localStorage s;
        auth := auth s;
        trace := trace s ++
                 [ConsoleError [LStr "Error deleting document:";
                                LExn (Error "Document not found")]] |}) /\
  emitted (trace (snd (deleteDocument env id s))) = emitted (trace s).
Proof.
  intros H. apply stored_none in H.
  unfold deleteDocument. mred. rewrite getDocument_run, H. mred.
  split; [reflexivity|]. rewrite emitted_app. cbn. apply app_nil_r.
Qed.

(** [delete_missing_document] at the id "3". *)
Lemma delete_missing_document_witness :
  let env := browser in_2026 receiver_up in
  (forall d, In d (map mapToDocumentMetadata (mockDocuments None)) ->
             DocumentMetadata.id d <> "3") /\
  fst (deleteDocument env "3" initialState) =
    Throw (Error "Document not found") /\
  emitted (trace (snd (deleteDocument env "3" initialState))) = [].
Proof.
  intros env.
  assert (H : forall d,
             In d (map mapToDocumentMetadata (mockDocuments None)) ->
             DocumentMetadata.id d <> "3").
  { intros d [<-|[<-|[]]]; discriminate. }
  split; [exact H|].
  destruct (delete_missing_document env "3" initialState H) as [E1 E2].
  rewrite E2. rewrite E1. split; reflexivity.
Defined.

(** C9. [deleteDocument] removes nothing: after a successful call for an id
    of the list [getDocuments()] returns, [getDocuments()] returns the same
    list, which still has a document with that id; the task store, local
    storage and the auth state are as before. *)
Theorem deleteDocument_keeps_store env id s docs s1 :
  getDocuments None s = (Ok docs, s1) ->
  In id (map DocumentMetadata.id docs) ->
  let s' := snd (deleteDocument env id s) in
  fst (deleteDocument env id s) = Ok tt /\
  fst (getDocuments None s') = Ok docs /\
  (exists d, In d docs /\ DocumentMetadata.id d = id) /\
  mockTasks s' = mockTasks s /\
  localStorage s' = localStorage s /\
  auth s' = auth s.
Proof.
  intros Hg Hin. unfold getDocuments in Hg. revert Hg. mred.
  intros [= <- <-].
  destruct (stored_some id Hin) as (d & Hd & Hid).
  unfold deleteDocument, documentDeleted. mred.
  rewrite getDocument_run, Hd. mrun.
  repeat split; try reflexivity.
  apply in_map_iff in Hin as (d' & ? & ?). eauto.
Qed.

(** [deleteDocument_keeps_store] at the document "1". *)
Lemma deleteDocument_keeps_store_witness :
  let env := browser in_2026 receiver_down in
  let docs := map mapToDocumentMetadata (mockDocuments None) in
  getDocuments None initialState = (Ok docs, initialState) /\
  In "1" (map DocumentMetadata.id docs) /\
  fst (deleteDocument env "1" initialState) = Ok tt /\
  fst (getDocuments None (snd (deleteDocument env "1" initialState))) = Ok docs.
Proof.
  intros env docs.
  assert (Hg : getDocuments None initialState = (Ok docs, initialState))
    by reflexivity.
  assert (Hin : In "1" (map DocumentMetadata.id docs))
    by (left; reflexivity).
  split; [exact Hg|]. split; [exact Hin|].
  destruct (deleteDocument_keeps_store env "1" initialState docs initialState
              Hg Hin) as (E1 & E2 & _).
  split; [exact E1 | exact E2].
Defined.

(** *** The auth context *)

(** C10. [logout] never throws, whatever the network answers; it removes
    the stored user record and leaves the auth state unauthenticated.  When
    no user is authenticated it has no observable effect at all, so no
    [user_logout] event; otherwise it hands the transport one envelope,
    [user_logout]. *)
Theorem logout_spec env s :
  let s' := snd (logout env s) in
  fst (logout env s) = Ok tt /\
  localStorage s' !! "pocketlaw_user" = None /\
  auth s' = {| Auth.user := None; Auth.isAuthenticated := false;
               Auth.isLoading := false |} /\
  match Auth.user (auth s) with
  | None => trace s' = trace s
  | Some u =>
      exists p,
        emitted (trace s') = emitted (trace s) ++ [p] /\
        Payload.action p = "user_logout"
  end.
Proof.
  unfold logout, systemLogout. mred.
  destruct (Auth.user (auth s)) as [u|]; mrun.
  - repeat split; try reflexivity.
    + apply lookup_delete_eq.
    + eexists. split; [emits; reflexivity | reflexivity].
  - repeat split; try reflexivity. apply lookup_delete_eq.
Qed.

(** ** Further properties *)

Ltac mred2 :=
  cbv beta iota delta
    [mbind M_bind mret M_ret try_catch throw emit console_log console_error
     get_mockTasks set_mockTasks get_auth dispatch localStorage_removeItem
     localStorage_setItem new_Date now_iso uuidv4 fetch response_text
     JSON_stringify Date_toISOString Date_toISOString_opt properties];
  cbn [ticks uuids fetches mockTasks localStorage auth trace fst snd negb].

Ltac mrun2 :=
  repeat (mred2; rewrite ?sendWebhook_run;
          cbn [sent ticks uuids fetches mockTasks localStorage auth trace
               fst snd]).

Lemma requests_app t1 t2 : requests (t1 ++ t2) = requests t1 ++ requests t2.
Proof. apply List.filter_app. Qed.

Lemma requests_transport_log env p n :
  requests (transport_log env p n) =
  match Json.stringify (Payload.to_value p) with
  | inl _ => []
  | inr body =>
      [Fetch (webhookUrl env) "POST"
         [("Content-Type", "application/json");
          ("User-Agent", "Pocketlaw-Dashboard/1.0.0")]
         (default "undefined" body)]
  end.
Proof.
  unfold transport_log.
  destruct (Json.stringify (Payload.to_value p));
    destruct (delivery env p n); reflexivity.
Qed.

Lemma requests_sent env p s :
  requests (trace (sent env p s)) =
  requests (trace s) ++ requests (transport_log env p (fetches s)).
Proof. unfold sent. cbn [trace]. rewrite requests_app. reflexivity. Qed.

(** X1. One call of [sendWebhook] makes at most one request and never a
    second attempt: exactly one POST to the endpoint, with the two headers
    and the JSON text of the envelope as body, when the envelope can be
    serialized, and no request at all when it cannot.  It changes nothing
    else than the trace and the count of requests. *)
Theorem sendWebhook_one_request env p s :
  let s' := snd (sendWebhook env p s) in
  exists new,
    requests (trace s') = requests (trace s) ++ new /\
    new = match Json.stringify (Payload.to_value p) with
          | inl _ => []
          | inr body =>
              [Fetch (webhookUrl env) "POST"
                 [("Content-Type", "application/json");
                  ("User-Agent", "Pocketlaw-Dashboard/1.0.0")]
                 (default "undefined" body)]
          end /\
    length new <= 1 /\
    fetches s' = fetches s + length new /\
    ticks s' = ticks s /\ uuids s' = uuids s /\ mockTasks s' = mockTasks s /\
    localStorage s' = localStorage s /\ auth s' = auth s.
Proof.
  rewrite sendWebhook_run. cbn [snd]. rewrite requests_sent.
  rewrite requests_transport_log. eexists. split; [reflexivity|].
  split; [reflexivity|]. unfold sent. cbn [fetches ticks uuids mockTasks localStorage auth].
  destruct (Json.stringify (Payload.to_value p)); cbn [length];
    repeat split; lia.
Qed.

Lemma snapshot_id u : Actor.snapshot u = u.
Proof. destruct u. reflexivity. Qed.

(** X2. Every catalog call copies the actor it is given into the envelope
    and stamps it with the first reading of the clock; the three actions
    with a time in [data] take it from a second reading.  The call reads the
    clock that many times and leaves the task store, local storage and the
    auth state alone. *)
Theorem catalog_actor_and_time env c s :
  let s' := snd (perform env c s) in
  exists p,
    emitted (trace s') = emitted (trace s) ++ [p] /\
    Payload.user p = actor_of c /\
    Payload.timestamp p = Date.toISOString (clock env (ticks s)) /\
    match clock_field (action_of c) with
    | Some path =>
        at_path path (Payload.data p) =
          Json.Str (Date.toISOString (clock env (S (ticks s)))) /\
        ticks s' = S (S (ticks s))
    | None => ticks s' = S (ticks s)
    end /\
    mockTasks s' = mockTasks s /\ localStorage s' = localStorage s /\
    auth s' = auth s.
Proof.
  destruct c; cbn [perform];
    unfold documentUploaded, documentViewed, documentDownloaded,
      documentDeleted, documentStatusChanged, documentShared, documentEdited,
      taskCreated, taskUpdated, taskCompleted, taskDeleted, userInvited,
      userRoleChanged, userProfileUpdated, templateCreated, templateUsed,
      templateDeleted, folderCreated, folderDeleted, proposalUploaded,
      systemLogin, systemLogout;
    mrun; eexists; unfold sent; cbn [snd trace ticks mockTasks localStorage auth];
    (split; [emits; reflexivity|]);
    (split; [apply snapshot_id|]);
    (split; [reflexivity|]); cbn; repeat split; reflexivity.
Qed.

(** X3. [getDocument]: a stored id returns its document and emits exactly
    one envelope, [document_viewed], carrying that id; any other id returns
    [null] without throwing and without any effect. *)
Theorem getDocument_spec env id s :
  match stored id with
  | Some d =>
      fst (getDocument env id s) = Ok (Some d) /\
      DocumentMetadata.id d = id /\
      exists p,
        emitted (trace (snd (getDocument env id s))) = emitted (trace s) ++ [p] /\
        Payload.action p = "document_viewed" /\
        at_path ["document"; "id"] (Payload.data p) = Json.Str id
  | None => getDocument env id s = (Ok None, s)
  end.
Proof.
  rewrite getDocument_run. destruct (stored id) as [d|] eqn:E; [|reflexivity].
  assert (Hid : DocumentMetadata.id d = id).
  { unfold stored in E. apply find_some in E as [_ E]. now apply String.eqb_eq. }
  split; [reflexivity|]. split; [exact Hid|].
  eexists. cbn [snd]. rewrite emitted_sent. cbn [trace].
  split; [reflexivity|]. split; [reflexivity|]. cbn. now rewrite Hid.
Qed.

(** *** Substrings *)

Lemma append_cons c (a b : string) : String c a +:+ b = String c (a +:+ b).
Proof. reflexivity. Qed.

Lemma append_nil (b : string) : "" +:+ b = b.
Proof. reflexivity. Qed.

Lemma prefix_app a s :
  String.prefix a s = true <-> exists post, s = a +:+ post.
Proof.
  revert s. induction a as [|c a IH]; intros s; cbn.
  - split; [eauto | intros _; destruct s; reflexivity].
  - destruct s as [|d s]; cbn.
    + split; [discriminate | intros [post H]; discriminate H].
    + destruct (ascii_dec c d) as [<-|Hne].
      * rewrite IH. split; intros [post H]; exists post;
          rewrite append_cons in *; congruence.
      * split; [discriminate|].
        intros [post H]. rewrite append_cons in H. congruence.
Qed.

Lemma includes_nil sub : Js.includes "" sub = String.prefix sub "" || false.
Proof. reflexivity. Qed.

Lemma includes_cons c s sub :
  Js.includes (String c s) sub =
  String.prefix sub (String c s) || Js.includes s sub.
Proof. reflexivity. Qed.

Lemma toLowerCase_cons c s :
  Js.toLowerCase (String c s) = String (Js.lower_ascii c) (Js.toLowerCase s).
Proof. reflexivity. Qed.

Lemma includes_app s sub :
  Js.includes s sub = true <-> exists pre post, s = pre +:+ sub +:+ post.
Proof.
  induction s as [|c s IH].
  - rewrite includes_nil, orb_false_r, prefix_app. split.
    + intros [post H]. exists "", post. exact H.
    + intros (pre & post & H). destruct pre; [|discriminate H].
      exists post. exact H.
  - rewrite includes_cons, orb_true_iff, prefix_app, IH. split.
    + intros [[post H]|(pre & post & H)].
      * exists "", post. exact H.
      * exists (String c pre), post. rewrite append_cons. now rewrite H.
    + intros (pre & post & H). destruct pre as [|d pre].
      * left. exists post. exact H.
      * right. rewrite append_cons in H. injection H as -> H. eauto.
Qed.

Lemma string_app_assoc (a b c : string) : (a +:+ b) +:+ c = a +:+ b +:+ c.
Proof. induction a; rewrite ?append_cons, ?append_nil; congruence. Qed.

Lemma includes_trans s mid sub :
  Js.includes s mid = true -> Js.includes mid sub = true ->
  Js.includes s sub = true.
Proof.
  rewrite !includes_app. intros (p1 & q1 & ->) (p2 & q2 & ->).
  exists (p1 +:+ p2), (q2 +:+ q1). now rewrite !string_app_assoc.
Qed.

Lemma toLowerCase_app a b :
  Js.toLowerCase (a +:+ b) = Js.toLowerCase a +:+ Js.toLowerCase b.
Proof.
  induction a; rewrite ?append_cons, ?append_nil, ?toLowerCase_cons,
    ?append_cons; [reflexivity | congruence].
Qed.

Lemma includes_toLowerCase s sub :
  Js.includes s sub = true ->
  Js.includes (Js.toLowerCase s) (Js.toLowerCase sub) = true.
Proof.
  rewrite !includes_app. intros (p & q & ->).
  exists (Js.toLowerCase p), (Js.toLowerCase q). now rewrite !toLowerCase_app.
Qed.

Lemma includes_empty s : Js.includes s "" = true.
Proof. destruct s; reflexivity. Qed.

Lemma filter_sublist {A} (f : A -> bool) (l : list A) :
  sublist (List.filter f l) l.
Proof.
  induction l as [|x l IH]; cbn; [constructor|].
  destruct (f x); now constructor.
Qed.

(** *** The document service *)

Lemma searchDocuments_run query s :
  searchDocuments query s =
  (Ok (List.filter (search_hit query)
         (map mapToDocumentMetadata (mockDocuments None))), s).
Proof. reflexivity. Qed.

Lemma filter_every {A} (f : A -> bool) (l : list A) :
  (forall x, In x l -> f x = true) -> List.filter f l = l.
Proof.
  induction l as [|x l IH]; intros H; [reflexivity|]. cbn [List.filter].
  rewrite (H x) by (now left). f_equal. apply IH. intros y Hy. apply H.
  now right.
Qed.

Lemma occurs_in_self text : occurs_in text text.
Proof.
  exists "", "". rewrite append_nil.
  induction text as [|c x IH]; [reflexivity|]. rewrite append_cons.
  now f_equal.
Qed.

Lemma mentions_includes query text :
  Js.includes (Js.toLowerCase text) (Js.toLowerCase query) = true <->
  mentions query text.
Proof. apply includes_app. Qed.

(** X4. [searchDocuments] never throws and has no effect at all (it goes
    through [getDocuments], not [getDocument], so no view is reported).  What
    it returns are documents of [getDocuments()], in the same order: those
    in whose name, or in one of whose tags, the query occurs as a piece of
    consecutive characters, letter case aside.  So the empty query returns
    them all, and a document is found by its own name and by each of its
    tags. *)
Theorem searchDocuments_spec query s :
  let docs := map mapToDocumentMetadata (mockDocuments None) in
  exists found,
    searchDocuments query s = (Ok found, s) /\
    sublist found docs /\
    (forall d, In d found <->
       In d docs /\
       (mentions query (DocumentMetadata.name d) \/
        exists tag, In tag (DocumentMetadata.tags d) /\ mentions query tag)) /\
    (query = "" -> found = docs) /\
    (forall d, In d docs ->
       (query = DocumentMetadata.name d \/ In query (DocumentMetadata.tags d)) ->
       In d found).
Proof.
  intros docs. exists (List.filter (search_hit query) docs).
  assert (Hhit : forall d,
            search_hit query d = true <->
            mentions query (DocumentMetadata.name d) \/
            exists tag, In tag (DocumentMetadata.tags d) /\ mentions query tag).
  { intros d. unfold search_hit.
    rewrite orb_true_iff, mentions_includes, existsb_exists.
    split; (intros [H|(tag & Hin & H)]; [left; exact H | right]);
      exists tag; (split; [exact Hin|]); now apply mentions_includes. }
  split; [reflexivity|]. split; [apply filter_sublist|].
  split; [intros d; rewrite filter_In, Hhit; reflexivity|].
  split.
  - intros ->. apply filter_every. intros d _. apply Hhit. left.
    exists "", (Js.toLowerCase (DocumentMetadata.name d)). reflexivity.
  - intros d Hd Hq. apply filter_In. split; [exact Hd|]. apply Hhit.
    destruct Hq as [->|Hq].
    + left. apply occurs_in_self.
    + right. exists query. split; [exact Hq | apply occurs_in_self].
Qed.

(** X5. The search does not look at the case of the query: two queries with
    the same lower-case form find the same documents. *)
Theorem searchDocuments_case query query' s :
  Js.toLowerCase query = Js.toLowerCase query' ->
  searchDocuments query s = searchDocuments query' s.
Proof.
  intros H. rewrite !searchDocuments_run.
  do 2 f_equal. apply filter_ext. intros d. unfold search_hit. now rewrite H.
Qed.

Lemma searchDocuments_case_witness :
  Js.toLowerCase "NDA" = Js.toLowerCase "nda" /\
  searchDocuments "NDA" initialState = searchDocuments "nda" initialState.
Proof.
  assert (H : Js.toLowerCase "NDA" = Js.toLowerCase "nda") by reflexivity.
  split; [exact H|]. exact (searchDocuments_case "NDA" "nda" initialState H).
Defined.

(** X6. Narrowing a query never adds results: when [query] occurs inside
    [longer], every document found for [longer] is found for [query]. *)
Theorem searchDocuments_narrowing query longer s found found' :
  Js.includes longer query = true ->
  searchDocuments longer s = (Ok found, s) ->
  searchDocuments query s = (Ok found', s) ->
  forall d, In d found -> In d found'.
Proof.
  intros Hq. rewrite !searchDocuments_run.
  remember (map mapToDocumentMetadata (mockDocuments None)) as docs.
  intros H1 H2.
  assert (E1 : found = List.filter (search_hit longer) docs) by congruence.
  assert (E2 : found' = List.filter (search_hit query) docs) by congruence.
  subst found found'. intros d. rewrite !filter_In. intros [Hd Hhit].
  split; [exact Hd|]. apply includes_toLowerCase in Hq.
  unfold search_hit in *. apply orb_true_iff in Hhit as [Hn|Ht];
    apply orb_true_iff.
  - left. eapply includes_trans; eauto.
  - right. apply existsb_exists in Ht as (t & Ht & Hi).
    apply existsb_exists. exists t. split; [exact Ht|].
    eapply includes_trans; eauto.
Qed.

Lemma searchDocuments_narrowing_witness :
  let docs := map mapToDocumentMetadata (mockDocuments None) in
  Js.includes "agreement" "e" = true /\
  searchDocuments "agreement" initialState = (Ok (take 1 docs), initialState) /\
  searchDocuments "e" initialState = (Ok docs, initialState) /\
  forall d, In d (take 1 docs) -> In d docs.
Proof.
  intros docs.
  assert (H1 : Js.includes "agreement" "e" = true)
    by (vm_compute; reflexivity).
  assert (H2 : searchDocuments "agreement" initialState =
               (Ok (take 1 docs), initialState))
    by (vm_compute; reflexivity).
  assert (H3 : searchDocuments "e" initialState = (Ok docs, initialState))
    by (vm_compute; reflexivity).
  split; [exact H1|]. split; [exact H2|]. split; [exact H3|].
  exact (searchDocuments_narrowing "e" "agreement" initialState _ _ H1 H2 H3).
Defined.

Lemma in_push_if c items tags x :
  In x (push_if c items tags) -> In x items \/ In x tags.
Proof.
  unfold push_if. destruct c; [|tauto].
  rewrite in_app_iff. tauto.
Qed.

Lemma generateAutoTags_vocabulary env file s :
  exists auto,
    generateAutoTags env file s =
      (Ok auto,
       {| ticks := S (ticks s); uuids := uuids s; fetches := fetches s;
          mockTasks := mockTasks s; localStorage := localStorage s;
          auth := auth s; trace := trace s |}) /\
    forall x, In x auto ->
      In x vocabulary \/
      x = Js.toString (Date.getFullYear (utcOffset env) (clock env (ticks s))).
Proof.
  unfold generateAutoTags. mred. eexists. split; [reflexivity|].
  intros x H.
  repeat (apply in_push_if in H as [H|H];
          [cbn in H; unfold vocabulary; cbn; intuition | ]).
  destruct H.
Qed.

Lemma getDocumentType_range mimeType : In (getDocumentType mimeType) documentTypes.
Proof.
  unfold getDocumentType, documentTypes.
  repeat match goal with
         | |- context [if ?c then _ else _] => destruct c
         end; cbn; tauto.
Qed.

(** X7. [uploadDocument] fails in one case only, whatever the receiver
    answers: when the due date is an invalid date, [toISOString] throws a
    RangeError, which is written to the console and thrown again; by then
    nothing has been sent.  In every other case it succeeds, and the document
    it returns has the id [uuidv4] gave, the name, size and MIME type of the
    file, status draft, version 1, the mock URL made of the id and the name,
    the due date as an ISO string, one of the six document types, and
    priority medium unless one was given.  Its tags have no duplicates,
    include every tag the caller passed, and each of them was passed by the
    caller, belongs to the fixed vocabulary or is the current year.  The
    task store is not touched in either case. *)
Theorem uploadDocument_spec env u s :
  let file := DocumentUpload.file u in
  let s' := snd (uploadDocument env u s) in
  mockTasks s' = mockTasks s /\
  match DocumentUpload.dueDate u with
  | Some Date.Invalid =>
      fst (uploadDocument env u s) = Throw invalid_time_value /\
      trace s' =
        trace s ++
        [ConsoleError [LStr "Error uploading document:";
                       LExn invalid_time_value]]
  | due =>
      exists d,
        fst (uploadDocument env u s) = Ok d /\
        DocumentMetadata.id d = uuid env (uuids s) /\
        DocumentMetadata.name d = File.name file /\
        DocumentMetadata.fileSize d = File.size file /\
        DocumentMetadata.mimeType d = File.type file /\
        DocumentMetadata.status d = "draft" /\
        DocumentMetadata.version d = 1%Z /\
        DocumentMetadata.fileUrl d =
          "https://example.com/documents/" +:+ DocumentMetadata.id d +:+ "-"
          +:+ File.name file /\
        DocumentMetadata.folderId d = DocumentUpload.folderId u /\
        DocumentMetadata.priority d =
          UploadPriority_str (default UpMedium (DocumentUpload.priority u)) /\
        DocumentMetadata.dueDate d =
          Date.toISOString <$> (due ≫= Date.time) /\
        In (DocumentMetadata.type d) documentTypes /\
        List.NoDup (DocumentMetadata.tags d) /\
        (forall x, In x (default [] (DocumentUpload.tags u)) ->
                   In x (DocumentMetadata.tags d)) /\
        (forall x, In x (DocumentMetadata.tags d) ->
           In x (default [] (DocumentUpload.tags u)) \/ In x vocabulary \/
           x = Js.toString
                 (Date.getFullYear (utcOffset env) (clock env (ticks s))))
  end.
Proof.
  intros file s'. subst file s'.
  unfold uploadDocument, documentUploaded, proposalUploaded. mred.
  destruct (generateAutoTags_vocabulary env (DocumentUpload.file u)
              {| ticks := ticks s; uuids := S (uuids s); fetches := fetches s;
                 mockTasks := mockTasks s; localStorage := localStorage s;
                 auth := auth s; trace := trace s |}) as (auto & -> & Hauto).
  cbn [ticks] in Hauto.
  destruct (DocumentUpload.dueDate u) as [[ms|]|]; mrun;
    [ | repeat split; reflexivity | ];
    set (tags := Js.uniq _) in *;
    (assert (Hsub : forall x,
               In x (default [] (DocumentUpload.tags u)) -> In x tags)
       by (intros x Hx; apply uniq_In; apply in_or_app; now left));
    (assert (Hsup : forall x, In x tags ->
               In x (default [] (DocumentUpload.tags u)) \/ In x vocabulary \/
               x = Js.toString
                     (Date.getFullYear (utcOffset env) (clock env (ticks s))))
       by (intros x Hx; apply uniq_In, in_app_or in Hx as [Hx|Hx];
           [now left | right; now apply Hauto]));
    (match goal with |- context [if ?c then _ else _] => destruct c end; mrun;
     (split; [reflexivity|]);
     eexists; (split; [reflexivity|]);
     cbn [mapToDocumentMetadata DocumentMetadata.id DocumentMetadata.name
          DocumentMetadata.fileSize DocumentMetadata.mimeType
          DocumentMetadata.status DocumentMetadata.version
          DocumentMetadata.fileUrl DocumentMetadata.folderId
          DocumentMetadata.priority DocumentMetadata.type
          DocumentMetadata.dueDate DocumentMetadata.tags
          DocumentRow.id DocumentRow.name
          DocumentRow.file_size DocumentRow.mime_type DocumentRow.status
          DocumentRow.version DocumentRow.file_url DocumentRow.folder_id
          DocumentRow.priority DocumentRow.type DocumentRow.due_date
          DocumentRow.tags default from_option Datatypes.id];
     repeat (split; [reflexivity|]);
     (split; [apply getDocumentType_range|]);
     (split; [apply uniq_NoDup|]);
     (split; [exact Hsub | exact Hsup])).
Qed.

(** X8. A file whose name says "proposal", in any case, uploaded with no
    due date or one that is a date, is announced twice: [document_uploaded]
    and then [proposal_uploaded], both for the returned document; and the
    document is tagged proposal and business. *)
Theorem uploadDocument_proposal env u s :
  DocumentUpload.dueDate u <> Some Date.Invalid ->
  Js.includes (Js.toLowerCase (File.name (DocumentUpload.file u))) "proposal"
    = true ->
  let s' := snd (uploadDocument env u s) in
  exists d p1 p2,
    fst (uploadDocument env u s) = Ok d /\
    emitted (trace s') = emitted (trace s) ++ [p1; p2] /\
    Payload.action p1 = "document_uploaded" /\
    Payload.action p2 = "proposal_uploaded" /\
    at_path ["document"; "id"] (Payload.data p1) =
      Json.Str (DocumentMetadata.id d) /\
    at_path ["proposal"; "id"] (Payload.data p2) =
      Json.Str (DocumentMetadata.id d) /\
    In "proposal" (DocumentMetadata.tags d) /\
    In "business" (DocumentMetadata.tags d).
Proof.
  intros Hdue H s'. subst s'.
  unfold uploadDocument, generateAutoTags, documentUploaded, proposalUploaded.
  rewrite (toISOString_opt_valid _ Hdue).
  mrun. rewrite H. cbn [orb]. mrun.
  do 3 eexists. split; [reflexivity|].
  unfold sent; cbn [trace snd]. split; [emits; reflexivity|].
  do 4 (split; [reflexivity|]).
  cbn [mapToDocumentMetadata DocumentMetadata.tags DocumentRow.tags
       default from_option Datatypes.id].
  split; apply uniq_In; apply in_or_app; right;
    unfold push_if at 1; destruct (Js.includes _ (Js.toString _));
    rewrite ?in_app_iff; try left; cbn [push_if]; rewrite in_app_iff;
    right; cbn; tauto.
Qed.

Lemma uploadDocument_proposal_witness :
  let env := browser in_2026 receiver_down in
  let u := {| DocumentUpload.file :=
                {| File.name := "Q3 Proposal.docx";
                   File.type :=
                     "application/vnd.openxmlformats-officedocument.wordprocessingml.document";
                   File.size := 52000 |};
              DocumentUpload.folderId := None; DocumentUpload.tags := None;
              DocumentUpload.priority := None;
              DocumentUpload.dueDate := None |} in
  DocumentUpload.dueDate u <> Some Date.Invalid /\
  Js.includes (Js.toLowerCase (File.name (DocumentUpload.file u))) "proposal"
    = true /\
  exists d,
    fst (uploadDocument env u initialState) = Ok d /\
    map Payload.action
      (emitted (trace (snd (uploadDocument env u initialState)))) =
      ["document_uploaded"; "proposal_uploaded"] /\
    In "business" (DocumentMetadata.tags d).
Proof.
  intros env u.
  assert (Hdue : DocumentUpload.dueDate u <> Some Date.Invalid)
    by discriminate.
  assert (H : Js.includes
                (Js.toLowerCase (File.name (DocumentUpload.file u)))
                "proposal" = true) by (vm_compute; reflexivity).
  split; [exact Hdue|]. split; [exact H|].
  destruct (uploadDocument_proposal env u initialState Hdue H)
    as (d & p1 & p2 & E & Ht & A1 & A2 & _ & _ & _ & Hb).
  exists d. split; [exact E|]. split; [|exact Hb].
  rewrite Ht. cbn. now rewrite A1, A2.
Defined.

Ltac failed_silently :=
  intros [= <- <-]; cbn [mockTasks trace];
  (split; [split; [assumption || reflexivity | reflexivity]|]);
  (split; [reflexivity|]);
  split; autorewrite with emitted; rewrite ?requests_app;
  cbn; rewrite ?app_nil_r; reflexivity.

(** X9. A domain operation fails in these cases only: an id that is not
    found ("Document not found", "Task not found"), and a due date passed
    to [uploadDocument] or [createTask] that is an invalid date
    (RangeError).  And then it has touched nothing: the task store is as
    before, no envelope was handed to the transport and no request was made;
    the failure is only written to the console. *)
Theorem failed_operation_is_silent env op s e s' :
  run_op env op s = (Throw e, s') ->
  match op with
  | UploadDocument u =>
      DocumentUpload.dueDate u = Some Date.Invalid /\ e = invalid_time_value
  | CreateTask data =>
      CreateTaskData.dueDate data = Some Date.Invalid /\
      e = invalid_time_value
  | DownloadDocument id | DeleteDocument id | UpdateDocument id _
  | ShareDocument id _ =>
      stored id = None /\ e = Error "Document not found"
  | UpdateTask id _ | CompleteTask id _ | DeleteTask id =>
      findIndex id (mockTasks s) = None /\ e = Error "Task not found"
  end /\
  mockTasks s' = mockTasks s /\
  emitted (trace s') = emitted (trace s) /\
  requests (trace s') = requests (trace s).
Proof.
  destruct op; unfold run_op.
  - unfold uploadDocument, generateAutoTags, documentUploaded,
      proposalUploaded.
    destruct (DocumentUpload.dueDate uploadData) as [[ms|]|]; mrun;
      [ | failed_silently | ];
      match goal with |- context [if ?c then _ else _] => destruct c end;
      mrun; discriminate.
  - unfold downloadDocument, documentDownloaded. mred.
    rewrite getDocument_run.
    destruct (stored id) eqn:Hs; mrun; [discriminate | failed_silently].
  - unfold deleteDocument, documentDeleted. mred. rewrite getDocument_run.
    destruct (stored id) eqn:Hs; mrun; [discriminate | failed_silently].
  - unfold updateDocument, documentStatusChanged, documentEdited. mred.
    rewrite getDocument_run.
    destruct (stored id) eqn:Hs; mrun; [|failed_silently].
    destruct (PartialDocument.status updates); mrun;
      repeat match goal with
             | |- context [if ?c then _ else _] => destruct c; mrun
             end; discriminate.
  - unfold shareDocument, documentShared. mred. rewrite getDocument_run.
    destruct (stored id) eqn:Hs; mrun; [discriminate | failed_silently].
  - unfold createTask, taskCreated.
    destruct (CreateTaskData.dueDate taskData) as [[ms|]|]; mrun;
      [discriminate | failed_silently | discriminate].
  - unfold updateTask, taskUpdated. mrun.
    destruct (findIndex id (mockTasks s)) as [[i t]|] eqn:Hf; mrun;
      [discriminate | failed_silently].
  - unfold completeTask, updateTask, taskUpdated, taskCompleted. mrun.
    destruct (findIndex id (mockTasks s)) as [[i t]|] eqn:Hf; mrun;
      [discriminate | failed_silently].
  - unfold deleteTask, taskDeleted. mrun.
    destruct (findIndex id (mockTasks s)) as [[i t]|] eqn:Hf; mrun;
      [discriminate | failed_silently].
Qed.

Lemma failed_operation_is_silent_witness :
  let env := browser in_2026 receiver_up in
  let r := run_op env (CompleteTask "7" (Some 1%Z)) initialState in
  r = (Throw (Error "Task not found"), snd r) /\
  mockTasks (snd r) = initialTasks /\
  emitted (trace (snd r)) = [].
Proof.
  intros env r.
  assert (H : r = (Throw (Error "Task not found"), snd r)).
  { apply injective_projections; [vm_compute; reflexivity | reflexivity]. }
  split; [exact H|].
  destruct (failed_operation_is_silent env (CompleteTask "7" (Some 1%Z))
              initialState _ _ H) as (_ & Hm & He & _).
  split; [exact Hm | exact He].
Defined.

(** X10. [updateDocument] returns the stored document with the updates
    applied and [updatedAt] set to the clock, but stores nothing: looking the
    id up afterwards gives the stored document as it was. *)
Theorem updateDocument_not_persisted env id updates s d0 :
  stored id = Some d0 ->
  let s' := snd (updateDocument env id updates s) in
  fst (updateDocument env id updates s) =
    Ok (PartialDocument.spread d0 updates
          (Date.toISOString (clock env (S (ticks s))))) /\
  fst (getDocument env id s') = Ok (Some d0) /\
  mockTasks s' = mockTasks s.
Proof.
  intros H s'. subst s'.
  unfold updateDocument, documentStatusChanged, documentEdited. mred.
  rewrite !getDocument_run, H. mrun.
  destruct (PartialDocument.status updates); mrun;
    repeat match goal with
           | |- context [if ?c then _ else _] => destruct c; mrun
           end; repeat split; reflexivity.
Qed.

Lemma updateDocument_not_persisted_witness :
  let env := browser in_2026 receiver_up in
  let updates :=
    {| PartialDocument.id := None; PartialDocument.name := None;
       PartialDocument.type := None; PartialDocument.status := Some "signed";
       PartialDocument.fileUrl := None; PartialDocument.fileSize := None;
       PartialDocument.mimeType := None; PartialDocument.tags := None;
       PartialDocument.folderId := None; PartialDocument.priority := None;
       PartialDocument.dueDate := None; PartialDocument.version := None;
       PartialDocument.createdBy := None; PartialDocument.assignedTo := None;
       PartialDocument.createdAt := None; PartialDocument.updatedAt := None |} in
  exists d0 d,
    stored "1" = Some d0 /\
    fst (updateDocument env "1" updates initialState) = Ok d /\
    DocumentMetadata.status d0 = "review" /\
    DocumentMetadata.status d = "signed" /\
    fst (getDocument env "1" (snd (updateDocument env "1" updates initialState)))
      = Ok (Some d0).
Proof.
  intros env updates.
  destruct (stored "1") as [d0|] eqn:H; [|discriminate H].
  destruct (updateDocument_not_persisted env "1" updates initialState d0 H)
    as (E1 & E2 & _).
  exists d0. eexists. split; [reflexivity|]. split; [exact E1|].
  injection H as <-. split; [reflexivity|]. split; [reflexivity | exact E2].
Defined.

(** X11. When [updateDocument] is given a status, [document_status_changed]
    is emitted exactly when both statuses are non-empty and differ; it is
    then the second envelope, and it carries the stored status as
    [oldStatus] and the given one as [newStatus]. *)
Theorem updateDocument_status_event env id updates s d0 newStatus :
  stored id = Some d0 ->
  PartialDocument.status updates = Some newStatus ->
  let s' := snd (updateDocument env id updates s) in
  exists new,
    emitted (trace s') = emitted (trace s) ++ new /\
    if Js.truthy (DocumentMetadata.status d0) && Js.truthy newStatus
       && negb (String.eqb (DocumentMetadata.status d0) newStatus)
    then
      exists p,
        new !! 1%nat = Some p /\
        Payload.action p = "document_status_changed" /\
        at_path ["document"; "oldStatus"] (Payload.data p) =
          Json.Str (DocumentMetadata.status d0) /\
        at_path ["document"; "newStatus"] (Payload.data p) =
          Json.Str newStatus
    else
      forallb (fun p => negb (String.eqb (Payload.action p)
                                "document_status_changed")) new = true.
Proof.
  intros H Hst s'. subst s'.
  unfold updateDocument, documentStatusChanged, documentEdited. mred.
  rewrite getDocument_run, H. mrun. rewrite Hst.
  destruct (Js.truthy (DocumentMetadata.status d0) && Js.truthy newStatus
            && negb (String.eqb (DocumentMetadata.status d0) newStatus));
    mrun;
    match goal with |- context [if ?c then _ else _] => destruct c end; mrun;
    unfold sent; cbn [trace snd]; eexists;
    (split; [emits; reflexivity|]);
    first [ reflexivity | eexists; repeat split; reflexivity ].
Qed.

Lemma updateDocument_status_event_witness :
  let env := browser in_2026 receiver_up in
  let updates :=
    {| PartialDocument.id := None; PartialDocument.name := None;
       PartialDocument.type := None; PartialDocument.status := Some "signed";
       PartialDocument.fileUrl := None; PartialDocument.fileSize := None;
       PartialDocument.mimeType := None; PartialDocument.tags := None;
       PartialDocument.folderId := None; PartialDocument.priority := None;
       PartialDocument.dueDate := None; PartialDocument.version := None;
       PartialDocument.createdBy := None; PartialDocument.assignedTo := None;
       PartialDocument.createdAt := None; PartialDocument.updatedAt := None |} in
  exists d0,
    stored "1" = Some d0 /\
    PartialDocument.status updates = Some "signed" /\
    map Payload.action
      (emitted (trace (snd (updateDocument env "1" updates initialState)))) =
    ["document_viewed"; "document_status_changed"; "document_edited"].
Proof.
  intros env updates.
  destruct (stored "1") as [d0|] eqn:H; [|discriminate H].
  assert (Hs : PartialDocument.status updates = Some "signed") by reflexivity.
  destruct (updateDocument_status_event env "1" updates initialState d0
              "signed" H Hs) as (new & E & _).
  exists d0. split; [reflexivity|]. split; [exact Hs|].
  vm_compute. reflexivity.
Defined.

(** *** The task service *)

Lemma find_findIndex id tasks :
  find (fun task => String.eqb (TaskData.id task) id) tasks =
  snd <$> findIndex id tasks.
Proof.
  unfold findIndex. induction tasks as [|t l IH]; [reflexivity|].
  cbn [find list_find]. destruct (decide (TaskData.id t = id)) as [E|E].
  - rewrite E, String.eqb_refl. reflexivity.
  - apply String.eqb_neq in E. rewrite E, IH.
    destruct (list_find _ l) as [[i x]|]; reflexivity.
Qed.

Lemma getTask_run id s :
  getTask id s = (Ok (snd <$> findIndex id (mockTasks s)), s).
Proof. unfold getTask. mred. now rewrite find_findIndex. Qed.

(** X12. [getTask] has no effect and never throws, and the task it returns
    is the one [updateTask], [deleteTask] and [completeTask] act on: the
    first in the store with that id, or [null]. *)
Theorem getTask_spec id s :
  getTask id s = (Ok (snd <$> findIndex id (mockTasks s)), s) /\
  match findIndex id (mockTasks s) with
  | Some (i, task) =>
      mockTasks s !! i = Some task /\ TaskData.id task = id /\
      forall j other, mockTasks s !! j = Some other -> j < i ->
                      TaskData.id other <> id
  | None => forall other, In other (mockTasks s) -> TaskData.id other <> id
  end.
Proof.
  split.
  - apply getTask_run.
  - unfold findIndex. destruct (list_find _ _) as [[i t]|] eqn:E.
    + apply list_find_Some in E as (H1 & H2 & H3). auto.
    + intros other Hin. apply list_find_None in E.
      rewrite List.Forall_forall in E. apply E. exact Hin.
Qed.

Lemma findIndex_app_fresh id tasks t rest :
  (forall other, In other tasks -> TaskData.id other <> id) ->
  TaskData.id t = id ->
  findIndex id (tasks ++ t :: rest) = Some (length tasks, t).
Proof.
  intros Hfresh Hid. unfold findIndex. apply list_find_Some.
  split; [|split].
  - rewrite lookup_app_r by lia. now rewrite Nat.sub_diag.
  - exact Hid.
  - intros j y Hj Hlt. rewrite lookup_app_l in Hj by exact Hlt.
    apply Hfresh. apply list_elem_of_In. eapply list_elem_of_lookup_2; eauto.
Qed.

Lemma createTask_run env data s :
  CreateTaskData.dueDate data <> Some Date.Invalid ->
  exists task p,
    createTask env data s =
      (Ok task,
       sent env p
         {| ticks := S (S (S (S (ticks s)))); uuids := uuids s;
            fetches := fetches s; mockTasks := mockTasks s ++ [task];
            localStorage := localStorage s; auth := auth s;
            trace := trace s |}) /\
    task =
      {| TaskData.id := Js.toString (clock env (ticks s));
         TaskData.title := CreateTaskData.title data;
         TaskData.description := CreateTaskData.description data;
         TaskData.status := Todo;
         TaskData.priority := CreateTaskData.priority data;
         TaskData.dueDate :=
           Date.toISOString <$> (CreateTaskData.dueDate data ≫= Date.time);
         TaskData.assignedTo := CreateTaskData.assignedTo data;
         TaskData.assignedBy := "current-user-id";
         TaskData.documentId := CreateTaskData.documentId data;
         TaskData.estimatedHours := CreateTaskData.estimatedHours data;
         TaskData.actualHours := None;
         TaskData.tags := default [] (CreateTaskData.tags data);
         TaskData.createdAt := Date.toISOString (clock env (S (ticks s)));
         TaskData.updatedAt :=
           Date.toISOString (clock env (S (S (ticks s)))) |} /\
    Payload.action p = "task_created" /\
    at_path ["task"; "id"] (Payload.data p) = Json.Str (TaskData.id task).
Proof.
  intros Hdue. unfold createTask, taskCreated.
  rewrite (toISOString_opt_valid _ Hdue). mred. rewrite sendWebhook_run. mred.
  do 2 eexists. split; [reflexivity|]. repeat split; reflexivity.
Qed.

(** X13. [createTask] fails in one case only, whatever the receiver
    answers: when the due date is an invalid date, [toISOString] throws a
    RangeError, which is written to the console and thrown again, and
    nothing is stored or sent.  In every other case it adds one task at the
    end of the store: a todo task assigned by current-user-id, without
    actual hours, with the due date as an ISO string, whose id is the
    reading of the clock in milliseconds, and it emits one envelope,
    [task_created], for that task. *)
Theorem createTask_spec env data s :
  let s' := snd (createTask env data s) in
  match CreateTaskData.dueDate data with
  | Some Date.Invalid =>
      fst (createTask env data s) = Throw invalid_time_value /\
      mockTasks s' = mockTasks s /\
      trace s' =
        trace s ++
        [ConsoleError [LStr "Error creating task:"; LExn invalid_time_value]]
  | due =>
      exists task p,
        fst (createTask env data s) = Ok task /\
        mockTasks s' = mockTasks s ++ [task] /\
        TaskData.id task = Js.toString (clock env (ticks s)) /\
        TaskData.title task = CreateTaskData.title data /\
        TaskData.status task = Todo /\
        TaskData.assignedBy task = "current-user-id" /\
        TaskData.actualHours task = None /\
        TaskData.tags task = default [] (CreateTaskData.tags data) /\
        TaskData.dueDate task = Date.toISOString <$> (due ≫= Date.time) /\
        TaskData.createdAt task = Date.toISOString (clock env (S (ticks s))) /\
        emitted (trace s') = emitted (trace s) ++ [p] /\
        Payload.action p = "task_created" /\
        at_path ["task"; "id"] (Payload.data p) = Json.Str (TaskData.id task)
  end.
Proof.
  intros s'. subst s'.
  destruct (CreateTaskData.dueDate data) as [[ms|]|] eqn:Hdue;
    [ | unfold createTask; rewrite Hdue; mrun; repeat split; reflexivity | ];
    (destruct (createTask_run env data s) as (task & p & -> & -> & Ha & Hp);
     [rewrite Hdue; discriminate|];
     eexists; exists p; cbn [fst snd]; (split; [reflexivity|]);
     rewrite emitted_sent; unfold sent; cbn [trace mockTasks];
     do 7 (split; [reflexivity|]);
     (split; [cbn [TaskData.dueDate]; now rewrite Hdue|]);
     (split; [reflexivity|]); (split; [reflexivity|]);
     split; [exact Ha | exact Hp]).
Qed.

(** X14. A task just created (with no due date, or one that is a date) can
    be looked up by the id it was given, provided no task of the store
    already had that id. *)
Theorem createTask_then_getTask env data s :
  CreateTaskData.dueDate data <> Some Date.Invalid ->
  (forall other, In other (mockTasks s) ->
     TaskData.id other <> Js.toString (clock env (ticks s))) ->
  let s' := snd (createTask env data s) in
  exists task,
    fst (createTask env data s) = Ok task /\
    fst (getTask (TaskData.id task) s') = Ok (Some task) /\
    findIndex (TaskData.id task) (mockTasks s') =
      Some (length (mockTasks s), task).
Proof.
  intros Hdue Hfresh s'. subst s'.
  destruct (createTask_run env data s Hdue) as (task & p & -> & Ht & _).
  exists task. cbn [fst snd]. split; [reflexivity|].
  unfold sent at 2; cbn [mockTasks].
  assert (Hf : findIndex (TaskData.id task) (mockTasks s ++ [task]) =
               Some (length (mockTasks s), task)).
  { apply findIndex_app_fresh; [|reflexivity]. rewrite Ht. exact Hfresh. }
  split; [|exact Hf].
  rewrite getTask_run. unfold sent; cbn [fst mockTasks]. now rewrite Hf.
Qed.

Lemma createTask_then_getTask_witness :
  let env := browser in_2026 receiver_down in
  let data :=
    {| CreateTaskData.title := "File the annual report";
       CreateTaskData.description := "";
       CreateTaskData.priority := Medium;
       CreateTaskData.dueDate := Some (Date.At (Date.of_ymd 2026 12 31));
       CreateTaskData.assignedTo := "Umar";
       CreateTaskData.documentId := None;
       CreateTaskData.estimatedHours := None;
       CreateTaskData.tags := None |} in
  CreateTaskData.dueDate data <> Some Date.Invalid /\
  (forall other, In other (mockTasks initialState) ->
     TaskData.id other <> Js.toString (clock env (ticks initialState))) /\
  exists task,
    fst (createTask env data initialState) = Ok task /\
    TaskData.id task = "1793534400000".
Proof.
  intros env data.
  assert (Hdue : CreateTaskData.dueDate data <> Some Date.Invalid)
    by discriminate.
  assert (H : forall other, In other (mockTasks initialState) ->
     TaskData.id other <> Js.toString (clock env (ticks initialState))).
  { intros other [<-|[<-|[]]]; vm_compute; discriminate. }
  split; [exact Hdue|]. split; [exact H|].
  destruct (createTask_then_getTask env data initialState Hdue H)
    as (task & E & _ & _).
  exists task. split; [exact E|].
  revert E. vm_compute. intros [= <-]. reflexivity.
Defined.

(** X15. The id of a task is the millisecond of its creation, so two tasks
    created in the same millisecond (with no due date, or one that is a
    date) share their id.  Lookups by that id then
    give the first of them, and [deleteTask] removes the first and leaves
    the second, which still has the id. *)
Theorem createTask_same_millisecond env data1 data2 s :
  CreateTaskData.dueDate data1 <> Some Date.Invalid ->
  CreateTaskData.dueDate data2 <> Some Date.Invalid ->
  clock env (S (S (S (S (ticks s))))) = clock env (ticks s) ->
  (forall other, In other (mockTasks s) ->
     TaskData.id other <> Js.toString (clock env (ticks s))) ->
  let s1 := snd (createTask env data1 s) in
  let s2 := snd (createTask env data2 s1) in
  exists task1 task2,
    fst (createTask env data1 s) = Ok task1 /\
    fst (createTask env data2 s1) = Ok task2 /\
    TaskData.id task2 = TaskData.id task1 /\
    mockTasks s2 = mockTasks s ++ [task1; task2] /\
    fst (getTask (TaskData.id task2) s2) = Ok (Some task1) /\
    fst (deleteTask env (TaskData.id task2) s2) = Ok tt /\
    mockTasks (snd (deleteTask env (TaskData.id task2) s2)) =
      mockTasks s ++ [task2].
Proof.
  intros Hdue1 Hdue2 Hclock Hfresh s1 s2. subst s1 s2.
  destruct (createTask_run env data1 s Hdue1) as (task1 & p1 & -> & Ht1 & _).
  cbn [fst snd].
  destruct (createTask_run env data2
              (sent env p1
                 {| ticks := S (S (S (S (ticks s)))); uuids := uuids s;
                    fetches := fetches s; mockTasks := mockTasks s ++ [task1];
                    localStorage := localStorage s; auth := auth s;
                    trace := trace s |}) Hdue2)
    as (task2 & p2 & -> & Ht2 & _).
  cbn [fst snd]. unfold sent at 1 2 3 in Ht2. cbn [ticks] in Ht2.
  exists task1, task2. split; [reflexivity|]. split; [reflexivity|].
  assert (Hid2 : TaskData.id task2 = Js.toString (clock env (ticks s))).
  { rewrite Ht2. cbn [TaskData.id]. now rewrite Hclock. }
  assert (Hid1 : TaskData.id task1 = Js.toString (clock env (ticks s))).
  { rewrite Ht1. reflexivity. }
  split; [congruence|].
  assert (Hm : forall p q st, mockTasks (sent env p (sent env q st)) = mockTasks st)
    by reflexivity.
  set (s2 := sent env p2 _).
  assert (Hs2 : mockTasks s2 = mockTasks s ++ [task1; task2]).
  { unfold s2, sent; cbn [mockTasks]. now rewrite <- app_assoc. }
  split; [exact Hs2|].
  assert (Hf : findIndex (TaskData.id task2) (mockTasks s2) =
               Some (length (mockTasks s), task1)).
  { rewrite Hs2. apply findIndex_app_fresh; [|congruence].
    rewrite Hid2. exact Hfresh. }
  split; [rewrite getTask_run; cbn [fst]; now rewrite Hf|].
  unfold deleteTask, taskDeleted. mred. rewrite Hf. mrun.
  split; [reflexivity|]. rewrite Hs2.
  clear. induction (mockTasks s) as [|x l IH]; [reflexivity|].
  cbn. f_equal. exact IH.
Qed.

Lemma createTask_same_millisecond_witness :
  let env := frozen in_2026 receiver_up in
  let data :=
    {| CreateTaskData.title := "File the annual report";
       CreateTaskData.description := "";
       CreateTaskData.priority := Medium;
       CreateTaskData.dueDate := None;
       CreateTaskData.assignedTo := "Umar";
       CreateTaskData.documentId := None;
       CreateTaskData.estimatedHours := None;
       CreateTaskData.tags := None |} in
  CreateTaskData.dueDate data <> Some Date.Invalid /\
  clock env (S (S (S (S (ticks initialState))))) =
    clock env (ticks initialState) /\
  (forall other, In other (mockTasks initialState) ->
     TaskData.id other <> Js.toString (clock env (ticks initialState))) /\
  exists task1 task2,
    fst (createTask env data initialState) = Ok task1 /\
    fst (createTask env data (snd (createTask env data initialState))) =
      Ok task2 /\
    TaskData.id task2 = TaskData.id task1.
Proof.
  intros env data.
  assert (Hdue : CreateTaskData.dueDate data <> Some Date.Invalid)
    by discriminate.
  assert (H1 : clock env (S (S (S (S (ticks initialState))))) =
               clock env (ticks initialState)) by reflexivity.
  assert (H2 : forall other, In other (mockTasks initialState) ->
     TaskData.id other <> Js.toString (clock env (ticks initialState))).
  { intros other [<-|[<-|[]]]; vm_compute; discriminate. }
  split; [exact Hdue|]. split; [exact H1|]. split; [exact H2|].
  destruct (createTask_same_millisecond env data data initialState
              Hdue Hdue H1 H2)
    as (t1 & t2 & E1 & E2 & E3 & _).
  exists t1, t2. auto.
Defined.

(** X16. [updateTask] on an id that is found replaces that one task, in
    place, by the task with the updates applied and [updatedAt] set to the
    clock (whatever [updatedAt] the updates carry); every other position of
    the store is untouched.  It returns the new task and emits one envelope,
    [task_updated], whose [changes] are the updates as given. *)
Theorem updateTask_spec env id updates s i old :
  findIndex id (mockTasks s) = Some (i, old) ->
  let s' := snd (updateTask env id updates s) in
  let task := PartialTask.spread old updates
                (Date.toISOString (clock env (ticks s))) in
  exists p,
    fst (updateTask env id updates s) = Ok task /\
    mockTasks s' = <[i := task]> (mockTasks s) /\
    mockTasks s' !! i = Some task /\
    length (mockTasks s') = length (mockTasks s) /\
    (forall j, j <> i -> mockTasks s' !! j = mockTasks s !! j) /\
    emitted (trace s') = emitted (trace s) ++ [p] /\
    Payload.action p = "task_updated" /\
    at_path ["changes"] (Payload.data p) = PartialTask.to_value updates.
Proof.
  intros H s' task. subst s' task.
  pose proof (findIndex_Some _ _ _ _ H) as [Hl _].
  unfold updateTask, taskUpdated. mred. rewrite H. mrun.
  eexists. split; [reflexivity|]. unfold sent; cbn [snd mockTasks trace].
  split; [reflexivity|].
  split; [apply list_lookup_insert_eq; eapply lookup_lt_Some; eauto|].
  split; [apply length_insert|].
  split; [intros j Hj; apply list_lookup_insert_ne; congruence|].
  split; [emits; reflexivity|]. split; reflexivity.
Qed.

Lemma updateTask_spec_witness :
  let env := browser in_2026 receiver_down in
  let updates :=
    {| PartialTask.id := None; PartialTask.title := None;
       PartialTask.description := None; PartialTask.status := Some Review;
       PartialTask.priority := None; PartialTask.dueDate := None;
       PartialTask.assignedTo := None; PartialTask.assignedBy := None;
       PartialTask.documentId := None; PartialTask.estimatedHours := None;
       PartialTask.actualHours := None; PartialTask.tags := None;
       PartialTask.createdAt := None;
       PartialTask.updatedAt := Some "1999-12-31T00:00:00.000Z" |} in
  findIndex "1" (mockTasks initialState) = Some (0, mockTask1) /\
  exists task,
    fst (updateTask env "1" updates initialState) = Ok task /\
    TaskData.status task = Review /\
    TaskData.updatedAt task = "2026-11-01T12:00:00.000Z" /\
    mockTasks (snd (updateTask env "1" updates initialState)) !! 1%nat =
      Some mockTask2.
Proof.
  intros env updates.
  assert (H : findIndex "1" (mockTasks initialState) = Some (0, mockTask1))
    by (vm_compute; reflexivity).
  split; [exact H|].
  destruct (updateTask_spec env "1" updates initialState 0 mockTask1 H)
    as (p & E & _ & _ & _ & Hframe & _).
  eexists. split; [exact E|]. split; [reflexivity|].
  split; [vm_compute; reflexivity|].
  rewrite Hframe by discriminate. reflexivity.
Defined.

Lemma findIndex_delete_NoDup id tasks i t :
  findIndex id tasks = Some (i, t) ->
  List.NoDup (map TaskData.id tasks) ->
  findIndex id (delete i tasks) = None.
Proof.
  intros H Hnd. pose proof (findIndex_Some _ _ _ _ H) as [Hl Hid].
  unfold findIndex. apply list_find_None. apply Forall_forall.
  intros x Hx Hxid. apply list_elem_of_lookup in Hx as [j Hj].
  assert (Hk : exists k, k <> i /\ tasks !! k = Some x).
  { destruct (decide (j < i)).
    - exists j. split; [lia|]. now rewrite list_lookup_delete_lt in Hj by lia.
    - exists (S j). split; [lia|]. now rewrite list_lookup_delete_ge in Hj by lia. }
  destruct Hk as (k & Hne & Hk). apply Hne.
  apply NoDup_ListNoDup in Hnd.
  eapply (NoDup_lookup (TaskData.id <$> tasks) k i id); [exact Hnd| |].
  - rewrite list_lookup_fmap, Hk. cbn. now rewrite Hxid.
  - rewrite list_lookup_fmap, Hl. cbn. now rewrite Hid.
Qed.

Lemma deleteTask_run env id s i task :
  findIndex id (mockTasks s) = Some (i, task) ->
  deleteTask env id s =
  (Ok tt,
   sent env
     {| Payload.action := "task_deleted";
        Payload.timestamp := Date.toISOString (clock env (ticks s));
        Payload.user := Actor.snapshot mockUser;
        Payload.data := Json.Obj
          [("task", Json.Obj
             [("id", Json.Str (TaskData.id task));
              ("title", Json.Str (TaskData.title task))])] |}
     {| ticks := S (ticks s); uuids := uuids s; fetches := fetches s;
        mockTasks := delete i (mockTasks s); localStorage := localStorage s;
        auth := auth s; trace := trace s |}).
Proof.
  intros H. unfold deleteTask, taskDeleted. mred. rewrite H. mred.
  rewrite sendWebhook_run. reflexivity.
Qed.

Lemma deleteTask_missing env id s :
  findIndex id (mockTasks s) = None ->
  fst (deleteTask env id s) = Throw (Error "Task not found").
Proof. intros H. unfold deleteTask. mred. rewrite H. reflexivity. Qed.

(** X17. [deleteTask] on an id that is found takes exactly that one task
    out of the store, the rest staying in order, and emits one envelope,
    [task_deleted], with the id and title of the task removed.  When, in
    addition, the ids of the store are distinct, the id is gone: looking it
    up gives [null] and deleting it again fails with "Task not found". *)
Theorem deleteTask_spec env id s i task :
  findIndex id (mockTasks s) = Some (i, task) ->
  let s' := snd (deleteTask env id s) in
  (exists p,
     fst (deleteTask env id s) = Ok tt /\
     mockTasks s = take i (mockTasks s) ++ task :: drop (S i) (mockTasks s) /\
     mockTasks s' = take i (mockTasks s) ++ drop (S i) (mockTasks s) /\
     emitted (trace s') = emitted (trace s) ++ [p] /\
     Payload.action p = "task_deleted" /\
     at_path ["task"; "id"] (Payload.data p) = Json.Str id /\
     at_path ["task"; "title"] (Payload.data p) =
       Json.Str (TaskData.title task)) /\
  (List.NoDup (map TaskData.id (mockTasks s)) ->
   fst (getTask id s') = Ok None /\
   fst (deleteTask env id s') = Throw (Error "Task not found")).
Proof.
  intros H s'. subst s'.
  pose proof (findIndex_Some _ _ _ _ H) as [Hl Hid].
  rewrite (deleteTask_run env id s i task H). cbn [fst snd]. split.
  - eexists. split; [reflexivity|].
    split; [symmetry; now apply take_drop_middle|].
    split; [unfold sent; cbn [mockTasks]; apply delete_take_drop|].
    split; [rewrite emitted_sent; reflexivity|]. split; [reflexivity|].
    split; [cbn; now rewrite Hid | reflexivity].
  - intros Hnd.
    pose proof (findIndex_delete_NoDup _ _ _ _ H Hnd) as Hgone. split.
    + rewrite getTask_run. unfold sent; cbn [fst mockTasks]. now rewrite Hgone.
    + apply deleteTask_missing. exact Hgone.
Qed.

Lemma deleteTask_spec_witness :
  let env := browser in_2026 receiver_down in
  let s' := snd (deleteTask env "1" initialState) in
  findIndex "1" (mockTasks initialState) = Some (0, mockTask1) /\
  List.NoDup (map TaskData.id (mockTasks initialState)) /\
  fst (deleteTask env "1" initialState) = Ok tt /\
  mockTasks s' = [mockTask2] /\
  fst (getTask "1" s') = Ok None /\
  fst (deleteTask env "1" s') = Throw (Error "Task not found").
Proof.
  intros env s'.
  assert (H : findIndex "1" (mockTasks initialState) = Some (0, mockTask1))
    by (vm_compute; reflexivity).
  assert (Hnd : List.NoDup (map TaskData.id (mockTasks initialState))).
  { cbn. constructor; [intros [E|[]]; discriminate E|].
    constructor; [intros []|constructor]. }
  split; [exact H|]. split; [exact Hnd|].
  destruct (deleteTask_spec env "1" initialState 0 mockTask1 H)
    as ((p & E & _ & Hm & _) & Hgone).
  split; [exact E|]. split; [unfold s'; rewrite Hm; reflexivity|].
  exact (Hgone Hnd).
Defined.

(** X18. [completeTask] called without hours, as the task page calls it,
    forgets the actual hours the task had: the stored and returned task has
    none, [task_updated] reports [actualHours] as a change to [undefined],
    and [task_completed] carries [undefined]. *)
Theorem completeTask_without_hours env id s i old :
  findIndex id (mockTasks s) = Some (i, old) ->
  let s' := snd (completeTask env id None s) in
  exists task p1 p2,
    fst (completeTask env id None s) = Ok task /\
    mockTasks s' !! i = Some task /\
    TaskData.status task = Completed /\
    TaskData.actualHours task = None /\
    emitted (trace s') = emitted (trace s) ++ [p1; p2] /\
    at_path ["changes"] (Payload.data p1) =
      Json.Obj [("status", Json.Str "completed");
                ("actualHours", Json.Undefined)] /\
    at_path ["task"; "actualHours"] (Payload.data p2) = Json.Undefined.
Proof.
  intros H s'. subst s'.
  pose proof (findIndex_Some _ _ _ _ H) as [Hl _].
  unfold completeTask, updateTask, taskUpdated, taskCompleted. mrun.
  rewrite H. mrun.
  do 3 eexists. split; [reflexivity|].
  split; [apply list_lookup_insert_eq; eapply lookup_lt_Some; eauto|].
  split; [reflexivity|]. split; [reflexivity|].
  split; [emits; reflexivity|]. split; reflexivity.
Qed.

Lemma completeTask_without_hours_witness :
  let env := browser in_2026 receiver_up in
  findIndex "1" (mockTasks initialState) = Some (0, mockTask1) /\
  TaskData.actualHours mockTask1 = Some 2%Z /\
  exists task,
    fst (completeTask env "1" None initialState) = Ok task /\
    TaskData.actualHours task = None.
Proof.
  intros env.
  assert (H : findIndex "1" (mockTasks initialState) = Some (0, mockTask1))
    by (vm_compute; reflexivity).
  split; [exact H|]. split; [reflexivity|].
  destruct (completeTask_without_hours env "1" initialState 0 mockTask1 H)
    as (task & p1 & p2 & E & _ & _ & Hh & _).
  exists task. auto.
Defined.

Example parse_iso_reads_toISOString :
  DateParse.parse_iso (Date.toISOString in_2026) = Some in_2026.
Proof. vm_compute. reflexivity. Qed.

Example parse_iso_rejects_february_30 :
  DateParse.parse_iso "2024-02-30T00:00:00.000Z" = None.
Proof. vm_compute. reflexivity. Qed.

Example sort_is_stable :
  ArraySort.sort (fun a b : Z * string => Some (fst a - fst b)%Z)
    [(2, "a"); (1, "b"); (2, "c"); (1, "d")]%Z =
  [(1, "b"); (1, "d"); (2, "a"); (2, "c")]%Z.
Proof. reflexivity. Qed.

Lemma insert_Permutation {A} (cmp : A -> A -> option Z) x l :
  Permutation (ArraySort.insert cmp x l) (x :: l).
Proof.
  induction l as [|y l IH]; cbn; [reflexivity|].
  destruct (ArraySort.stays_before cmp x y); [reflexivity|].
  rewrite IH. apply perm_swap.
Qed.

Lemma sort_Permutation {A} (cmp : A -> A -> option Z) l :
  Permutation (ArraySort.sort cmp l) l.
Proof.
  induction l as [|x l IH]; cbn; [reflexivity|].
  rewrite insert_Permutation. now constructor.
Qed.

Lemma filter_twice {A} (f g : A -> bool) l :
  List.filter g (List.filter f l) = List.filter (fun x => f x && g x) l.
Proof.
  induction l as [|x l IH]; [reflexivity|]. cbn [List.filter].
  destruct (f x); cbn [List.filter andb]; [destruct (g x)|]; congruence.
Qed.

Lemma filter_all {A} (l : list A) : List.filter (fun _ => true) l = l.
Proof. induction l; cbn; congruence. Qed.

Lemma getTasks_run parse status assignedTo s :
  getTasks parse status assignedTo s =
  (Ok (ArraySort.sort (by_createdAt_desc parse)
         (List.filter (task_wanted status assignedTo) (mockTasks s))), s).
Proof.
  unfold getTasks. mred. do 3 f_equal.
  unfold task_wanted, Js.truthy.
  destruct status as [st|], assignedTo as [who|];
    try destruct (String.eqb st ""); try destruct (String.eqb who "");
    cbn [negb orb andb]; rewrite ?filter_twice;
    first [ apply filter_ext; intros t; cbn [orb andb];
            rewrite ?andb_true_r; reflexivity
          | symmetry; apply filter_all ].
Qed.

(** X19. [getTasks] never throws and changes nothing; it returns, in some
    order, exactly the tasks of the store that pass the two filters.  A
    filter that is the empty string filters nothing, like one that is
    absent. *)
Theorem getTasks_spec parse status assignedTo s :
  exists found,
    getTasks parse status assignedTo s = (Ok found, s) /\
    Permutation found
      (List.filter (task_wanted status assignedTo) (mockTasks s)) /\
    (forall task,
       In task found <->
       In task (mockTasks s) /\ task_wanted status assignedTo task = true) /\
    getTasks parse (Some "") (Some "") s = getTasks parse None None s.
Proof.
  rewrite !getTasks_run. eexists. split; [reflexivity|].
  split; [apply sort_Permutation|]. split; [|reflexivity].
  intros task. rewrite <- filter_In.
  split; apply Permutation_in; [|symmetry]; apply sort_Permutation.
Qed.

Lemma insert_sorted parse x l :
  (forall t, In t (x :: l) -> parse (TaskData.createdAt t) <> None) ->
  StronglySorted (not_older parse) l ->
  StronglySorted (not_older parse)
    (ArraySort.insert (by_createdAt_desc parse) x l).
Proof.
  intros Hp Hs. induction Hs as [|y l Hs IH Hy]; cbn [ArraySort.insert].
  - constructor; constructor.
  - assert (Hx := Hp x (or_introl eq_refl)).
    assert (Hy' := Hp y (or_intror (or_introl eq_refl))).
    unfold ArraySort.stays_before, by_createdAt_desc.
    destruct (parse (TaskData.createdAt x)) as [tx|] eqn:Ex; [|congruence].
    destruct (parse (TaskData.createdAt y)) as [ty|] eqn:Ey; [|congruence].
    destruct (Z.leb_spec (ty - tx) 0) as [Hle|Hgt].
    + constructor; [constructor; assumption|].
      constructor.
      * unfold not_older. rewrite Ex, Ey. lia.
      * rewrite List.Forall_forall in Hy |- *. intros z Hz.
        specialize (Hy z Hz). unfold not_older in *. rewrite Ex, Ey in *.
        destruct (parse (TaskData.createdAt z)); [lia | exact Hy].
    + constructor.
      * apply IH. intros t [<-|Ht]; apply Hp; cbn; tauto.
      * eapply Permutation_Forall; [symmetry; apply insert_Permutation|].
        constructor; [|exact Hy].
        unfold not_older. rewrite Ex, Ey. lia.
Qed.

Lemma sort_sorted parse l :
  (forall t, In t l -> parse (TaskData.createdAt t) <> None) ->
  StronglySorted (not_older parse)
    (ArraySort.sort (by_createdAt_desc parse) l).
Proof.
  induction l as [|x l IH]; intros Hp; cbn [ArraySort.sort]; [constructor|].
  apply insert_sorted.
  - intros t [<-|Ht]; [apply Hp; now left|].
    apply Hp. right. eapply Permutation_in; [apply sort_Permutation|exact Ht].
  - apply IH. intros t Ht. apply Hp. now right.
Qed.

(** X20. When the creation date of every stored task can be read,
    [getTasks] returns the tasks newest first: no task in the result is
    older than any task after it. *)
Theorem getTasks_newest_first parse status assignedTo s :
  (forall task, In task (mockTasks s) ->
                parse (TaskData.createdAt task) <> None) ->
  exists found,
    fst (getTasks parse status assignedTo s) = Ok found /\
    StronglySorted (not_older parse) found.
Proof.
  intros Hp. rewrite getTasks_run. eexists. split; [reflexivity|].
  apply sort_sorted. intros t Ht. apply filter_In in Ht as [Ht _]. auto.
Qed.

Lemma getTasks_newest_first_witness :
  (forall task, In task (mockTasks initialState) ->
                DateParse.parse_iso (TaskData.createdAt task) <> None) /\
  fst (getTasks DateParse.parse_iso None None
         {| ticks := 0; uuids := 0; fetches := 0;
            mockTasks := [mockTask2; mockTask1]; localStorage := ∅;
            auth := Auth.init; trace := [] |}) = Ok [mockTask1; mockTask2] /\
  exists found,
    fst (getTasks DateParse.parse_iso None None initialState) = Ok found /\
    StronglySorted (not_older DateParse.parse_iso) found.
Proof.
  assert (H : forall task, In task (mockTasks initialState) ->
                DateParse.parse_iso (TaskData.createdAt task) <> None).
  { intros task [<-|[<-|[]]]; vm_compute; discriminate. }
  split; [exact H|]. split; [vm_compute; reflexivity|].
  exact (getTasks_newest_first DateParse.parse_iso None None initialState H).
Defined.

Lemma getTasksByDocument_run documentId s :
  getTasksByDocument documentId s =
  (Ok (List.filter (of_document documentId) (mockTasks s)), s).
Proof. reflexivity. Qed.

(** X21. [getTasksByDocument] has no effect and returns, in store order,
    the tasks linked to the document; a task created for a document (with
    no due date, or one that is a date) is found under it, after the tasks
    that were already linked. *)
Theorem createTask_then_getTasksByDocument env data s documentId :
  CreateTaskData.dueDate data <> Some Date.Invalid ->
  CreateTaskData.documentId data = Some documentId ->
  let s' := snd (createTask env data s) in
  exists task linked,
    fst (createTask env data s) = Ok task /\
    getTasksByDocument documentId s = (Ok linked, s) /\
    getTasksByDocument documentId s' = (Ok (linked ++ [task]), s') /\
    sublist linked (mockTasks s).
Proof.
  intros Hdue Hd s'. subst s'.
  destruct (createTask_run env data s Hdue) as (task & p & -> & Ht & _).
  rewrite !getTasksByDocument_run. cbn [fst snd].
  exists task. eexists. split; [reflexivity|]. split; [reflexivity|].
  split; [|apply filter_sublist].
  unfold sent; cbn [mockTasks]. rewrite List.filter_app. cbn [List.filter].
  assert (Ho : of_document documentId task = true).
  { rewrite Ht. unfold of_document. cbn [TaskData.documentId].
    rewrite Hd. apply String.eqb_refl. }
  now rewrite Ho.
Qed.

Lemma createTask_then_getTasksByDocument_witness :
  let env := browser in_2026 receiver_down in
  let data :=
    {| CreateTaskData.title := "Countersign";
       CreateTaskData.description := "";
       CreateTaskData.priority := High;
       CreateTaskData.dueDate := None;
       CreateTaskData.assignedTo := "Umar";
       CreateTaskData.documentId := Some "1";
       CreateTaskData.estimatedHours := None;
       CreateTaskData.tags := None |} in
  CreateTaskData.dueDate data <> Some Date.Invalid /\
  CreateTaskData.documentId data = Some "1" /\
  exists task,
    fst (createTask env data initialState) = Ok task /\
    fst (getTasksByDocument "1" (snd (createTask env data initialState))) =
      Ok [mockTask1; task].
Proof.
  intros env data.
  assert (Hdue : CreateTaskData.dueDate data <> Some Date.Invalid)
    by discriminate.
  assert (H : CreateTaskData.documentId data = Some "1") by reflexivity.
  split; [exact Hdue|]. split; [exact H|].
  destruct (createTask_then_getTasksByDocument env data initialState "1"
              Hdue H)
    as (task & linked & E & E1 & E2 & _).
  exists task. split; [exact E|]. rewrite E2. cbn [fst].
  rewrite getTasksByDocument_run in E1. apply (f_equal fst) in E1.
  cbn [fst] in E1. injection E1 as <-. reflexivity.
Defined.

(** *** The auth context *)

Lemma profile_serializes u :
  exists text, Json.stringify (Profile.to_value u) = inr (Some text).
Proof. eexists. reflexivity. Qed.

Lemma signInAs_run env user s :
  let u := user (Date.toISOString (clock env (ticks s)))
                (Date.toISOString (clock env (S (ticks s)))) in
  exists text p s',
    signInAs env user s = (Ok tt, s') /\
    auth s' = logged_in u /\
    localStorage s' = <["pocketlaw_user" := text]> (localStorage s) /\
    mockTasks s' = mockTasks s /\
    ticks s' = S (S (S (S (ticks s)))) /\
    emitted (trace s') = emitted (trace s) ++ [p] /\
    Json.stringify (Profile.to_value u) = inr (Some text) /\
    Payload.action p = "user_login" /\
    Payload.user p = UserProfile.actor u.
Proof.
  intros u. destruct (profile_serializes u) as [text Ht].
  unfold signInAs, systemLogin. mred2. fold u. rewrite Ht. mrun2.
  exists text. do 2 eexists. split; [reflexivity|].
  cbn [auth localStorage mockTasks ticks trace].
  do 4 (split; [reflexivity|]). split; [emits; reflexivity|].
  split; [reflexivity|]. split; [reflexivity | apply snapshot_id].
Qed.

Lemma signIn_run env email password s :
  signIn env email password s =
  if String.eqb password "password" &&
     (String.eqb email "umar@pocketlaw.com" ||
      String.eqb email "team@pocketlaw.com" ||
      String.eqb email "client@pocketlaw.com")
  then
    signInAs env
      (if String.eqb email "umar@pocketlaw.com" then adminUser
       else if String.eqb email "team@pocketlaw.com" then teamUser
       else clientUser)
      {| ticks := ticks s; uuids := uuids s; fetches := fetches s;
         mockTasks := mockTasks s; localStorage := localStorage s;
         auth := Auth.authReducer (auth s) Auth.AUTH_START;
         trace := trace s |}
  else
    (Throw (Error "Invalid credentials"),
     {| ticks := ticks s; uuids := uuids s; fetches := fetches s;
        mockTasks := mockTasks s; localStorage := localStorage s;
        auth := {| Auth.user := None; Auth.isAuthenticated := false;
                   Auth.isLoading := false |};
        trace := trace s |}).
Proof.
  unfold signIn. mred2.
  destruct (String.eqb password "password");
    destruct (String.eqb email "umar@pocketlaw.com");
    destruct (String.eqb email "team@pocketlaw.com");
    destruct (String.eqb email "client@pocketlaw.com");
    cbn [andb orb]; try reflexivity;
    match goal with
    | |- context [signInAs env ?u ?st] =>
        destruct (signInAs_run env u st) as (text & p & s' & -> & _)
    end; reflexivity.
Qed.

Lemma demo_credentials email password :
  String.eqb password "password" &&
  (String.eqb email "umar@pocketlaw.com" ||
   String.eqb email "team@pocketlaw.com" ||
   String.eqb email "client@pocketlaw.com") = true <->
  In email demo_emails /\ password = "password".
Proof.
  unfold demo_emails. cbn [In].
  rewrite andb_true_iff, !orb_true_iff, !String.eqb_eq. intuition congruence.
Qed.

(** X22. [signIn] succeeds exactly for the three demo addresses with the
    password "password", compared as they are (case matters), and this does
    not depend on the receiver of the login event. *)
Theorem signIn_succeeds_iff env email password s :
  fst (signIn env email password s) = Ok tt <->
  In email demo_emails /\ password = "password".
Proof.
  rewrite signIn_run, <- demo_credentials.
  destruct (_ && _).
  - match goal with
    | |- context [signInAs env ?u ?st] =>
        destruct (signInAs_run env u st) as (text & p & s' & -> & _)
    end. cbn [fst]. tauto.
  - cbn [fst]. split; discriminate.
Qed.

(** X23. A rejected [signIn] throws "Invalid credentials" and leaves the
    auth state unauthenticated with no user, even if a user was signed in
    before; it does nothing else: the record in local storage stays as it
    was, the clock is not read and no event is sent. *)
Theorem signIn_rejected env email password s :
  fst (signIn env email password s) <> Ok tt ->
  signIn env email password s =
    (Throw (Error "Invalid credentials"),
     {| ticks := ticks s; uuids := uuids s; fetches := fetches s;
        mockTasks := mockTasks s; localStorage := localStorage s;
        auth := {| Auth.user := None; Auth.isAuthenticated := false;
                   Auth.isLoading := false |};
        trace := trace s |}).
Proof.
  rewrite signIn_run. destruct (_ && _); [|reflexivity].
  match goal with
  | |- context [signInAs env ?u ?st] =>
      destruct (signInAs_run env u st) as (text & p & s' & -> & _)
  end. cbn [fst]. intros H. destruct H. reflexivity.
Qed.

Lemma signIn_rejected_witness :
  let env := browser in_2026 receiver_up in
  fst (signIn env "Umar@pocketlaw.com" "password" team_session) <> Ok tt /\
  Auth.isAuthenticated (auth team_session) = true /\
  signIn env "Umar@pocketlaw.com" "password" team_session =
    (Throw (Error "Invalid credentials"),
     {| ticks := ticks team_session; uuids := uuids team_session;
        fetches := fetches team_session; mockTasks := mockTasks team_session;
        localStorage := localStorage team_session;
        auth := {| Auth.user := None; Auth.isAuthenticated := false;
                   Auth.isLoading := false |};
        trace := trace team_session |}).
Proof.
  intros env.
  assert (H : fst (signIn env "Umar@pocketlaw.com" "password" team_session)
              <> Ok tt) by (vm_compute; discriminate).
  assert (Ha : Auth.isAuthenticated (auth team_session) = true)
    by (vm_compute; reflexivity).
  split; [exact H|]. split; [exact Ha|].
  exact (signIn_rejected env _ _ team_session H).
Defined.

(** X24. An accepted [signIn] leaves the auth state authenticated as the
    demo user of that address, with the role of that account and the login
    time read from the clock; the user is stored in local storage as JSON
    text; and exactly one envelope, [user_login], is handed to the transport,
    with that user as actor. *)
Theorem signIn_accepted env email password s :
  fst (signIn env email password s) = Ok tt ->
  let s' := snd (signIn env email password s) in
  exists u text p,
    auth s' = logged_in u /\
    UserProfile.email u = email /\
    In (UserProfile.email u, UserProfile.role u)
       [("umar@pocketlaw.com", "admin"); ("team@pocketlaw.com", "team");
        ("client@pocketlaw.com", "client")] /\
    UserProfile.lastLogin u = Date.toISOString (clock env (S (ticks s))) /\
    localStorage s' = <["pocketlaw_user" := text]> (localStorage s) /\
    Json.stringify (Profile.to_value u) = inr (Some text) /\
    mockTasks s' = mockTasks s /\
    emitted (trace s') = emitted (trace s) ++ [p] /\
    Payload.action p = "user_login" /\
    Payload.user p = UserProfile.actor u.
Proof.
  rewrite signIn_run.
  destruct (_ && _) eqn:Hc; [|discriminate].
  intros _ s'. subst s'.
  match goal with
  | |- context [signInAs env ?u ?st] =>
      destruct (signInAs_run env u st)
        as (text & p & s' & -> & Ha & Hl & Hm & _ & He & Ht & Hp1 & Hp2)
  end.
  cbn [snd ticks localStorage mockTasks trace] in *.
  eexists. exists text, p. split; [exact Ha|].
  apply andb_true_iff in Hc as [_ Hc].
  destruct (String.eqb_spec email "umar@pocketlaw.com") as [->|];
    [|destruct (String.eqb_spec email "team@pocketlaw.com") as [->|];
      [|destruct (String.eqb_spec email "client@pocketlaw.com") as [->|];
        [|discriminate Hc]]];
    (split; [reflexivity|]); (split; [cbn; tauto|]);
    (split; [reflexivity|]); auto 10.
Qed.

Lemma signIn_accepted_witness :
  let env := browser in_2026 receiver_down in
  fst (signIn env "client@pocketlaw.com" "password" initialState) = Ok tt /\
  exists u,
    auth (snd (signIn env "client@pocketlaw.com" "password" initialState)) =
      logged_in u /\
    UserProfile.email u = "client@pocketlaw.com".
Proof.
  intros env.
  assert (H : fst (signIn env "client@pocketlaw.com" "password" initialState)
              = Ok tt) by (vm_compute; reflexivity).
  split; [exact H|].
  destruct (signIn_accepted env _ _ initialState H)
    as (u & text & p & Ha & He & _).
  exists u. split; [exact Ha | exact He].
Defined.

(** X25. [signUp] fails in one case only: when [userData] is [undefined]
    or [null], reading its name throws a TypeError; the auth state is then
    reset to unauthenticated with no user, even if a user was signed in,
    and nothing is stored or sent.  In every other case ([userData] read as
    a [Partial<UserProfile>]) the new user is authenticated with the role
    team, the address given, and the name given
    or else the part of the address before the "@"; the id is the reading of
    the clock; the user is stored as JSON text and one [user_login] envelope
    is emitted.  The password is never looked at. *)
Theorem signUp_spec env email password userData s :
  let s' := snd (signUp env email password userData s) in
  match userData with
  | Profile.Object d =>
      exists u text p,
        fst (signUp env email password userData s) = Ok tt /\
        auth s' = logged_in u /\
        UserProfile.role u = "team" /\
        UserProfile.email u = email /\
        UserProfile.name u =
          Js.or_else (Profile.name d) (JsString.split_head "@" email) /\
        UserProfile.id u = Js.toString (clock env (ticks s)) /\
        UserProfile.isActive u = true /\
        localStorage s' = <["pocketlaw_user" := text]> (localStorage s) /\
        Json.stringify (Profile.to_value u) = inr (Some text) /\
        emitted (trace s') = emitted (trace s) ++ [p] /\
        Payload.action p = "user_login" /\
        Payload.user p = UserProfile.actor u
  | _ =>
      (exists msg,
         fst (signUp env email password userData s) = Throw (TypeError msg)) /\
      auth s' = logged_out /\
      localStorage s' = localStorage s /\
      mockTasks s' = mockTasks s /\
      trace s' = trace s
  end /\
  signUp env email "" userData s = signUp env email password userData s.
Proof.
  intros s'. subst s'. split; [|reflexivity].
  destruct userData as [| |d]; unfold signUp, systemLogin; mred2;
    [split; [eexists; reflexivity | repeat split; reflexivity] ..|].
  match goal with
  | |- context [Json.stringify (Profile.to_value ?u)] =>
      destruct (profile_serializes u) as [text Ht]; rewrite Ht
  end.
  mrun2. eexists. exists text. eexists.
  split; [reflexivity|]. cbn [snd auth localStorage trace].
  split; [reflexivity|]. do 6 (split; [reflexivity|]).
  split; [first [exact Ht | reflexivity]|]. split; [emits; reflexivity|].
  split; [reflexivity | apply snapshot_id].
Qed.

(** X26. [updateProfile] with nobody signed in throws "No user logged in"
    and does nothing.  Otherwise it succeeds: the user of the auth state
    becomes the old one with every field of [userData] applied, the role and
    the id included, and [updatedAt] set to the clock; authentication is as
    before; the new user is stored as JSON text; and one envelope,
    [user_profile_updated], is emitted, whose actor is the user as updated
    and whose [changes] are [userData] as given. *)
Theorem updateProfile_spec env userData s :
  let s' := snd (updateProfile env userData s) in
  match Auth.user (auth s) with
  | None => updateProfile env userData s = (Throw (Error "No user logged in"), s)
  | Some user =>
      let u := Profile.spread user userData
                 (Date.toISOString (clock env (ticks s))) in
      exists text p,
        fst (updateProfile env userData s) = Ok tt /\
        Auth.user (auth s') = Some u /\
        UserProfile.role u = default (UserProfile.role user) (Profile.role userData) /\
        Auth.isAuthenticated (auth s') = Auth.isAuthenticated (auth s) /\
        localStorage s' = <["pocketlaw_user" := text]> (localStorage s) /\
        Json.stringify (Profile.to_value u) = inr (Some text) /\
        emitted (trace s') = emitted (trace s) ++ [p] /\
        Payload.action p = "user_profile_updated" /\
        Payload.user p = UserProfile.actor u /\
        at_path ["changes"] (Payload.data p) = Profile.data_value userData
  end.
Proof.
  intros s'. subst s'. unfold updateProfile, userProfileUpdated. mred2.
  destruct (Auth.user (auth s)) as [user|] eqn:Hu; mred2.
  - match goal with
    | |- context [Json.stringify (Profile.to_value ?u)] =>
        destruct (profile_serializes u) as [text Ht]; rewrite Ht
    end.
    mrun2. exists text. eexists. split; [reflexivity|].
    cbn [snd auth localStorage trace Auth.authReducer Auth.user
         Auth.isAuthenticated].
    do 4 (split; [reflexivity|]). split; [first [exact Ht | reflexivity]|].
    split; [emits; reflexivity|]. split; [reflexivity|].
    split; [apply snapshot_id | reflexivity].
  - destruct s. reflexivity.
Qed.

Lemma logout_run env s u :
  Auth.user (auth s) = Some u ->
  exists p s',
    logout env s = (Ok tt, s') /\
    auth s' = {| Auth.user := None; Auth.isAuthenticated := false;
                 Auth.isLoading := false |} /\
    localStorage s' = delete "pocketlaw_user" (localStorage s) /\
    emitted (trace s') = emitted (trace s) ++ [p] /\
    Payload.action p = "user_logout" /\
    Payload.user p = UserProfile.actor u.
Proof.
  intros H. unfold logout, systemLogout. mred. rewrite H. mrun.
  do 2 eexists. split; [reflexivity|]. cbn [auth localStorage trace].
  do 2 (split; [reflexivity|]). split; [emits; reflexivity|].
  split; [reflexivity | apply snapshot_id].
Qed.

(** X27. Signing in and then logging out ends unauthenticated with the
    stored user record removed, having emitted [user_login] and then
    [user_logout], both with the same actor. *)
Theorem signIn_then_logout env email password s :
  fst (signIn env email password s) = Ok tt ->
  let s1 := snd (signIn env email password s) in
  let s2 := snd (logout env s1) in
  exists p1 p2,
    fst (logout env s1) = Ok tt /\
    Auth.user (auth s2) = None /\
    Auth.isAuthenticated (auth s2) = false /\
    localStorage s2 !! "pocketlaw_user" = None /\
    emitted (trace s2) = emitted (trace s) ++ [p1; p2] /\
    Payload.action p1 = "user_login" /\
    Payload.action p2 = "user_logout" /\
    Payload.user p1 = Payload.user p2.
Proof.
  rewrite signIn_run.
  destruct (_ && _); [|discriminate]. intros _ s1 s2. subst s1 s2.
  match goal with
  | |- context [signInAs env ?u ?st] =>
      destruct (signInAs_run env u st)
        as (text & p1 & s1 & -> & Ha & _ & _ & _ & He & _ & Hp1 & Hu1)
  end.
  cbn [snd trace] in *.
  destruct (logout_run env s1 _ (f_equal Auth.user Ha))
    as (p2 & s2 & -> & Ha2 & Hl2 & He2 & Hp2 & Hu2).
  cbn [fst snd]. exists p1, p2. split; [reflexivity|].
  rewrite Ha2, Hl2, He2, He, <- app_assoc.
  split; [reflexivity|]. split; [reflexivity|].
  split; [apply lookup_delete_eq|]. split; [reflexivity|].
  split; [exact Hp1|]. split; [exact Hp2|]. congruence.
Qed.

Lemma signIn_then_logout_witness :
  let env := browser in_2026 receiver_down in
  fst (signIn env "umar@pocketlaw.com" "password" initialState) = Ok tt /\
  exists p1 p2,
    emitted (trace (snd (logout env
       (snd (signIn env "umar@pocketlaw.com" "password" initialState))))) =
      emitted (trace initialState) ++ [p1; p2] /\
    Payload.user p1 = Payload.user p2.
Proof.
  intros env.
  assert (H : fst (signIn env "umar@pocketlaw.com" "password" initialState)
              = Ok tt) by (vm_compute; reflexivity).
  split; [exact H|].
  destruct (signIn_then_logout env _ _ initialState H)
    as (p1 & p2 & _ & _ & _ & _ & E & _ & _ & Hu).
  exists p1, p2. split; [exact E | exact Hu].
Defined.

(** X28. Whatever actions are dispatched from the initial state, the auth
    state is never authenticated without a user. *)
Theorem authReducer_invariant actions :
  let st := fold_left Auth.authReducer actions Auth.init in
  Auth.isAuthenticated st = true -> Auth.user st <> None.
Proof.
  cbn zeta.
  assert (G : forall st,
             (Auth.isAuthenticated st = true -> Auth.user st <> None) ->
             Auth.isAuthenticated (fold_left Auth.authReducer actions st) = true ->
             Auth.user (fold_left Auth.authReducer actions st) <> None).
  { induction actions as [|a l IH]; intros st Hst; [exact Hst|].
    cbn [fold_left]. apply IH.
    destruct a; cbn; try discriminate; auto. }
  apply G. discriminate.
Qed.

Lemma authReducer_invariant_witness :
  let actions := [Auth.AUTH_START; Auth.AUTH_SUCCESS (teamUser "" "");
                  Auth.UPDATE_USER (adminUser "" "")] in
  let st := fold_left Auth.authReducer actions Auth.init in
  Auth.isAuthenticated st = true /\ Auth.user st <> None.
Proof.
  intros actions st.
  assert (H : Auth.isAuthenticated st = true) by reflexivity.
  split; [exact H|]. exact (authReducer_invariant actions H).
Defined.

(** *** The document viewer *)

(** X29. Whatever the user clicks, the zoom of the viewer stays a multiple
    of 25 between 50 and 200, and the rotation is 0, 90, 180 or 270; zooming
    in at 200 and zooming out at 50 change nothing, and four rotations give
    back the rotation one started from. *)
Theorem viewer_stays_in_range clicks :
  let view := fold_left click clicks (100, 0)%Z in
  (50 <= fst view <= 200)%Z /\ (fst view mod 25 = 0)%Z /\
  In (snd view) [0; 90; 180; 270]%Z /\
  handleZoomIn 200 = 200%Z /\ handleZoomOut 50 = 50%Z /\
  handleRotate (handleRotate (handleRotate (handleRotate (snd view)))) =
    snd view.
Proof.
  cbn zeta.
  assert (G : forall view,
     ((50 <= fst view <= 200)%Z /\ (fst view mod 25 = 0)%Z /\
      In (snd view) [0; 90; 180; 270]%Z) ->
     let v := fold_left click clicks view in
     (50 <= fst v <= 200)%Z /\ (fst v mod 25 = 0)%Z /\
     In (snd v) [0; 90; 180; 270]%Z).
  { induction clicks as [|c l IH]; intros view Hv; [exact Hv|].
    cbn [fold_left]. apply IH. destruct Hv as (Hz & Hm & Hr).
    destruct c; cbn [click fst snd];
      unfold handleZoomIn, handleZoomOut, handleRotate.
    - split; [lia|]. split; [|exact Hr].
      apply Z.min_case_strong; intros; [|reflexivity].
      rewrite <- Z.add_mod_idemp_l, Hm by lia. reflexivity.
    - split; [lia|]. split; [|exact Hr].
      apply Z.max_case_strong; intros; [|reflexivity].
      rewrite Zminus_mod, Hm. reflexivity.
    - split; [exact Hz|]. split; [exact Hm|].
      cbn in Hr. destruct Hr as [<-|[<-|[<-|[<-|[]]]]]; cbn; tauto. }
  destruct (G (100, 0)%Z) as (Hz & Hm & Hr).
  { cbn. split; [lia|]. split; [reflexivity | tauto]. }
  split; [exact Hz|]. split; [exact Hm|]. split; [exact Hr|].
  split; [reflexivity|]. split; [reflexivity|].
  cbn in Hr. destruct Hr as [<-|[<-|[<-|[<-|[]]]]]; reflexivity.
Qed.
